(** * Dunkelflaute: the single-bus energy model and its result table

    A shallow embedding of [src/model.py] (class [Model]) and of the driver
    in [src/main.py].

    Numbers.  Python floats are idealised as exact rationals ([Q]); a pandas
    cell is an [option Q], [None] standing for NaN.  Equalities between
    computed quantities are therefore stated with [==] on [Q].

    Tables.  A pandas [DataFrame] is a row index together with a finite map
    from column labels to columns; a Python exception is a value of [exn]
    returned on the left of a sum. *)

From stdpp Require Import gmap strings list.
From Stdlib Require Import QArith Qminmax Lqa Qround.

Local Open Scope Q_scope.
Local Open Scope string_scope.

(** ** Float cells and pandas series *)

Module Pandas.

(** A float64 cell; [None] is NaN, which absorbs every arithmetic
    operation. *)
Abbreviation cell := (option Q).

Definition cell_binop (f : Q -> Q -> Q) (a b : cell) : cell :=
  match a, b with
  | Some x, Some y => Some (f x y)
  | _, _ => None
  end.

Definition cadd : cell -> cell -> cell := cell_binop Qplus.
Definition csub : cell -> cell -> cell := cell_binop Qminus.
Definition cmul : cell -> cell -> cell := cell_binop Qmult.

(** [cell_is c v]: the cell holds a number, and that number is [v] up to
    the equality of rationals. *)
Definition cell_is (c : cell) (v : Q) : Prop :=
  match c with
  | Some x => x == v
  | None => False
  end.

(** A series is the list of its cells in index order.  Every series of this
    program is indexed by the snapshots of the one network, so arithmetic
    between two series, which pandas aligns on index labels, is
    position-wise. *)
Abbreviation Series := (list cell).

Definition series_add (a b : Series) : Series := zip_with cadd a b.
Definition series_sub (a b : Series) : Series := zip_with csub a b.
(** [series * scalar]. *)
Definition series_scale (a : Series) (k : Q) : Series :=
  (fun c => cmul c (Some k)) <$> a.

(** [Series.reindex] onto an index of [n] labels carried by positions
    [0 .. n-1]: missing positions become NaN, extra ones are dropped. *)
Definition reindex (n : nat) (s : Series) : Series :=
  (fun t => mjoin (s !! t)) <$> seq 0 n.

Definition nan_series (n : nat) : Series := replicate n None.

(** The cell of a series at position [t]; NaN outside the series. *)
Definition at_ (s : Series) (t : nat) : cell := mjoin (s !! t).

Record DataFrame : Type := mkDataFrame {
  df_index : list Z;
  df_index_name : option string;
  df_columns : gmap string Series;
}.

(** [pd.DataFrame()]. *)
Definition empty_frame : DataFrame :=
  {| df_index := []; df_index_name := None; df_columns := ∅ |}.

End Pandas.
Export Pandas.

(** ** Python exceptions *)

Record exn : Type := Raise { exn_class : string; exn_arg : string }.

Definition KeyError (key : string) : exn := Raise "KeyError" key.
Definition ValueError (msg : string) : exn := Raise "ValueError" msg.

(** The outcome of a call: an exception raised, or a value returned. *)
Definition result (A : Type) : Type := (exn + A)%type.

Definition ret {A : Type} (a : A) : result A := inr a.
Definition raise {A : Type} (e : exn) : result A := inl e.

Definition bind {A B : Type} (c : result A) (k : A -> result B) : result B :=
  match c with
  | inl e => inl e
  | inr a => k a
  end.

Notation "'do' x <- c ; k" := (bind c (fun x => k))
  (at level 10, x binder, c at level 100, k at level 200,
   format "'[v' 'do'  x  <-  c ; '/' k ']'").

(** [frame[key]] and [d[key]]: a missing label raises [KeyError]. *)
Definition getitem {V : Type} (m : gmap string V) (key : string) : result V :=
  match m !! key with
  | Some v => ret v
  | None => raise (KeyError key)
  end.

(** ** The PyPSA network: component tables and their time series *)

Module Pypsa.

(** Static attributes of a [Generator]; the defaults are PyPSA's. *)
Record Generator : Type := mkGenerator {
  g_bus : string;
  g_p_nom : Q;
  g_p_nom_extendable : bool;
  g_p_nom_min : Q;
  g_p_max_pu : Q;
  g_marginal_cost : Q;
  g_capital_cost : Q;
}.

Definition default_generator (bus : string) : Generator :=
  {| g_bus := bus; g_p_nom := 0; g_p_nom_extendable := false;
     g_p_nom_min := 0; g_p_max_pu := 1; g_marginal_cost := 0;
     g_capital_cost := 0 |}.

Record Load : Type := mkLoad {
  l_bus : string;
  l_p_set : Q;
}.

Record StorageUnit : Type := mkStorageUnit {
  su_bus : string;
  su_p_nom : Q;
  su_max_hours : Q;
  su_cyclic_state_of_charge : bool;
  su_state_of_charge_initial : Q;
  su_efficiency_store : Q;
  su_efficiency_dispatch : Q;
  su_standing_loss : Q;
}.

(** A network.  The component tables keep insertion order; each [*_t_*]
    field is the column map of a frame whose index is [snapshots].  The
    output frames ([generators_t_p], [loads_t_p], [storage_units_t_*]) have
    no column until a solution is assigned. *)
Record Network : Type := mkNetwork {
  snapshots : list Z;
  buses : list string;
  generators : list (string * Generator);
  generators_t_p_max_pu : gmap string Series;
  generators_t_p : gmap string Series;
  generators_p_nom_opt : gmap string Q;
  loads : list (string * Load);
  loads_t_p_set : gmap string Series;
  loads_t_p : gmap string Series;
  storage_units : list (string * StorageUnit);
  storage_units_t_p : gmap string Series;
  storage_units_t_p_dispatch : gmap string Series;
  storage_units_t_p_store : gmap string Series;
  storage_units_t_state_of_charge : gmap string Series;
}.

(** [pypsa.Network()]. *)
Definition new_network : Network :=
  {| snapshots := []; buses := []; generators := [];
     generators_t_p_max_pu := ∅; generators_t_p := ∅;
     generators_p_nom_opt := ∅;
     loads := []; loads_t_p_set := ∅; loads_t_p := ∅;
     storage_units := []; storage_units_t_p := ∅;
     storage_units_t_p_dispatch := ∅; storage_units_t_p_store := ∅;
     storage_units_t_state_of_charge := ∅ |}.

(** [n.set_snapshots(index)].  PyPSA releases differ on an empty index:
    recent ones raise [ValueError], earlier ones store it.  The flag
    [strict] selects the behaviour, so that statements can cover both. *)
Definition set_snapshots (strict : bool) (index : list Z) (n : Network)
  : result Network :=
  if strict && bool_decide (index = [])
  then raise (ValueError "Snapshots must not be empty.")
  else ret
    {| snapshots := index; buses := buses n; generators := generators n;
       generators_t_p_max_pu := generators_t_p_max_pu n;
       generators_t_p := generators_t_p n;
       generators_p_nom_opt := generators_p_nom_opt n;
       loads := loads n; loads_t_p_set := loads_t_p_set n;
       loads_t_p := loads_t_p n;
       storage_units := storage_units n;
       storage_units_t_p := storage_units_t_p n;
       storage_units_t_p_dispatch := storage_units_t_p_dispatch n;
       storage_units_t_p_store := storage_units_t_p_store n;
       storage_units_t_state_of_charge := storage_units_t_state_of_charge n |}.

(** [n.add("Bus", name)]. *)
Definition add_bus (name : string) (n : Network) : Network :=
  {| snapshots := snapshots n; buses := buses n ++ [name];
     generators := generators n;
     generators_t_p_max_pu := generators_t_p_max_pu n;
     generators_t_p := generators_t_p n;
     generators_p_nom_opt := generators_p_nom_opt n;
     loads := loads n; loads_t_p_set := loads_t_p_set n;
     loads_t_p := loads_t_p n;
     storage_units := storage_units n;
     storage_units_t_p := storage_units_t_p n;
     storage_units_t_p_dispatch := storage_units_t_p_dispatch n;
     storage_units_t_p_store := storage_units_t_p_store n;
     storage_units_t_state_of_charge := storage_units_t_state_of_charge n |}.

(** [n.add("Generator", name, ..., p_max_pu=series)]: the static attributes
    join the table; a series given for [p_max_pu] is reindexed onto the
    snapshots and stored as a column of [generators_t.p_max_pu]. *)
Definition add_generator (name : string) (g : Generator)
    (p_max_pu : option Series) (n : Network) : Network :=
  {| snapshots := snapshots n; buses := buses n;
     generators := generators n ++ [(name, g)];
     generators_t_p_max_pu :=
       match p_max_pu with
       | Some s => <[name := reindex (length (snapshots n)) s]>
                     (generators_t_p_max_pu n)
       | None => generators_t_p_max_pu n
       end;
     generators_t_p := generators_t_p n;
     generators_p_nom_opt := generators_p_nom_opt n;
     loads := loads n; loads_t_p_set := loads_t_p_set n;
     loads_t_p := loads_t_p n;
     storage_units := storage_units n;
     storage_units_t_p := storage_units_t_p n;
     storage_units_t_p_dispatch := storage_units_t_p_dispatch n;
     storage_units_t_p_store := storage_units_t_p_store n;
     storage_units_t_state_of_charge := storage_units_t_state_of_charge n |}.

(** [n.add("Load", name, bus=..., p_set=series)]. *)
Definition add_load (name : string) (l : Load) (p_set : option Series)
    (n : Network) : Network :=
  {| snapshots := snapshots n; buses := buses n;
     generators := generators n;
     generators_t_p_max_pu := generators_t_p_max_pu n;
     generators_t_p := generators_t_p n;
     generators_p_nom_opt := generators_p_nom_opt n;
     loads := loads n ++ [(name, l)];
     loads_t_p_set :=
       match p_set with
       | Some s => <[name := reindex (length (snapshots n)) s]>
                     (loads_t_p_set n)
       | None => loads_t_p_set n
       end;
     loads_t_p := loads_t_p n;
     storage_units := storage_units n;
     storage_units_t_p := storage_units_t_p n;
     storage_units_t_p_dispatch := storage_units_t_p_dispatch n;
     storage_units_t_p_store := storage_units_t_p_store n;
     storage_units_t_state_of_charge := storage_units_t_state_of_charge n |}.

(** [n.add("StorageUnit", name, ...)]. *)
Definition add_storage_unit (name : string) (su : StorageUnit) (n : Network)
  : Network :=
  {| snapshots := snapshots n; buses := buses n;
     generators := generators n;
     generators_t_p_max_pu := generators_t_p_max_pu n;
     generators_t_p := generators_t_p n;
     generators_p_nom_opt := generators_p_nom_opt n;
     loads := loads n; loads_t_p_set := loads_t_p_set n;
     loads_t_p := loads_t_p n;
     storage_units := storage_units n ++ [(name, su)];
     storage_units_t_p := storage_units_t_p n;
     storage_units_t_p_dispatch := storage_units_t_p_dispatch n;
     storage_units_t_p_store := storage_units_t_p_store n;
     storage_units_t_state_of_charge := storage_units_t_state_of_charge n |}.

(** Replaces the frame [n.generators_t.p]. *)
Definition set_generators_t_p (cols : gmap string Series) (n : Network)
  : Network :=
  {| snapshots := snapshots n; buses := buses n;
     generators := generators n;
     generators_t_p_max_pu := generators_t_p_max_pu n;
     generators_t_p := cols;
     generators_p_nom_opt := generators_p_nom_opt n;
     loads := loads n; loads_t_p_set := loads_t_p_set n;
     loads_t_p := loads_t_p n;
     storage_units := storage_units n;
     storage_units_t_p := storage_units_t_p n;
     storage_units_t_p_dispatch := storage_units_t_p_dispatch n;
     storage_units_t_p_store := storage_units_t_p_store n;
     storage_units_t_state_of_charge := storage_units_t_state_of_charge n |}.

End Pypsa.
Export Pypsa.

(** ** The libraries' answers

    [network.optimize.create_model] assembles the linear program of the
    network, and [network.optimize.solve_model] hands it to the solver and
    returns the pair [(status, termination condition)]; when the status is
    ["ok"] it also writes the values of the decision variables into the
    network.  Both calls are outside this repository, so what they answer
    is an input of the embedding, and so is whether they raise. *)

Record Solution : Type := mkSolution {
  sol_p : string -> nat -> Q;
  sol_p_nom_opt : string -> Q;
  sol_p_dispatch : string -> nat -> Q;
  sol_p_store : string -> nat -> Q;
  sol_state_of_charge : string -> nat -> Q;
}.

Record SolverOutcome : Type := mkSolverOutcome {
  status : string;
  condition : string;
  solution : Solution;
}.

(** The values of a per-snapshot variable as a column. *)
Definition tabulate (T : nat) (f : nat -> Q) : Series :=
  (fun t => Some (f t)) <$> seq 0 T.

(** The set-point of a load as a column: its [p_set] series when one was
    given, its static [p_set] otherwise. *)
Definition load_p_set (n : Network) (name : string) (l : Load) : Series :=
  match loads_t_p_set n !! name with
  | Some s => s
  | None => replicate (length (snapshots n)) (Some (l_p_set l))
  end.

(** The power of a load as the output frame [loads_t.p] has it: its
    set-point, a missing one (NaN) counting as 0. *)
Definition load_power (n : Network) (name : string) (l : Load) : Series :=
  (fun c : cell => Some (default 0 c)) <$> load_p_set n name l.

(** PyPSA's [assign_solution]: one column per component in each output
    frame. *)
Definition assign_solution (sol : Solution) (n : Network) : Network :=
  let T := length (snapshots n) in
  let per_su (f : string -> nat -> Q) : gmap string Series :=
    list_to_map ((fun '(name, _) => (name, tabulate T (f name)))
                   <$> storage_units n) in
  {| snapshots := snapshots n; buses := buses n;
     generators := generators n;
     generators_t_p_max_pu := generators_t_p_max_pu n;
     generators_t_p :=
       list_to_map ((fun '(name, _) => (name, tabulate T (sol_p sol name)))
                      <$> generators n);
     generators_p_nom_opt :=
       list_to_map ((fun '(name, g) =>
                       (name, if g_p_nom_extendable g
                              then sol_p_nom_opt sol name else g_p_nom g))
                      <$> generators n);
     loads := loads n; loads_t_p_set := loads_t_p_set n;
     loads_t_p :=
       list_to_map ((fun '(name, l) => (name, load_power n name l))
                      <$> loads n);
     storage_units := storage_units n;
     storage_units_t_p :=
       per_su (fun name t => sol_p_dispatch sol name t - sol_p_store sol name t);
     storage_units_t_p_dispatch := per_su (sol_p_dispatch sol);
     storage_units_t_p_store := per_su (sol_p_store sol);
     storage_units_t_state_of_charge := per_su (sol_state_of_charge sol) |}.

(** What the two library calls of [optimize] answer: each either raises
    or returns.  ([create_model] raises, for one, on a snapshot index with
    a repeated label.) *)
Record Library : Type := mkLibrary {
  create_model_answer : result unit;
  solve_model_answer : result SolverOutcome;
}.

(** The library whose calls both return, the solver answering [out]. *)
Definition answers (out : SolverOutcome) : Library :=
  {| create_model_answer := ret tt; solve_model_answer := ret out |}.

(** [network.optimize.create_model()].  The linear program that it returns
    is determined by the network (it is the one of [LP] below), so the
    value returned carries nothing. *)
Definition create_model (lib : Library) (n : Network) : result unit :=
  create_model_answer lib.

(** [network.optimize.solve_model(...)]: the solution is assigned only on
    status ["ok"]. *)
Definition solve_model (lib : Library) (n : Network)
  : result (Network * (string * string)) :=
  do out <- solve_model_answer lib;
  ret (if String.eqb (status out) "ok"
       then assign_solution (solution out) n else n,
       (status out, condition out)).

(** ** class Model *)

Module Model.

Record t : Type := mkModel {
  df_profiles : DataFrame;
  installed_capacities : gmap string Q;
  charge_efficiency : Q;
  discharge_efficiency : Q;
  marginal_cost_residual : Q;
  capital_cost_residual : Q;
  min_installed_cap_residual : Q;
  network : Network;
  opt_state : option (string * string);
}.

(** [self.network = n]. *)
Definition set_network (n : Network) (self : t) : t :=
  {| df_profiles := df_profiles self;
     installed_capacities := installed_capacities self;
     charge_efficiency := charge_efficiency self;
     discharge_efficiency := discharge_efficiency self;
     marginal_cost_residual := marginal_cost_residual self;
     capital_cost_residual := capital_cost_residual self;
     min_installed_cap_residual := min_installed_cap_residual self;
     network := n;
     opt_state := opt_state self |}.

Definition set_opt_state (st : string * string) (self : t) : t :=
  {| df_profiles := df_profiles self;
     installed_capacities := installed_capacities self;
     charge_efficiency := charge_efficiency self;
     discharge_efficiency := discharge_efficiency self;
     marginal_cost_residual := marginal_cost_residual self;
     capital_cost_residual := capital_cost_residual self;
     min_installed_cap_residual := min_installed_cap_residual self;
     network := network self;
     opt_state := Some st |}.

(** A generator of fixed capacity on bus "DE" with the nominal marginal
    cost 0.1 that the five renewable technologies share. *)
Definition renewable (p_nom : Q) : Generator :=
  {| g_bus := "DE"; g_p_nom := p_nom; g_p_nom_extendable := false;
     g_p_nom_min := 0; g_p_max_pu := 1; g_marginal_cost := 1 # 10;
     g_capital_cost := 0 |}.

Section Build.

(** Whether the installed PyPSA rejects an empty snapshot index. *)
Variable strict : bool.

(** Sets up the PyPSA network and sets the time steps. *)
Definition setup_network (self : t) : result t :=
  do n <- set_snapshots strict (df_index (df_profiles self)) new_network;
  ret (set_network (add_bus "DE" n) self).

(** Adds power generator units to the network. *)
Definition add_generators (self : t) : result t :=
  let caps := installed_capacities self in
  let cols := df_columns (df_profiles self) in
  let n := network self in
  do p_nom <- getitem caps "pv";
  do profile <- getitem cols "pv_profile";
  let n := add_generator "pv" (renewable p_nom) (Some profile) n in
  do p_nom <- getitem caps "wind_on";
  do profile <- getitem cols "wind_on_profile";
  let n := add_generator "wind_on" (renewable p_nom) (Some profile) n in
  do p_nom <- getitem caps "wind_off";
  do profile <- getitem cols "wind_off_profile";
  let n := add_generator "wind_off" (renewable p_nom) (Some profile) n in
  do p_nom <- getitem caps "biomass";
  do profile <- getitem cols "biomass_profile";
  let n := add_generator "biomass" (renewable p_nom) (Some profile) n in
  do p_nom <- getitem caps "hydro";
  do profile <- getitem cols "hydro_profile";
  let n := add_generator "hydro" (renewable p_nom) (Some profile) n in
  let n := add_generator "residual_load"
             {| g_bus := "DE"; g_p_nom := 0; g_p_nom_extendable := true;
                g_p_nom_min := min_installed_cap_residual self;
                g_p_max_pu := 1;
                g_marginal_cost := marginal_cost_residual self;
                g_capital_cost := capital_cost_residual self |}
             None n in
  ret (set_network n self).

(** Initializes a power system model. *)
Definition __init__ (df_profiles : DataFrame)
    (load pv_p_inst wind_on_p_inst wind_off_p_inst bio_p_inst hydro_p_inst
     batteries_p_inst batteries_duration charge_efficiency
     discharge_efficiency marginal_cost_residual capital_cost_residual
     min_installed_cap_residual : Q) : result t :=
  let self :=
    {| df_profiles := df_profiles;
       installed_capacities :=
         <["batteries_duration" := batteries_duration]>
         (<["batteries_p_inst" := batteries_p_inst]>
         (<["hydro" := hydro_p_inst]>
         (<["biomass" := bio_p_inst]>
         (<["wind_off" := wind_off_p_inst]>
         (<["wind_on" := wind_on_p_inst]>
         (<["pv" := pv_p_inst]> ∅))))));
       charge_efficiency := charge_efficiency;
       discharge_efficiency := discharge_efficiency;
       marginal_cost_residual := marginal_cost_residual;
       capital_cost_residual := capital_cost_residual;
       min_installed_cap_residual := min_installed_cap_residual;
       network := new_network;
       opt_state := None |} in
  do self <- setup_network self;
  do self <- add_generators self;
  do load_profile <- getitem (df_columns df_profiles) "load_profile";
  let n := add_load "load" {| l_bus := "DE"; l_p_set := 0 |}
             (Some (series_scale load_profile load)) (network self) in
  do p_nom <- getitem (installed_capacities self) "batteries_p_inst";
  do max_hours <- getitem (installed_capacities self) "batteries_duration";
  let n := add_storage_unit "batteries"
             {| su_bus := "DE"; su_p_nom := p_nom; su_max_hours := max_hours;
                su_cyclic_state_of_charge := true;
                su_state_of_charge_initial := 0;
                su_efficiency_store := Model.charge_efficiency self;
                su_efficiency_dispatch := Model.discharge_efficiency self;
                su_standing_loss := 1 # 10000 |} n in
  ret (set_network n self).

End Build.

(** Runs the optimization and returns the status.  Nothing is caught: an
    exception of either library call ends the method, before anything is
    assigned.  [self.m], the linear program created from the network, is
    determined by the network (see [LP] below) and is not kept as a
    field. *)
Definition optimize (lib : Library) (self : t)
  : result (t * (string * string)) :=
  do m <- create_model lib (network self);
  do opt_state <- solve_model lib (network self);
  let '(n, st) := opt_state in
  ret (set_opt_state st (set_network n self), st).

(** [frame * series]: the series is aligned on the frame's columns with an
    outer join, so the product has a column for every label of either
    side, NaN where one side lacks the label. *)
Definition frame_mul (T : nat) (cols : gmap string Series)
    (s : gmap string Q) : gmap string Series :=
  merge (fun col v =>
           match col, v with
           | Some c, Some k => Some (series_scale c k)
           | Some c, None => Some (nan_series (length c))
           | None, Some _ => Some (nan_series T)
           | None, None => None
           end) cols s.

(** The column [generators.p_nom] of the static generator table. *)
Definition generators_p_nom (n : Network) : gmap string Q :=
  list_to_map ((fun '(name, g) => (name, g_p_nom g)) <$> generators n).

(** Extracts relevant results from network variable and puts them into one
    DataFrame.  [df_actual_generation] is the network's own frame
    [generators_t.p], not a copy: the column added to it is added to the
    network, so the method returns the table together with the model as it
    leaves it. *)
Definition get_results (self : t) : result (DataFrame * t) :=
  let n := network self in
  let df_power_availability :=
    frame_mul (length (snapshots n)) (generators_t_p_max_pu n)
      (generators_p_nom n) in
  do pv <- getitem df_power_availability "pv";
  do wind_on <- getitem df_power_availability "wind_on";
  do wind_off <- getitem df_power_availability "wind_off";
  do biomass <- getitem df_power_availability "biomass";
  do hydro <- getitem df_power_availability "hydro";
  let df_power_availability :=
    <["re_power_availability" :=
        series_add (series_add (series_add (series_add pv wind_on) wind_off)
                      biomass) hydro]> df_power_availability in
  let df_actual_generation := generators_t_p n in
  do a_pv <- getitem df_actual_generation "pv";
  do a_wind_on <- getitem df_actual_generation "wind_on";
  do a_wind_off <- getitem df_actual_generation "wind_off";
  do a_biomass <- getitem df_actual_generation "biomass";
  do a_hydro <- getitem df_actual_generation "hydro";
  let df_actual_generation :=
    <["actual_re_generation" :=
        series_add (series_add (series_add (series_add a_pv a_wind_on)
                      a_wind_off) a_biomass) a_hydro]> df_actual_generation in
  let n' := set_generators_t_p df_actual_generation n in
  let self' := set_network n' self in
  let df_result : gmap string Series := ∅ in
  do c <- getitem df_power_availability "pv";
  let df_result := <["pv" := c]> df_result in
  do c <- getitem df_power_availability "wind_on";
  let df_result := <["wind_on" := c]> df_result in
  do c <- getitem df_power_availability "wind_off";
  let df_result := <["wind_off" := c]> df_result in
  do c <- getitem df_power_availability "biomass";
  let df_result := <["biomass" := c]> df_result in
  do c <- getitem df_power_availability "hydro";
  let df_result := <["hydro" := c]> df_result in
  do c <- getitem (storage_units_t_p n) "batteries";
  let df_result := <["batteries" := c]> df_result in
  do c <- getitem (loads_t_p n) "load";
  let df_result := <["load" := c]> df_result in
  do avail <- getitem df_power_availability "re_power_availability";
  do actual <- getitem df_actual_generation "actual_re_generation";
  let df_result := <["curtailed_re" := series_sub avail actual]> df_result in
  do r_load <- getitem df_result "load";
  do avail <- getitem df_power_availability "re_power_availability";
  do r_batteries <- getitem df_result "batteries";
  let df_result :=
    <["residual_load" := series_sub (series_sub r_load avail) r_batteries]>
      df_result in
  ret ({| df_index := snapshots n; df_index_name := Some "time";
          df_columns := df_result |}, self').

End Model.

(** ** The plot, [plot_results] *)

(** A scatter trace of the figure: its legend name, its x and y data and
    its stack group.  Colours, fill patterns and the layout do not bear on
    the data and are left out. *)
Record trace : Type := mkTrace {
  tr_name : string;
  tr_x : list Z;
  tr_y : Series;
  tr_stackgroup : option string;
}.

(** [DataFrame.round] is numpy's rounding of binary floats, which is not a
    function of the exact rationals that stand for the cells here (it
    rounds the float product of the cell and a power of ten).  The rounding
    of a cell is therefore a parameter [round_] of everything that plots:
    [round_ d x] stands for the float [x] rounded to [d] decimals, and the
    statements assume of it only what they say. *)
Abbreviation Rounding := (nat -> Q -> Q).

(** [series.round(digits)]; NaN stays NaN. *)
Definition series_round (round_ : Rounding) (digits : nat) (s : Series)
  : Series :=
  (fun c : cell => round_ digits <$> c) <$> s.

(** [frame.round(digits)]. *)
Definition frame_round (round_ : Rounding) (digits : nat)
    (cols : gmap string Series) : gmap string Series :=
  series_round round_ digits <$> cols.

(** [frame / k]. *)
Definition frame_div (df : DataFrame) (k : Q) : DataFrame :=
  {| df_index := df_index df; df_index_name := df_index_name df;
     df_columns :=
       (fun s : Series => (fun c : cell => cell_binop Qdiv c (Some k)) <$> s)
         <$> df_columns df |}.

(** [s.loc[s < 0] = 0] (a comparison with NaN is false). *)
Definition clamp_negative (s : Series) : Series :=
  (fun c : cell =>
     match c with
     | Some x => if Qle_bool 0 x then Some x else Some 0
     | None => None
     end) <$> s.

(** [frame.loc[mask, c]] assigned to a column of the same frame: the rows
    of the mask keep their value, the others are NaN. *)
Definition select_rows (keep : Q -> bool) (s : Series) : Series :=
  (fun c : cell =>
     match c with
     | Some x => if keep x then Some x else None
     | None => None
     end) <$> s.

(** [fig.add_scatter(x=..., y=..., name=..., stackgroup=...)]. *)
Definition add_scatter (x : list Z) (y : Series) (name : string)
    (stackgroup : option string) (fig : list trace) : list trace :=
  fig ++ [mkTrace name x y stackgroup].

(** Steps of [plot_results]: each reads or writes the frame [df_plot] that
    the caller passed, and may raise. *)
Module Plot.

Definition M (A : Type) : Type := DataFrame -> DataFrame * result A.

Definition pure {A : Type} (a : A) : M A := fun df => (df, ret a).

Definition bind {A B : Type} (c : M A) (k : A -> M B) : M B :=
  fun df =>
    match c df with
    | (df', inl e) => (df', inl e)
    | (df', inr a) => k a df'
    end.

(** [df_plot.index]. *)
Definition index : M (list Z) := fun df => (df, ret (df_index df)).

(** [df_plot[c]]. *)
Definition column (c : string) : M Series :=
  fun df => (df, getitem (df_columns df) c).

(** [df_plot.round(digits)[c]]. *)
Definition rounded (round_ : Rounding) (digits : nat) (c : string)
  : M Series :=
  fun df => (df, getitem (frame_round round_ digits (df_columns df)) c).

(** [df_plot[c] = s]. *)
Definition assign (c : string) (s : Series) : M unit :=
  fun df =>
    ({| df_index := df_index df; df_index_name := df_index_name df;
        df_columns := <[c := s]> (df_columns df) |}, ret tt).

End Plot.

Notation "'let*' x := c 'in' k" := (Plot.bind c (fun x => k))
  (at level 10, x binder, c at level 100, k at level 200,
   format "'[v' 'let*'  x  :=  c  'in' '/' k ']'").

(** Returns a plotly figure object with traces for electricity generation
    and load.  The result is the figure's list of traces, next to the frame
    [df_plot] as the call leaves it. *)
Definition plot_results (round_ : Rounding) : Plot.M (list trace) :=
  let round_digits := 2%nat in
  let fig := [] in
  let* x := Plot.index in
  let* y := Plot.rounded round_ round_digits "hydro" in
  let fig := add_scatter x y "hydro" (Some "ee") fig in
  let* x := Plot.index in
  let* y := Plot.rounded round_ round_digits "biomass" in
  let fig := add_scatter x y "biomass" (Some "ee") fig in
  let* x := Plot.index in
  let* y := Plot.rounded round_ round_digits "wind_off" in
  let fig := add_scatter x y "wind offshore" (Some "ee") fig in
  let* x := Plot.index in
  let* y := Plot.rounded round_ round_digits "wind_on" in
  let fig := add_scatter x y "wind onshore" (Some "ee") fig in
  let* x := Plot.index in
  let* y := Plot.rounded round_ round_digits "pv" in
  let fig := add_scatter x y "pv" (Some "ee") fig in
  let* residual_load := Plot.column "residual_load" in
  let residual_load := clamp_negative residual_load in
  let* x := Plot.index in
  let fig := add_scatter x (series_round round_ round_digits residual_load)
               "residual load" (Some "ee") fig in
  let* batteries := Plot.column "batteries" in
  let* _ := Plot.assign "charge"
              (select_rows (fun v => Qle_bool v 0) batteries) in
  let* batteries := Plot.column "batteries" in
  let* _ := Plot.assign "discharge"
              (select_rows (fun v => negb (Qle_bool v 0)) batteries) in
  let* x := Plot.index in
  let* y := Plot.rounded round_ round_digits "charge" in
  let fig := add_scatter x y "batteries (charge)" (Some "ee") fig in
  let* x := Plot.index in
  let* y := Plot.rounded round_ round_digits "discharge" in
  let fig := add_scatter x y "batteries (discharge)" (Some "ee") fig in
  let* x := Plot.index in
  let* y := Plot.rounded round_ round_digits "load" in
  let fig := add_scatter x y "load" None fig in
  Plot.pure fig.

(** ** The driver, [main.py] *)

Inductive event : Type :=
| log_info (msg : string)
| log_error (msg : string)
(** "Installed backup power plant capacity: ... GW" *)
| log_backup_capacity (gw : cell)
(** "Electrical energy from backup power plants: ... TWh/a" *)
| log_backup_energy (twh : cell)
(** "Curtailed Renewables: ... TWh/a" *)
| log_curtailed (twh : cell)
(** [fig.write_html(path)] *)
| write_html (fig : list trace) (path : string).

(** [s.loc[s > 0]]: the numbers of a series that exceed zero (a comparison
    with NaN is false). *)
Definition positive_part (s : Series) : list Q :=
  omap (fun c : cell =>
          match c with
          | Some x => if Qle_bool x 0 then None else Some x
          | None => None
          end) s.

(** [.max()]: NaN for an empty selection. *)
Definition series_max (l : list Q) : cell :=
  match l with
  | [] => None
  | x :: r => Some (fold_left Qmax r x)
  end.

(** [.sum()], which skips NaN. *)
Definition series_sum (s : Series) : Q :=
  fold_right (fun (c : cell) acc => match c with Some x => x + acc | None => acc end)
    0 s.

(** The body of [main] from line 13 on, for the profile table that line 11
    is to provide ("replace with meaningful data"); the events it emitted
    and how it ended.  Nothing is caught: an exception of the constructor,
    of [optimize], of [get_results] or of [plot_results] ends it. *)
Definition main_body (strict : bool) (round_ : Rounding) (lib : Library)
    (df_profiles : DataFrame) : list event * result unit :=
  let log := [log_info "Initialize model"] in
  match Model.__init__ strict df_profiles 750000000 215000 115000 30000 5200
          2100 25000 4 (9 # 10) 1 100 1000 0 with
  | inl e => (log, raise e)
  | inr germany_model =>
    let log := (log ++ [log_info "Run optimization"])%list in
    match Model.optimize lib germany_model with
    | inl e => (log, raise e)
    | inr (germany_model, opt_state) =>
      if String.eqb (fst opt_state) "ok" then
        let log := (log ++ [log_info "Optimization successful"])%list in
        match Model.get_results germany_model with
        | inl e => (log, raise e)
        | inr (df_result, _) =>
          match getitem (df_columns df_result) "residual_load",
                getitem (df_columns df_result) "curtailed_re" with
          | inl e, _ => (log, raise e)
          | inr residual_load, c =>
            let backup := positive_part residual_load in
            let log := (log ++
              [log_backup_capacity
                 (cmul (series_max backup) (Some (/ 1000)));
               log_backup_energy
                 (Some (series_sum (Some <$> backup) / 1000000))])%list in
            match c with
            | inl e => (log, raise e)
            | inr curtailed_re =>
              let log := (log ++
                [log_curtailed
                   (Some (series_sum curtailed_re / 1000000))])%list in
              match snd (plot_results round_ (frame_div df_result 1000)) with
              | inl e => (log, raise e)
              | inr fig =>
                ((log ++ [write_html fig "result_plot.html"])%list, ret tt)
              end
            end
          end
        end
      else ((log ++ [log_error "Optimization not successful"])%list, ret tt)
    end
  end.

(** [main()]: the profile table is the placeholder [pd.DataFrame()] of
    line 11. *)
Definition main (strict : bool) (round_ : Rounding) (lib : Library)
  : list event * result unit :=
  main_body strict round_ lib empty_frame.

(** ** The linear program of a network *)

(** Modelled from the spec: the linear program is assembled by the PyPSA
    library ([network.optimize.create_model]) and solved by an external
    solver, neither of which is part of src/.  [LP] states, component by
    component, the constraints and the objective that section 4.1 lists
    (they are PyPSA's formulation for generators, loads and storage units
    on hourly snapshots): the availability ceiling of each generator, the
    lower bound on an extendable capacity, the power, energy and
    state-of-charge equations of each storage unit, and the balance of each
    bus. *)
Module LP.

Definition sumQ (l : list Q) : Q := fold_right Qplus 0 l.

(** [a <= b] for a bound read from a table: false when the bound is NaN. *)
Definition le_cell (a : Q) (b : cell) : bool :=
  match b with
  | Some v => Qle_bool a v
  | None => false
  end.

Definition eq_cell (a : Q) (b : cell) : bool :=
  match b with
  | Some v => Qeq_bool a v
  | None => false
  end.

Section Program.

Variable n : Network.
Variable x : Solution.

Definition horizon : nat := length (snapshots n).

(** The capacity a generator's dispatch is bounded by: the optimised
    capacity when extendable, the installed one otherwise. *)
Definition capacity (name : string) (g : Generator) : Q :=
  if g_p_nom_extendable g then sol_p_nom_opt x name else g_p_nom g.

(** The per-unit availability at snapshot [t]: the series when one was
    given, the static value otherwise. *)
Definition availability (name : string) (g : Generator) (t : nat) : cell :=
  match generators_t_p_max_pu n !! name with
  | Some s => at_ s t
  | None => Some (g_p_max_pu g)
  end.

(** [0 <= p(t) <= p_max_pu(t) * p_nom], and [p_nom_min <= p_nom] for an
    extendable generator. *)
Definition generator_ok (entry : string * Generator) : bool :=
  let '(name, g) := entry in
  (if g_p_nom_extendable g
   then Qle_bool (g_p_nom_min g) (sol_p_nom_opt x name) else true)
  && forallb (fun t =>
       Qle_bool 0 (sol_p x name t)
       && le_cell (sol_p x name t)
            (cmul (availability name g t) (Some (capacity name g))))
     (seq 0 horizon).

(** The state of charge a transition starts from: that of the previous
    snapshot, and for the first snapshot that of the last one when the
    unit is cyclic, the initial one otherwise. *)
Definition soc_before (name : string) (su : StorageUnit) (t : nat) : Q :=
  match t with
  | O => if su_cyclic_state_of_charge su
         then sol_state_of_charge x name (horizon - 1)
         else su_state_of_charge_initial su
  | S t' => sol_state_of_charge x name t'
  end.

Definition storage_ok (entry : string * StorageUnit) : bool :=
  let '(name, su) := entry in
  forallb (fun t =>
       Qle_bool 0 (sol_p_dispatch x name t)
       && Qle_bool (sol_p_dispatch x name t) (su_p_nom su)
       && Qle_bool 0 (sol_p_store x name t)
       && Qle_bool (sol_p_store x name t) (su_p_nom su)
       && Qle_bool 0 (sol_state_of_charge x name t)
       && Qle_bool (sol_state_of_charge x name t)
            (su_p_nom su * su_max_hours su)
       && Qeq_bool (sol_state_of_charge x name t)
            ((1 - su_standing_loss su) * soc_before name su t
             + su_efficiency_store su * sol_p_store x name t
             - sol_p_dispatch x name t / su_efficiency_dispatch su))
     (seq 0 horizon).

(** The power fed into bus [b] at [t] by generators and storage units. *)
Definition injection (b : string) (t : nat) : Q :=
  sumQ ((fun '(name, g) =>
           if String.eqb (g_bus g) b then sol_p x name t else 0)
          <$> generators n)
  + sumQ ((fun '(name, su) =>
             if String.eqb (su_bus su) b
             then sol_p_dispatch x name t - sol_p_store x name t else 0)
            <$> storage_units n).

(** The power drawn from bus [b] at [t] by loads. *)
Definition withdrawal (b : string) (t : nat) : cell :=
  fold_right cadd (Some 0)
    ((fun '(name, l) =>
        if String.eqb (l_bus l) b then at_ (load_p_set n name l) t else Some 0)
       <$> loads n).

Definition balance_ok (b : string) : bool :=
  forallb (fun t => eq_cell (injection b t) (withdrawal b t)) (seq 0 horizon).

Definition feasibleb : bool :=
  forallb generator_ok (generators n)
  && forallb storage_ok (storage_units n)
  && forallb balance_ok (buses n).

(** Total cost: dispatch at marginal cost over the horizon, plus the
    capital cost of every optimised capacity. *)
Definition objective : Q :=
  sumQ ((fun '(name, g) =>
           g_marginal_cost g * sumQ (sol_p x name <$> seq 0 horizon)
           + (if g_p_nom_extendable g
              then g_capital_cost g * sol_p_nom_opt x name else 0))
          <$> generators n).

End Program.

Definition feasible (n : Network) (x : Solution) : Prop := feasibleb n x = true.

(** What the solver returns with status "ok": a feasible assignment of
    least cost. *)
Definition optimal (n : Network) (x : Solution) : Prop :=
  feasible n x /\ forall y, feasible n y -> objective n x <= objective n y.

End LP.

(** * Properties *)

(** ** Cells, series and lookups *)

Lemma at_reindex (n : nat) (s : Series) (t : nat) :
  (t < n)%nat -> at_ (reindex n s) t = at_ s t.
Proof.
  intros Ht. unfold at_, reindex.
  rewrite list_lookup_fmap, lookup_seq_lt by done. reflexivity.
Qed.

Lemma at_fillna (n : nat) (s : Series) (t : nat) :
  (t < n)%nat ->
  at_ ((fun c : cell => Some (default 0 c)) <$> reindex n s) t
  = Some (default 0 (at_ s t)).
Proof.
  intros Ht. unfold at_, reindex.
  rewrite !list_lookup_fmap, lookup_seq_lt by done. reflexivity.
Qed.

Lemma at_tabulate (T : nat) (f : nat -> Q) (t : nat) :
  (t < T)%nat -> at_ (tabulate T f) t = Some (f t).
Proof.
  intros Ht. unfold at_, tabulate.
  rewrite list_lookup_fmap, lookup_seq_lt by done. reflexivity.
Qed.

Lemma at_series_scale (s : Series) (k : Q) (t : nat) :
  at_ (series_scale s k) t = cmul (at_ s t) (Some k).
Proof.
  unfold at_, series_scale. rewrite list_lookup_fmap.
  destruct (s !! t) as [c|]; reflexivity.
Qed.

Lemma at_zip_with (f : Q -> Q -> Q) (a b : Series) (t : nat) :
  at_ (zip_with (cell_binop f) a b) t = cell_binop f (at_ a t) (at_ b t).
Proof.
  unfold at_. rewrite lookup_zip_with.
  destruct (a !! t) as [ca|], (b !! t) as [cb|]; simpl; try reflexivity.
  destruct ca; reflexivity.
Qed.

Lemma at_series_add (a b : Series) (t : nat) :
  at_ (series_add a b) t = cadd (at_ a t) (at_ b t).
Proof. apply at_zip_with. Qed.

Lemma at_series_sub (a b : Series) (t : nat) :
  at_ (series_sub a b) t = csub (at_ a t) (at_ b t).
Proof. apply at_zip_with. Qed.

Lemma length_reindex (n : nat) (s : Series) : length (reindex n s) = n.
Proof. unfold reindex. by rewrite length_fmap, length_seq. Qed.

Lemma length_tabulate (T : nat) (f : nat -> Q) : length (tabulate T f) = T.
Proof. unfold tabulate. by rewrite length_fmap, length_seq. Qed.

Lemma getitem_insert_eq {V : Type} (m : gmap string V) (k : string) (v : V) :
  getitem (<[k:=v]> m) k = ret v.
Proof. unfold getitem. by rewrite lookup_insert_eq. Qed.

Lemma getitem_insert_ne {V : Type} (m : gmap string V) (k k' : string) (v : V) :
  k <> k' -> getitem (<[k:=v]> m) k' = getitem m k'.
Proof. intros. unfold getitem. by rewrite lookup_insert_ne. Qed.

Lemma getitem_empty {V : Type} (k : string) :
  getitem (∅ : gmap string V) k = raise (KeyError k).
Proof. unfold getitem. by rewrite lookup_empty. Qed.

Lemma getitem_frame_mul (T : nat) (cols : gmap string Series)
    (s : gmap string Q) (k : string) :
  getitem (Model.frame_mul T cols s) k =
  match cols !! k, s !! k with
  | Some c, Some v => ret (series_scale c v)
  | Some c, None => ret (nan_series (length c))
  | None, Some _ => ret (nan_series T)
  | None, None => raise (KeyError k)
  end.
Proof.
  unfold getitem, Model.frame_mul. rewrite lookup_merge.
  destruct (cols !! k), (s !! k); reflexivity.
Qed.

(** Lookups in maps written as chains of insertions under literal keys. *)
Ltac getitem_lit :=
  repeat first [ rewrite getitem_insert_eq
               | rewrite getitem_insert_ne by done
               | rewrite getitem_empty ].

Ltac lookup_lit :=
  repeat first [ rewrite lookup_insert_eq
               | rewrite lookup_insert_ne by done
               | rewrite lookup_empty ].

(** ** The network that the constructor builds *)

(** The dictionary [self.installed_capacities]. *)
Definition capacities (pv won woff bio hyd bat dur : Q) : gmap string Q :=
  <["batteries_duration" := dur]>
  (<["batteries_p_inst" := bat]>
  (<["hydro" := hyd]>
  (<["biomass" := bio]>
  (<["wind_off" := woff]>
  (<["wind_on" := won]>
  (<["pv" := pv]> ∅)))))).

(** The network at the end of [Model.__init__], written out; [init_inr]
    proves that the constructor returns exactly this. *)
Definition built_network (index : list Z)
    (pvp wonp woffp biop hydp loadp : Series)
    (load pv won woff bio hyd bat dur ce de mc cc mincap : Q) : Network :=
  let T := length index in
  {| snapshots := index; buses := ["DE"];
     generators :=
       [("pv", Model.renewable pv); ("wind_on", Model.renewable won);
        ("wind_off", Model.renewable woff); ("biomass", Model.renewable bio);
        ("hydro", Model.renewable hyd);
        ("residual_load",
         {| g_bus := "DE"; g_p_nom := 0; g_p_nom_extendable := true;
            g_p_nom_min := mincap; g_p_max_pu := 1; g_marginal_cost := mc;
            g_capital_cost := cc |})];
     generators_t_p_max_pu :=
       <["hydro" := reindex T hydp]> (<["biomass" := reindex T biop]>
       (<["wind_off" := reindex T woffp]> (<["wind_on" := reindex T wonp]>
       (<["pv" := reindex T pvp]> ∅))));
     generators_t_p := ∅; generators_p_nom_opt := ∅;
     loads := [("load", {| l_bus := "DE"; l_p_set := 0 |})];
     loads_t_p_set := <["load" := reindex T (series_scale loadp load)]> ∅;
     loads_t_p := ∅;
     storage_units :=
       [("batteries",
         {| su_bus := "DE"; su_p_nom := bat; su_max_hours := dur;
            su_cyclic_state_of_charge := true;
            su_state_of_charge_initial := 0;
            su_efficiency_store := ce; su_efficiency_dispatch := de;
            su_standing_loss := 1 # 10000 |})];
     storage_units_t_p := ∅; storage_units_t_p_dispatch := ∅;
     storage_units_t_p_store := ∅; storage_units_t_state_of_charge := ∅ |}.

Lemma init_inr (strict : bool) (df : DataFrame)
    (load pv won woff bio hyd bat dur ce de mc cc mincap : Q) (m : Model.t) :
  Model.__init__ strict df load pv won woff bio hyd bat dur ce de mc cc mincap
    = inr m <->
  (strict && bool_decide (df_index df = []) = false) /\
  exists pvp wonp woffp biop hydp loadp,
    df_columns df !! "pv_profile" = Some pvp /\
    df_columns df !! "wind_on_profile" = Some wonp /\
    df_columns df !! "wind_off_profile" = Some woffp /\
    df_columns df !! "biomass_profile" = Some biop /\
    df_columns df !! "hydro_profile" = Some hydp /\
    df_columns df !! "load_profile" = Some loadp /\
    m = {| Model.df_profiles := df;
           Model.installed_capacities := capacities pv won woff bio hyd bat dur;
           Model.charge_efficiency := ce; Model.discharge_efficiency := de;
           Model.marginal_cost_residual := mc;
           Model.capital_cost_residual := cc;
           Model.min_installed_cap_residual := mincap;
           Model.network :=
             built_network (df_index df) pvp wonp woffp biop hydp loadp
               load pv won woff bio hyd bat dur ce de mc cc mincap;
           Model.opt_state := None |}.
Proof.
  unfold Model.__init__, Model.setup_network, set_snapshots.
  cbn [Model.df_profiles].
  destruct (strict && bool_decide (df_index df = [])) eqn:E;
    cbn [bind ret raise].
  { split; [discriminate | intros [? _]; congruence]. }
  unfold Model.add_generators.
  cbn [Model.installed_capacities Model.df_profiles Model.network
       Model.set_network bind ret].
  getitem_lit. cbn [bind ret].
  destruct (df_columns df !! "pv_profile") as [pvp|] eqn:E1;
    unfold getitem at 1; rewrite E1; cbn [bind ret raise];
    [| split; [discriminate
              | intros (_ & ? & ? & ? & ? & ? & ? & ? & _); congruence]].
  destruct (df_columns df !! "wind_on_profile") as [wonp|] eqn:E2;
    unfold getitem at 1; rewrite E2; cbn [bind ret raise];
    [| split; [discriminate
              | intros (_ & ? & ? & ? & ? & ? & ? & _ & ? & _); congruence]].
  destruct (df_columns df !! "wind_off_profile") as [woffp|] eqn:E3;
    unfold getitem at 1; rewrite E3; cbn [bind ret raise];
    [| split; [discriminate
              | intros (_ & ? & ? & ? & ? & ? & ? & _ & _ & ? & _);
                congruence]].
  destruct (df_columns df !! "biomass_profile") as [biop|] eqn:E4;
    unfold getitem at 1; rewrite E4; cbn [bind ret raise];
    [| split; [discriminate
              | intros (_ & ? & ? & ? & ? & ? & ? & _ & _ & _ & ? & _);
                congruence]].
  destruct (df_columns df !! "hydro_profile") as [hydp|] eqn:E5;
    unfold getitem at 1; rewrite E5; cbn [bind ret raise];
    [| split; [discriminate
              | intros (_ & ? & ? & ? & ? & ? & ? & _ & _ & _ & _ & ? & _);
                congruence]].
  cbn [Model.installed_capacities Model.df_profiles Model.network
       Model.set_network bind ret Model.min_installed_cap_residual
       Model.marginal_cost_residual Model.capital_cost_residual
       Model.charge_efficiency Model.discharge_efficiency].
  destruct (df_columns df !! "load_profile") as [loadp|] eqn:E6;
    unfold getitem at 1; rewrite E6; cbn [bind ret raise];
    [| split; [discriminate
              | intros (_ & ? & ? & ? & ? & ? & ? & _ & _ & _ & _ & _ & ? & _);
                congruence]].
  getitem_lit. cbn [bind ret].
  split.
  - intros H. split; [done|]. exists pvp, wonp, woffp, biop, hydp, loadp.
    repeat (split; [done|]). inversion H. reflexivity.
  - intros (_ & pvp' & wonp' & woffp' & biop' & hydp' & loadp'
            & H1 & H2 & H3 & H4 & H5 & H6 & ->).
    simplify_eq. reflexivity.
Qed.

(** ** The linear program of the constructed network, in logical form *)

Lemma forallb_seq (f : nat -> bool) (T : nat) :
  forallb f (seq 0 T) = true <-> forall t, (t < T)%nat -> f t = true.
Proof.
  rewrite forallb_forall. split.
  - intros H t Ht. apply H, in_seq. lia.
  - intros H t Ht. apply in_seq in Ht. apply H. lia.
Qed.

Lemma le_cell_cmul (a : Q) (c : cell) (k : Q) :
  LP.le_cell a (cmul c (Some k)) = true <->
  exists f, c = Some f /\ a <= f * k.
Proof.
  destruct c as [f|]; simpl.
  - rewrite Qle_bool_iff. split; [eauto | intros (f' & [= <-] & H); done].
  - split; [discriminate | intros (f' & [=] & _)].
Qed.

Lemma eq_cell_Some (a : Q) (c : cell) :
  LP.eq_cell a c = true <-> exists v, c = Some v /\ a == v.
Proof.
  destruct c as [v|]; simpl.
  - rewrite Qeq_bool_iff. split; [eauto | intros (v' & [= <-] & H); done].
  - split; [discriminate | intros (v' & [=] & _)].
Qed.

Lemma generator_ok_iff n x name g :
  LP.generator_ok n x (name, g) = true <->
  (g_p_nom_extendable g = true -> g_p_nom_min g <= sol_p_nom_opt x name) /\
  forall t, (t < length (snapshots n))%nat ->
    0 <= sol_p x name t /\
    exists f, LP.availability n name g t = Some f /\
              sol_p x name t <= f * LP.capacity x name g.
Proof.
  unfold LP.generator_ok, LP.horizon.
  rewrite andb_true_iff, forallb_seq.
  assert (A : (if g_p_nom_extendable g
     then Qle_bool (g_p_nom_min g) (sol_p_nom_opt x name) else true) = true <->
    (g_p_nom_extendable g = true -> g_p_nom_min g <= sol_p_nom_opt x name)).
  { destruct (g_p_nom_extendable g).
    - rewrite Qle_bool_iff. tauto.
    - split; [discriminate | reflexivity]. }
  rewrite A. clear A.
  split; intros [H1 H2]; (split; [exact H1|]); intros t Ht;
    specialize (H2 t Ht);
    rewrite andb_true_iff, Qle_bool_iff, le_cell_cmul in *; exact H2.
Qed.

Lemma storage_ok_iff n x name su :
  LP.storage_ok n x (name, su) = true <->
  forall t, (t < length (snapshots n))%nat ->
    (0 <= sol_p_dispatch x name t /\ sol_p_dispatch x name t <= su_p_nom su) /\
    (0 <= sol_p_store x name t /\ sol_p_store x name t <= su_p_nom su) /\
    (0 <= sol_state_of_charge x name t /\
     sol_state_of_charge x name t <= su_p_nom su * su_max_hours su) /\
    sol_state_of_charge x name t ==
      (1 - su_standing_loss su) * LP.soc_before n x name su t
      + su_efficiency_store su * sol_p_store x name t
      - sol_p_dispatch x name t / su_efficiency_dispatch su.
Proof.
  unfold LP.storage_ok, LP.horizon. rewrite forallb_seq.
  split; intros H t Ht; specialize (H t Ht);
    rewrite !andb_true_iff, !Qle_bool_iff, Qeq_bool_iff in *; tauto.
Qed.

Lemma balance_ok_iff n x b :
  LP.balance_ok n x b = true <->
  forall t, (t < length (snapshots n))%nat ->
    exists w, LP.withdrawal n b t = Some w /\ LP.injection n x b t == w.
Proof.
  unfold LP.balance_ok, LP.horizon. rewrite forallb_seq.
  split; intros H t Ht; specialize (H t Ht);
    rewrite eq_cell_Some in *; exact H.
Qed.

Section Constraints.

Variable index : list Z.
Variables pvp wonp woffp biop hydp loadp : Series.
Variables load pv won woff bio hyd bat dur ce de mc cc mincap : Q.

(** The state of charge before the transition of snapshot [t], the horizon
    being a cycle of [T] snapshots. *)
Definition soc_prev (T : nat) (x : Solution) (t : nat) : Q :=
  match t with
  | O => sol_state_of_charge x "batteries" (T - 1)
  | S t' => sol_state_of_charge x "batteries" t'
  end.

(** The constraints of the program that bear on snapshot [t]. *)
Definition step_ok (x : Solution) (t : nat) : Prop :=
  exists f_pv f_won f_woff f_bio f_hyd f_load : Q,
    at_ pvp t = Some f_pv /\ at_ wonp t = Some f_won /\
    at_ woffp t = Some f_woff /\ at_ biop t = Some f_bio /\
    at_ hydp t = Some f_hyd /\ at_ loadp t = Some f_load /\
    (0 <= sol_p x "pv" t /\ sol_p x "pv" t <= f_pv * pv) /\
    (0 <= sol_p x "wind_on" t /\ sol_p x "wind_on" t <= f_won * won) /\
    (0 <= sol_p x "wind_off" t /\ sol_p x "wind_off" t <= f_woff * woff) /\
    (0 <= sol_p x "biomass" t /\ sol_p x "biomass" t <= f_bio * bio) /\
    (0 <= sol_p x "hydro" t /\ sol_p x "hydro" t <= f_hyd * hyd) /\
    (0 <= sol_p x "residual_load" t /\
     sol_p x "residual_load" t <= sol_p_nom_opt x "residual_load") /\
    (0 <= sol_p_dispatch x "batteries" t /\
     sol_p_dispatch x "batteries" t <= bat) /\
    (0 <= sol_p_store x "batteries" t /\ sol_p_store x "batteries" t <= bat) /\
    (0 <= sol_state_of_charge x "batteries" t /\
     sol_state_of_charge x "batteries" t <= bat * dur) /\
    sol_state_of_charge x "batteries" t ==
      (1 - (1 # 10000)) * soc_prev (length index) x t
      + ce * sol_p_store x "batteries" t
      - sol_p_dispatch x "batteries" t / de /\
    sol_p x "pv" t + sol_p x "wind_on" t + sol_p x "wind_off" t
      + sol_p x "biomass" t + sol_p x "hydro" t
      + sol_p x "residual_load" t
      + (sol_p_dispatch x "batteries" t - sol_p_store x "batteries" t)
    == f_load * load.

Lemma feasible_built (x : Solution) :
  LP.feasible
    (built_network index pvp wonp woffp biop hydp loadp
       load pv won woff bio hyd bat dur ce de mc cc mincap) x <->
  mincap <= sol_p_nom_opt x "residual_load" /\
  forall t, (t < length index)%nat ->
step_ok x t.
Proof.
  unfold LP.feasible, LP.feasibleb.
  set (n := built_network _ _ _ _ _ _ _ _ _ _ _ _ _ _ _ _ _ _ _ _).
  change (generators n) with
    [("pv", Model.renewable pv); ("wind_on", Model.renewable won);
     ("wind_off", Model.renewable woff); ("biomass", Model.renewable bio);
     ("hydro", Model.renewable hyd);
     ("residual_load",
      {| g_bus := "DE"; g_p_nom := 0; g_p_nom_extendable := true;
         g_p_nom_min := mincap; g_p_max_pu := 1; g_marginal_cost := mc;
         g_capital_cost := cc |})].
  change (storage_units n) with
    [("batteries",
      {| su_bus := "DE"; su_p_nom := bat; su_max_hours := dur;
         su_cyclic_state_of_charge := true; su_state_of_charge_initial := 0;
         su_efficiency_store := ce; su_efficiency_dispatch := de;
         su_standing_loss := 1 # 10000 |})].
  change (buses n) with ["DE"].
  cbn [forallb]. rewrite !andb_true_r, !andb_true_iff.
  rewrite !generator_ok_iff, storage_ok_iff, balance_ok_iff.
  change (length (snapshots n)) with (length index).
  unfold LP.availability, LP.capacity, LP.soc_before, LP.injection, LP.withdrawal, load_p_set.
  change (generators_t_p_max_pu n) with
    (<["hydro" := reindex (length index) hydp]> (<["biomass" := reindex (length index) biop]>
       (<["wind_off" := reindex (length index) woffp]> (<["wind_on" := reindex (length index) wonp]>
       (<["pv" := reindex (length index) pvp]> (∅ : gmap string Series)))))).
  change (loads_t_p_set n) with (<["load" := reindex (length index) (series_scale loadp load)]> (∅ : gmap string Series)).
  change (generators n) with
    [("pv", Model.renewable pv); ("wind_on", Model.renewable won);
     ("wind_off", Model.renewable woff); ("biomass", Model.renewable bio);
     ("hydro", Model.renewable hyd);
     ("residual_load",
      {| g_bus := "DE"; g_p_nom := 0; g_p_nom_extendable := true;
         g_p_nom_min := mincap; g_p_max_pu := 1; g_marginal_cost := mc;
         g_capital_cost := cc |})].
  change (storage_units n) with
    [("batteries",
      {| su_bus := "DE"; su_p_nom := bat; su_max_hours := dur;
         su_cyclic_state_of_charge := true; su_state_of_charge_initial := 0;
         su_efficiency_store := ce; su_efficiency_dispatch := de;
         su_standing_loss := 1 # 10000 |})].
  change (loads n) with [("load", {| l_bus := "DE"; l_p_set := 0 |})].
  change (LP.horizon n) with (length index).
  clearbody n.
  cbn [g_p_nom_extendable g_p_nom g_p_nom_min g_p_max_pu g_bus su_bus l_bus
       su_p_nom su_max_hours su_cyclic_state_of_charge su_standing_loss
       su_efficiency_store su_efficiency_dispatch Model.renewable
       fmap list_fmap LP.sumQ fold_right].
  lookup_lit.
  change (String.eqb "DE" "DE") with true. cbn iota.
  unfold step_ok, soc_prev.
  split.
  - intros [[((_ & Hpv) & (_ & Hwon) & (_ & Hwoff) & (_ & Hbio) & (_ & Hhyd)
               & Hmin & Hres) Hsu] Hbal].
    split; [by apply Hmin|]. intros t Ht.
    destruct (Hpv t Ht) as [Hpv0 (f1 & E1 & Hpv1)].
    destruct (Hwon t Ht) as [Hwon0 (f2 & E2 & Hwon1)].
    destruct (Hwoff t Ht) as [Hwoff0 (f3 & E3 & Hwoff1)].
    destruct (Hbio t Ht) as [Hbio0 (f4 & E4 & Hbio1)].
    destruct (Hhyd t Ht) as [Hhyd0 (f5 & E5 & Hhyd1)].
    destruct (Hres t Ht) as [Hres0 (f6 & E6 & Hres1)].
    destruct (Hsu t Ht) as (Hd & Hs & Hc & Hsoc).
    destruct (Hbal t Ht) as (w & Ew & Hb).
    rewrite at_reindex in E1, E2, E3, E4, E5, Ew by done.
    rewrite at_series_scale in Ew.
    destruct (at_ loadp t) as [fl|] eqn:El; [|discriminate].
    simpl in Ew. injection Ew as <-. injection E6 as <-.
    exists f1, f2, f3, f4, f5, fl.
    repeat (split; [first [done | lra]|]). lra.
  - intros [Hmin H].
    assert (Hall : forall t, (t < length index)%nat ->
      exists f_pv f_won f_woff f_bio f_hyd f_load : Q,
        at_ (reindex (length index) pvp) t = Some f_pv /\
        at_ (reindex (length index) wonp) t = Some f_won /\
        at_ (reindex (length index) woffp) t = Some f_woff /\
        at_ (reindex (length index) biop) t = Some f_bio /\
        at_ (reindex (length index) hydp) t = Some f_hyd /\
        at_ (reindex (length index) (series_scale loadp load)) t
          = Some (f_load * load) /\
        step_ok x t).
    { intros t Ht. destruct (H t Ht) as
        (f1 & f2 & f3 & f4 & f5 & fl & E1 & E2 & E3 & E4 & E5 & El & R).
      exists f1, f2, f3, f4, f5, fl. rewrite !at_reindex by done.
      rewrite at_series_scale, El. repeat (split; [done|]).
      exists f1, f2, f3, f4, f5, fl. done. }
    clear H.
    split_and!; try discriminate; try (intros _; exact Hmin); intros t Ht;
      destruct (Hall t Ht) as
        (f1 & f2 & f3 & f4 & f5 & fl & E1 & E2 & E3 & E4 & E5 & El
         & (g1 & g2 & g3 & g4 & g5 & gl & G1 & G2 & G3 & G4 & G5 & Gl
            & [? ?] & [? ?] & [? ?] & [? ?] & [? ?] & [? ?] & [? ?] & [? ?]
            & [? ?] & Hsoc & Hbal));
      rewrite ?at_reindex in * by done;
      rewrite ?at_series_scale in *;
      rewrite ?E1, ?E2, ?E3, ?E4, ?E5, ?Gl; simplify_eq; try done.
    all: try (split; [done | eexists; split; [reflexivity | lra]]).
    eexists. split; [reflexivity|]. lra.
Qed.
End Constraints.

(** ** Optimisation and result extraction on the constructed network *)

(** The model that [optimize] leaves when the solver answers "ok". *)
Definition solved_model (out : SolverOutcome) (self : Model.t) : Model.t :=
  Model.set_opt_state ("ok", condition out)
    (Model.set_network (assign_solution (solution out) (Model.network self))
       self).

Lemma optimize_ok (out : SolverOutcome) (self : Model.t) :
  status out = "ok" ->
  Model.optimize (answers out) self =
  inr (solved_model out self, ("ok", condition out)).
Proof.
  intros H. unfold Model.optimize, create_model, solve_model, answers.
  cbn [create_model_answer solve_model_answer bind ret]. rewrite H.
  reflexivity.
Qed.

Lemma optimize_not_ok (out : SolverOutcome) (self : Model.t) :
  status out <> "ok" ->
  Model.optimize (answers out) self =
  inr (Model.set_opt_state (status out, condition out)
         (Model.set_network (Model.network self) self),
       (status out, condition out)).
Proof.
  intros H. unfold Model.optimize, create_model, solve_model, answers.
  cbn [create_model_answer solve_model_answer bind ret].
  destruct (String.eqb_spec (status out) "ok") as [E|_]; [done|reflexivity].
Qed.


(** The sum of five columns, in the order the code adds them. *)
Definition sum5 (a b c d e : Series) : Series :=
  series_add (series_add (series_add (series_add a b) c) d) e.

(** The columns of the result table, given the five columns of available
    power, the five of dispatched power, the battery power and the load. *)
Definition table_columns (a_pv a_won a_woff a_bio a_hyd
    g_pv g_won g_woff g_bio g_hyd batteries load_ : Series)
  : gmap string Series :=
  <["residual_load" :=
      series_sub (series_sub load_ (sum5 a_pv a_won a_woff a_bio a_hyd))
        batteries]>
  (<["curtailed_re" :=
      series_sub (sum5 a_pv a_won a_woff a_bio a_hyd)
        (sum5 g_pv g_won g_woff g_bio g_hyd)]>
  (<["load" := load_]>
  (<["batteries" := batteries]>
  (<["hydro" := a_hyd]>
  (<["biomass" := a_bio]>
  (<["wind_off" := a_woff]>
  (<["wind_on" := a_won]>
  (<["pv" := a_pv]> ∅)))))))).

Section GetResults.

Variable self : Model.t.

Let n : Network := Model.network self.
Let avail : gmap string Series :=
  Model.frame_mul (length (snapshots n)) (generators_t_p_max_pu n)
    (Model.generators_p_nom n).

Variables a_pv a_won a_woff a_bio a_hyd : Series.

Hypothesis A1 : avail !! "pv" = Some a_pv.
Hypothesis A2 : avail !! "wind_on" = Some a_won.
Hypothesis A3 : avail !! "wind_off" = Some a_woff.
Hypothesis A4 : avail !! "biomass" = Some a_bio.
Hypothesis A5 : avail !! "hydro" = Some a_hyd.

(** With the five availability columns present but no "pv" column in the
    dispatch frame, the first read of that frame raises. *)
Lemma get_results_no_dispatch :
  generators_t_p n !! "pv" = None ->
  Model.get_results self = inl (KeyError "pv").
Proof.
  intros G1. unfold Model.get_results. fold n. fold avail.
  unfold getitem. rewrite A1, A2, A3, A4, A5. cbn [bind ret].
  rewrite G1. reflexivity.
Qed.

Variables g_pv g_won g_woff g_bio g_hyd batteries load_ : Series.

Hypothesis G1 : generators_t_p n !! "pv" = Some g_pv.
Hypothesis G2 : generators_t_p n !! "wind_on" = Some g_won.
Hypothesis G3 : generators_t_p n !! "wind_off" = Some g_woff.
Hypothesis G4 : generators_t_p n !! "biomass" = Some g_bio.
Hypothesis G5 : generators_t_p n !! "hydro" = Some g_hyd.
Hypothesis B : storage_units_t_p n !! "batteries" = Some batteries.
Hypothesis L : loads_t_p n !! "load" = Some load_.

(** With every column it reads present, [get_results] returns the table
    of [table_columns], and leaves the model with one more column,
    "actual_re_generation", in the network's [generators_t.p]. *)
Lemma get_results_ok :
  Model.get_results self =
  inr ({| df_index := snapshots n; df_index_name := Some "time";
          df_columns := table_columns a_pv a_won a_woff a_bio a_hyd
                          g_pv g_won g_woff g_bio g_hyd batteries load_ |},
       Model.set_network
         (set_generators_t_p
            (<["actual_re_generation" := sum5 g_pv g_won g_woff g_bio g_hyd]>
               (generators_t_p n)) n) self).
Proof.
  unfold Model.get_results. fold n. fold avail.
  unfold getitem.
  rewrite A1, A2, A3, A4, A5. cbn [bind ret].
  rewrite G1, G2, G3, G4, G5. cbn [bind ret].
  lookup_lit. rewrite A1, A2, A3, A4, A5, B, L. cbn [bind ret].
  lookup_lit. cbn [bind ret]. lookup_lit. cbn [bind ret].
  reflexivity.
Qed.

End GetResults.

Section Results.

Variable index : list Z.
Variables pvp wonp woffp biop hydp loadp : Series.
Variables load pv won woff bio hyd bat dur ce de mc cc mincap : Q.
Variable sol : Solution.

Let T : nat := length index.

(** The columns that [get_results] computes from a solved network. *)
Definition re_power_availability : Series :=
  sum5 (series_scale (reindex T pvp) pv) (series_scale (reindex T wonp) won)
    (series_scale (reindex T woffp) woff) (series_scale (reindex T biop) bio)
    (series_scale (reindex T hydp) hyd).

Definition actual_re_generation : Series :=
  sum5 (tabulate T (sol_p sol "pv")) (tabulate T (sol_p sol "wind_on"))
    (tabulate T (sol_p sol "wind_off")) (tabulate T (sol_p sol "biomass"))
    (tabulate T (sol_p sol "hydro")).

Definition batteries_p : Series :=
  tabulate T (fun t => sol_p_dispatch sol "batteries" t
                       - sol_p_store sol "batteries" t).

Definition load_p : Series :=
  (fun c : cell => Some (default 0 c)) <$> reindex T (series_scale loadp load).

Definition result_columns : gmap string Series :=
  table_columns
    (series_scale (reindex T pvp) pv) (series_scale (reindex T wonp) won)
    (series_scale (reindex T woffp) woff) (series_scale (reindex T biop) bio)
    (series_scale (reindex T hydp) hyd)
    (tabulate T (sol_p sol "pv")) (tabulate T (sol_p sol "wind_on"))
    (tabulate T (sol_p sol "wind_off")) (tabulate T (sol_p sol "biomass"))
    (tabulate T (sol_p sol "hydro"))
    batteries_p load_p.

Let n : Network :=
  built_network index pvp wonp woffp biop hydp loadp
    load pv won woff bio hyd bat dur ce de mc cc mincap.

(** The table of available power, [generators_t.p_max_pu *
    generators.p_nom], of the constructed network, solved or not. *)
Lemma built_available (n' : Network) (c : string) (p : Series) (k : Q) :
  generators_t_p_max_pu n' = generators_t_p_max_pu n ->
  generators n' = generators n ->
  generators_t_p_max_pu n !! c = Some p ->
  Model.generators_p_nom n !! c = Some k ->
  Model.frame_mul (length (snapshots n')) (generators_t_p_max_pu n')
    (Model.generators_p_nom n') !! c = Some (series_scale p k).
Proof.
  intros E1 E2 Hp Hk. unfold Model.frame_mul. rewrite lookup_merge.
  unfold Model.generators_p_nom in *. rewrite E1, E2, Hp, Hk. reflexivity.
Qed.

Lemma built_p_max_pu :
  generators_t_p_max_pu n !! "pv" = Some (reindex T pvp) /\
  generators_t_p_max_pu n !! "wind_on" = Some (reindex T wonp) /\
  generators_t_p_max_pu n !! "wind_off" = Some (reindex T woffp) /\
  generators_t_p_max_pu n !! "biomass" = Some (reindex T biop) /\
  generators_t_p_max_pu n !! "hydro" = Some (reindex T hydp).
Proof.
  unfold n, built_network. cbn [generators_t_p_max_pu].
  split_and!; lookup_lit; reflexivity.
Qed.

Lemma built_p_nom :
  Model.generators_p_nom n !! "pv" = Some pv /\
  Model.generators_p_nom n !! "wind_on" = Some won /\
  Model.generators_p_nom n !! "wind_off" = Some woff /\
  Model.generators_p_nom n !! "biomass" = Some bio /\
  Model.generators_p_nom n !! "hydro" = Some hyd.
Proof.
  unfold Model.generators_p_nom, n, built_network.
  cbn [generators fmap list_fmap list_to_map foldr uncurry fst snd g_p_nom
       Model.renewable].
  split_and!; lookup_lit; reflexivity.
Qed.

Lemma assigned_columns :
  let n' := assign_solution sol n in
  generators_t_p n' !! "pv" = Some (tabulate T (sol_p sol "pv")) /\
  generators_t_p n' !! "wind_on" = Some (tabulate T (sol_p sol "wind_on")) /\
  generators_t_p n' !! "wind_off" = Some (tabulate T (sol_p sol "wind_off")) /\
  generators_t_p n' !! "biomass" = Some (tabulate T (sol_p sol "biomass")) /\
  generators_t_p n' !! "hydro" = Some (tabulate T (sol_p sol "hydro")) /\
  storage_units_t_p n' !! "batteries" = Some batteries_p /\
  loads_t_p n' !! "load" = Some load_p /\
  generators_t_p n' !! "actual_re_generation" = None.
Proof.
  unfold assign_solution, n, built_network, load_power, load_p_set,
    batteries_p, load_p.
  cbn [generators_t_p storage_units_t_p loads_t_p generators storage_units
       loads loads_t_p_set snapshots fmap list_fmap list_to_map foldr
       uncurry fst snd].
  split_and!; lookup_lit; reflexivity.
Qed.

(** On a model whose network carries a solution, [get_results] returns the
    table with the columns above, and leaves the model with one more
    column, [actual_re_generation], in the network's [generators_t.p]. *)
Lemma get_results_solved (self : Model.t) :
  Model.network self = assign_solution sol n ->
  Model.get_results self =
  inr ({| df_index := index; df_index_name := Some "time";
          df_columns := result_columns |},
       Model.set_network
         (set_generators_t_p
            (<["actual_re_generation" := actual_re_generation]>
               (generators_t_p (assign_solution sol n)))
            (assign_solution sol n)) self).
Proof.
  intros Hn.
  destruct built_p_max_pu as (M1 & M2 & M3 & M4 & M5).
  destruct built_p_nom as (N1 & N2 & N3 & N4 & N5).
  destruct assigned_columns as (G1 & G2 & G3 & G4 & G5 & B & L & _).
  rewrite <- Hn in G1, G2, G3, G4, G5, B, L.
  rewrite (get_results_ok self _ _ _ _ _
             (built_available _ _ _ _ (f_equal _ Hn) (f_equal _ Hn) M1 N1)
             (built_available _ _ _ _ (f_equal _ Hn) (f_equal _ Hn) M2 N2)
             (built_available _ _ _ _ (f_equal _ Hn) (f_equal _ Hn) M3 N3)
             (built_available _ _ _ _ (f_equal _ Hn) (f_equal _ Hn) M4 N4)
             (built_available _ _ _ _ (f_equal _ Hn) (f_equal _ Hn) M5 N5)
             _ _ _ _ _ _ _ G1 G2 G3 G4 G5 B L).
  rewrite Hn. reflexivity.
Qed.

(** Without a solution the frame [generators_t.p] has no column, and the
    first read of it fails. *)
Lemma get_results_unsolved (self : Model.t) :
  Model.network self = n ->
  Model.get_results self = inl (KeyError "pv").
Proof.
  intros Hn.
  destruct built_p_max_pu as (M1 & M2 & M3 & M4 & M5).
  destruct built_p_nom as (N1 & N2 & N3 & N4 & N5).
  apply (get_results_no_dispatch self _ _ _ _ _
           (built_available _ _ _ _ (f_equal _ Hn) (f_equal _ Hn) M1 N1)
           (built_available _ _ _ _ (f_equal _ Hn) (f_equal _ Hn) M2 N2)
           (built_available _ _ _ _ (f_equal _ Hn) (f_equal _ Hn) M3 N3)
           (built_available _ _ _ _ (f_equal _ Hn) (f_equal _ Hn) M4 N4)
           (built_available _ _ _ _ (f_equal _ Hn) (f_equal _ Hn) M5 N5)).
  rewrite Hn. reflexivity.
Qed.

End Results.

(** ** Vocabulary of the statements *)

(** The cell of column [c] of a table at row [t]. *)
Definition column (df : DataFrame) (c : string) (t : nat) : cell :=
  match df_columns df !! c with
  | Some s => at_ s t
  | None => None
  end.

(** Available power of one technology: availability fraction times
    installed capacity. *)
Definition available (df : DataFrame) (profile : string) (p_inst : Q)
    (t : nat) : cell :=
  cmul (column df profile t) (Some p_inst).

(** Available renewable power, summed over the five technologies. *)
Definition available_re (df : DataFrame) (pv won woff bio hyd : Q) (t : nat)
  : cell :=
  cadd (cadd (cadd (cadd (available df "pv_profile" pv t)
                         (available df "wind_on_profile" won t))
                   (available df "wind_off_profile" woff t))
             (available df "biomass_profile" bio t))
       (available df "hydro_profile" hyd t).

(** The load at [t]: load fraction times annual load. *)
Definition load_at (df : DataFrame) (load : Q) (t : nat) : cell :=
  cmul (column df "load_profile" t) (Some load).

(** Dispatched renewable power, summed over the five technologies. *)
Definition dispatched_re (x : Solution) (t : nat) : Q :=
  sol_p x "pv" t + sol_p x "wind_on" t + sol_p x "wind_off" t
  + sol_p x "biomass" t + sol_p x "hydro" t.

(** Battery net power: positive when discharging. *)
Definition battery_net_power (x : Solution) (t : nat) : Q :=
  sol_p_dispatch x "batteries" t - sol_p_store x "batteries" t.

Definition residual_dispatch (x : Solution) (t : nat) : Q :=
  sol_p x "residual_load" t.

Definition residual_capacity (x : Solution) : Q :=
  sol_p_nom_opt x "residual_load".

Definition soc (x : Solution) (t : nat) : Q :=
  sol_state_of_charge x "batteries" t.

(** ** What a solved model satisfies, snapshot by snapshot *)

Section Solved.

Variable strict : bool.
Variable df : DataFrame.
Variables load pv won woff bio hyd bat dur ce de mc cc mincap : Q.
Variable m : Model.t.
Variable x : Solution.

Hypothesis Hinit :
  Model.__init__ strict df load pv won woff bio hyd bat dur ce de mc cc mincap
  = inr m.
Hypothesis Hfeasible : LP.feasible (Model.network m) x.

Let T : nat := length (df_index df).

(** The constraints, read on the profile table and the scenario. *)
Lemma solved_step (t : nat) :
  (t < T)%nat ->
  exists f_pv f_won f_woff f_bio f_hyd f_load : Q,
    column df "pv_profile" t = Some f_pv /\
    column df "wind_on_profile" t = Some f_won /\
    column df "wind_off_profile" t = Some f_woff /\
    column df "biomass_profile" t = Some f_bio /\
    column df "hydro_profile" t = Some f_hyd /\
    column df "load_profile" t = Some f_load /\
    available_re df pv won woff bio hyd t
      = Some (f_pv * pv + f_won * won + f_woff * woff + f_bio * bio
              + f_hyd * hyd) /\
    load_at df load t = Some (f_load * load) /\
    (0 <= sol_p x "pv" t <= f_pv * pv) /\
    (0 <= sol_p x "wind_on" t <= f_won * won) /\
    (0 <= sol_p x "wind_off" t <= f_woff * woff) /\
    (0 <= sol_p x "biomass" t <= f_bio * bio) /\
    (0 <= sol_p x "hydro" t <= f_hyd * hyd) /\
    (0 <= residual_dispatch x t <= residual_capacity x) /\
    (0 <= sol_p_dispatch x "batteries" t <= bat) /\
    (0 <= sol_p_store x "batteries" t <= bat) /\
    (0 <= soc x t <= bat * dur) /\
    soc x t == (1 - (1 # 10000)) * soc_prev T x t
               + ce * sol_p_store x "batteries" t
               - sol_p_dispatch x "batteries" t / de /\
    dispatched_re x t + residual_dispatch x t + battery_net_power x t
      == f_load * load.
Proof.
  intros Ht.
  apply init_inr in Hinit as (_ & pvp & wonp & woffp & biop & hydp & loadp
                              & E1 & E2 & E3 & E4 & E5 & E6 & ->).
  cbn [Model.network] in Hfeasible.
  apply feasible_built in Hfeasible as [_ Hstep].
  destruct (Hstep t Ht) as
    (f1 & f2 & f3 & f4 & f5 & fl & A1 & A2 & A3 & A4 & A5 & Al & R).
  exists f1, f2, f3, f4, f5, fl.
  unfold available_re, available, load_at, column.
  rewrite E1, E2, E3, E4, E5, E6, A1, A2, A3, A4, A5, Al.
  repeat (split; [reflexivity|]).
  unfold residual_dispatch, residual_capacity, soc, dispatched_re,
    battery_net_power.
  exact R.
Qed.

Lemma solved_min_capacity : mincap <= residual_capacity x.
Proof.
  apply init_inr in Hinit as (_ & pvp & wonp & woffp & biop & hydp & loadp
                              & E1 & E2 & E3 & E4 & E5 & E6 & ->).
  cbn [Model.network] in Hfeasible.
  apply feasible_built in Hfeasible as [Hmin _]. exact Hmin.
Qed.

End Solved.

(** ** The result table of a solved model *)

Lemma at_available (T : nat) (p : Series) (k : Q) (t : nat) (f : Q) :
  (t < T)%nat -> at_ p t = Some f ->
  at_ (series_scale (reindex T p) k) t = Some (f * k).
Proof.
  intros Ht E. rewrite at_series_scale, at_reindex, E by done. reflexivity.
Qed.

Section Extraction.

Variable strict : bool.
Variable df : DataFrame.
Variables load pv won woff bio hyd bat dur ce de mc cc mincap : Q.
Variable m : Model.t.
Variable out : SolverOutcome.

Hypothesis Hinit :
  Model.__init__ strict df load pv won woff bio hyd bat dur ce de mc cc mincap
  = inr m.
Hypothesis Hok : status out = "ok".

Let T : nat := length (df_index df).
Let x : Solution := solution out.

(** Extraction succeeds on a solved model, and returns the columns of
    [result_columns] computed from the profile columns. *)
Lemma solved_results :
  exists pvp wonp woffp biop hydp loadp,
    df_columns df !! "pv_profile" = Some pvp /\
    df_columns df !! "wind_on_profile" = Some wonp /\
    df_columns df !! "wind_off_profile" = Some woffp /\
    df_columns df !! "biomass_profile" = Some biop /\
    df_columns df !! "hydro_profile" = Some hydp /\
    df_columns df !! "load_profile" = Some loadp /\
    let n := built_network (df_index df) pvp wonp woffp biop hydp loadp
               load pv won woff bio hyd bat dur ce de mc cc mincap in
    Model.network m = n /\
    Model.optimize (answers out) m
      = inr (solved_model out m, ("ok", condition out)) /\
    Model.get_results (solved_model out m) =
    inr ({| df_index := df_index df; df_index_name := Some "time";
            df_columns :=
              result_columns (df_index df) pvp wonp woffp biop hydp loadp
                load pv won woff bio hyd x |},
         Model.set_network
           (set_generators_t_p
              (<["actual_re_generation" :=
                   actual_re_generation (df_index df) x]>
                 (generators_t_p (assign_solution x n)))
              (assign_solution x n))
           (solved_model out m)).
Proof.
  apply init_inr in Hinit as (_ & pvp & wonp & woffp & biop & hydp & loadp
                              & E1 & E2 & E3 & E4 & E5 & E6 & ->).
  exists pvp, wonp, woffp, biop, hydp, loadp.
  do 6 (split; [done|]). cbn zeta. split; [reflexivity|].
  split; [apply optimize_ok; done|].
  erewrite get_results_solved; [reflexivity|]. reflexivity.
Qed.

Hypothesis Hfeasible : LP.feasible (Model.network m) (solution out).

(** C1 (as amended).  For every solved model and every timestep [t], the
    [residual_load] column of the result table equals [load(t)] minus the
    sum of the AVAILABLE renewable power at [t] (installed capacity times
    availability fraction, not the dispatched power) minus the battery net
    power at [t]; by the energy balance this value equals
    [residual_dispatch(t)] minus the renewable power curtailed at [t]. *)
Theorem residual_load_column :
  exists solved st tbl m' col,
    Model.optimize (answers out) m = inr (solved, st) /\
    Model.get_results solved = inr (tbl, m') /\
    df_columns tbl !! "residual_load" = Some col /\
    forall t, (t < T)%nat ->
      exists L A : Q,
        load_at df load t = Some L /\
        available_re df pv won woff bio hyd t = Some A /\
        cell_is (at_ col t) (L - A - battery_net_power x t) /\
        L - A - battery_net_power x t
          == residual_dispatch x t - (A - dispatched_re x t).
Proof.
  destruct solved_results as (pvp & wonp & woffp & biop & hydp & loadp
    & E1 & E2 & E3 & E4 & E5 & E6 & _ & Hopt & Hres).
  eexists _, _, _, _, _. split; [exact Hopt|]. split; [exact Hres|].
  cbn [df_columns].
  split; [unfold result_columns, table_columns; lookup_lit; reflexivity|].
  intros t Ht.
  destruct (solved_step strict df load pv won woff bio hyd bat dur ce de mc cc
              mincap m x Hinit Hfeasible t Ht)
    as (f1 & f2 & f3 & f4 & f5 & fl & C1 & C2 & C3 & C4 & C5 & Cl
        & HA & HL & _ & _ & _ & _ & _ & _ & _ & _ & _ & _ & Hbal).
  eexists _, _. split; [exact HL|]. split; [exact HA|].
  unfold column in C1, C2, C3, C4, C5, Cl.
  rewrite E1 in C1. rewrite E2 in C2. rewrite E3 in C3. rewrite E4 in C4.
  rewrite E5 in C5. rewrite E6 in Cl.
  split.
  - unfold re_power_availability, batteries_p, load_p, sum5.
    rewrite !at_series_sub, !at_series_add.
    rewrite (at_available _ _ _ _ _ Ht C1), (at_available _ _ _ _ _ Ht C2),
      (at_available _ _ _ _ _ Ht C3), (at_available _ _ _ _ _ Ht C4),
      (at_available _ _ _ _ _ Ht C5).
    rewrite at_fillna, at_series_scale, Cl, at_tabulate by done.
    simpl. unfold battery_net_power. reflexivity.
  - unfold dispatched_re, residual_dispatch, battery_net_power in *. lra.
Qed.

(** C4.  For every solved model and every timestep [t], the [curtailed_re]
    column equals the sum over the five renewable technologies of
    (installed capacity times availability fraction at [t]) minus the sum
    of their dispatched power at [t], and this value is non-negative. *)
Theorem curtailed_re_column :
  exists solved st tbl m' col,
    Model.optimize (answers out) m = inr (solved, st) /\
    Model.get_results solved = inr (tbl, m') /\
    df_columns tbl !! "curtailed_re" = Some col /\
    forall t, (t < T)%nat ->
      exists A : Q,
        available_re df pv won woff bio hyd t = Some A /\
        cell_is (at_ col t) (A - dispatched_re x t) /\
        0 <= A - dispatched_re x t.
Proof.
  destruct solved_results as (pvp & wonp & woffp & biop & hydp & loadp
    & E1 & E2 & E3 & E4 & E5 & E6 & _ & Hopt & Hres).
  eexists _, _, _, _, _. split; [exact Hopt|]. split; [exact Hres|].
  cbn [df_columns].
  split; [unfold result_columns, table_columns; lookup_lit; reflexivity|].
  intros t Ht.
  destruct (solved_step strict df load pv won woff bio hyd bat dur ce de mc cc
              mincap m x Hinit Hfeasible t Ht)
    as (f1 & f2 & f3 & f4 & f5 & fl & C1 & C2 & C3 & C4 & C5 & Cl
        & HA & HL & B1 & B2 & B3 & B4 & B5 & _).
  eexists. split; [exact HA|].
  unfold column in C1, C2, C3, C4, C5.
  rewrite E1 in C1. rewrite E2 in C2. rewrite E3 in C3. rewrite E4 in C4.
  rewrite E5 in C5.
  split.
  - unfold re_power_availability, actual_re_generation, sum5.
    rewrite !at_series_sub, !at_series_add.
    rewrite (at_available _ _ _ _ _ Ht C1), (at_available _ _ _ _ _ Ht C2),
      (at_available _ _ _ _ _ Ht C3), (at_available _ _ _ _ _ Ht C4),
      (at_available _ _ _ _ _ Ht C5).
    rewrite !at_tabulate by done.
    simpl. unfold dispatched_re. reflexivity.
  - unfold dispatched_re. lra.
Qed.

End Extraction.

(** ** Constraints that every returned solution satisfies *)

Section Invariants.

Variable strict : bool.
Variable df : DataFrame.
Variables load pv won woff bio hyd bat dur ce de mc cc mincap : Q.
Variable m : Model.t.

Hypothesis Hinit :
  Model.__init__ strict df load pv won woff bio hyd bat dur ce de mc cc mincap
  = inr m.

Let T : nat := length (df_index df).

(** C6.  In every solution returned by the optimizer (indeed in every
    feasible assignment of the network's linear program), for every
    timestep [t] the dispatch of the five fixed-capacity generators plus
    the residual dispatch plus the battery net power equals [load(t)]. *)
Theorem energy_balance (x : Solution) :
  LP.feasible (Model.network m) x ->
  forall t, (t < T)%nat ->
    exists L : Q,
      load_at df load t = Some L /\
      dispatched_re x t + residual_dispatch x t + battery_net_power x t == L.
Proof.
  intros Hfeasible t Ht.
  destruct (solved_step strict df load pv won woff bio hyd bat dur ce de mc cc
              mincap m x Hinit Hfeasible t Ht)
    as (f1 & f2 & f3 & f4 & f5 & fl & _ & _ & _ & _ & _ & _
        & _ & HL & _ & _ & _ & _ & _ & _ & _ & _ & _ & _ & Hbal).
  exists (fl * load). split; [exact HL | exact Hbal].
Qed.

(** C7.  In every solution returned by the optimizer the state of charge
    stays within [0, battery_power * battery_duration] at every timestep,
    every transition carries the standing loss, and the first timestep's
    transition starts from the state of charge of the last one (cyclic
    constraint). *)
Theorem state_of_charge_cyclic_and_bounded (x : Solution) :
  LP.feasible (Model.network m) x ->
  (forall t, (t < T)%nat ->
     0 <= soc x t /\ soc x t <= bat * dur /\
     soc x t == (1 - (1 # 10000)) * soc_prev T x t
                + ce * sol_p_store x "batteries" t
                - sol_p_dispatch x "batteries" t / de) /\
  ((0 < T)%nat ->
     soc x 0 == (1 - (1 # 10000)) * soc x (T - 1)
                + ce * sol_p_store x "batteries" 0
                - sol_p_dispatch x "batteries" 0 / de).
Proof.
  intros Hfeasible.
  assert (H : forall t, (t < T)%nat ->
     0 <= soc x t /\ soc x t <= bat * dur /\
     soc x t == (1 - (1 # 10000)) * soc_prev T x t
                + ce * sol_p_store x "batteries" t
                - sol_p_dispatch x "batteries" t / de).
  { intros t Ht.
    destruct (solved_step strict df load pv won woff bio hyd bat dur ce de mc
                cc mincap m x Hinit Hfeasible t Ht)
      as (f1 & f2 & f3 & f4 & f5 & fl & _ & _ & _ & _ & _ & _
          & _ & _ & _ & _ & _ & _ & _ & _ & _ & _ & [? ?] & Hsoc & _).
    done. }
  split; [exact H|]. intros HT. destruct (H 0%nat HT) as (_ & _ & Hsoc).
  exact Hsoc.
Qed.

(** C10.  Whatever the constructor arguments, the network holds exactly one
    storage unit, "batteries", whose standing loss is 0.0001; no argument
    of the constructor reaches that attribute, and every state-of-charge
    transition of every feasible assignment applies it. *)
Theorem standing_loss_fixed :
  exists su : StorageUnit,
    storage_units (Model.network m) = [("batteries", su)] /\
    su_standing_loss su = 1 # 10000 /\
    forall x : Solution, LP.feasible (Model.network m) x ->
      forall t, (t < T)%nat ->
        sol_state_of_charge x "batteries" t ==
          (1 - su_standing_loss su)
            * LP.soc_before (Model.network m) x "batteries" su t
          + su_efficiency_store su * sol_p_store x "batteries" t
          - sol_p_dispatch x "batteries" t / su_efficiency_dispatch su.
Proof.
  pose proof Hinit as Hinit'.
  apply init_inr in Hinit' as (_ & pvp & wonp & woffp & biop & hydp & loadp
                               & E1 & E2 & E3 & E4 & E5 & E6 & Hm).
  eexists. split; [rewrite Hm; reflexivity|]. split; [reflexivity|].
  intros x Hfeasible t Ht.
  destruct (solved_step strict df load pv won woff bio hyd bat dur ce de mc cc
              mincap m x Hinit Hfeasible t Ht)
    as (f1 & f2 & f3 & f4 & f5 & fl & _ & _ & _ & _ & _ & _
        & _ & _ & _ & _ & _ & _ & _ & _ & _ & _ & _ & Hsoc & _).
  cbn [su_standing_loss su_efficiency_store su_efficiency_dispatch].
  rewrite Hsoc. unfold soc_prev, LP.soc_before, LP.horizon, T.
  rewrite Hm. cbn [su_cyclic_state_of_charge Model.network snapshots
                   built_network].
  destruct t; reflexivity.
Qed.

(** C9.  On a model that has not been successfully optimized, whether
    [optimize] was never called or it returned a status other than "ok",
    [get_results] returns no table: it raises [KeyError] on the first read
    of the dispatch frame, which has no column. *)
Theorem get_results_needs_solution :
  Model.get_results m = inl (KeyError "pv") /\
  forall out : SolverOutcome, status out <> "ok" ->
    exists m' st,
      Model.optimize (answers out) m = inr (m', st) /\
      Model.get_results m' = inl (KeyError "pv").
Proof.
  apply init_inr in Hinit as (_ & pvp & wonp & woffp & biop & hydp & loadp
                              & E1 & E2 & E3 & E4 & E5 & E6 & ->).
  split.
  - eapply get_results_unsolved. reflexivity.
  - intros out Hst. eexists _, _.
    split; [apply optimize_not_ok; done|].
    eapply get_results_unsolved. reflexivity.
Qed.

End Invariants.

(** ** Failures of the constructor *)

(** The constructor raises nothing of its own: an exception is either the
    library's refusal of an empty snapshot index, or the [KeyError] of a
    profile column that the table lacks. *)
Lemma init_inl (strict : bool) (df : DataFrame)
    (load pv won woff bio hyd bat dur ce de mc cc mincap : Q) (e : exn) :
  Model.__init__ strict df load pv won woff bio hyd bat dur ce de mc cc mincap
    = inl e ->
  (strict = true /\ df_index df = [] /\
   e = ValueError "Snapshots must not be empty.") \/
  (exists c, df_columns df !! c = None /\ e = KeyError c).
Proof.
  unfold Model.__init__, Model.setup_network, set_snapshots.
  cbn [Model.df_profiles].
  destruct (strict && bool_decide (df_index df = [])) eqn:E;
    cbn [bind ret raise].
  { intros [= <-]. left. apply andb_true_iff in E as [-> E].
    apply bool_decide_eq_true in E. done. }
  unfold Model.add_generators.
  cbn [Model.installed_capacities Model.df_profiles Model.network
       Model.set_network bind ret].
  getitem_lit. cbn [bind ret].
  destruct (df_columns df !! "pv_profile") as [pvp|] eqn:E1;
    unfold getitem at 1; rewrite E1; cbn [bind ret raise];
    [| intros [= <-]; right; eauto].
  destruct (df_columns df !! "wind_on_profile") as [wonp|] eqn:E2;
    unfold getitem at 1; rewrite E2; cbn [bind ret raise];
    [| intros [= <-]; right; eauto].
  destruct (df_columns df !! "wind_off_profile") as [woffp|] eqn:E3;
    unfold getitem at 1; rewrite E3; cbn [bind ret raise];
    [| intros [= <-]; right; eauto].
  destruct (df_columns df !! "biomass_profile") as [biop|] eqn:E4;
    unfold getitem at 1; rewrite E4; cbn [bind ret raise];
    [| intros [= <-]; right; eauto].
  destruct (df_columns df !! "hydro_profile") as [hydp|] eqn:E5;
    unfold getitem at 1; rewrite E5; cbn [bind ret raise];
    [| intros [= <-]; right; eauto].
  cbn [Model.installed_capacities Model.df_profiles Model.network
       Model.set_network bind ret Model.min_installed_cap_residual
       Model.marginal_cost_residual Model.capital_cost_residual
       Model.charge_efficiency Model.discharge_efficiency].
  destruct (df_columns df !! "load_profile") as [loadp|] eqn:E6;
    unfold getitem at 1; rewrite E6; cbn [bind ret raise];
    [| intros [= <-]; right; eauto].
  getitem_lit. cbn [bind ret]. discriminate.
Qed.

(** C2 (as amended).  For an empty Profile Series the constructor performs
    no check of its own and never raises a [ConfigurationError].  Where the
    library refuses an empty snapshot index, construction fails with the
    library's [ValueError], raised in [setup_network] before any component
    is added; otherwise construction fails only with the [KeyError] of a
    missing profile column, and with the six profile columns present it
    returns a model whose network has no snapshot.  No solver is invoked
    in either case, the constructor having no access to one. *)
Theorem empty_profiles_not_rejected (strict : bool) (df : DataFrame)
    (load pv won woff bio hyd bat dur ce de mc cc mincap : Q) :
  df_index df = [] ->
  let r := Model.__init__ strict df load pv won woff bio hyd bat dur ce de mc
             cc mincap in
  (forall e, r = inl e -> exn_class e <> "ConfigurationError") /\
  (strict = true -> r = inl (ValueError "Snapshots must not be empty.")) /\
  (strict = false ->
     (forall e, r = inl e -> exn_class e = "KeyError") /\
     (is_Some (df_columns df !! "pv_profile") ->
      is_Some (df_columns df !! "wind_on_profile") ->
      is_Some (df_columns df !! "wind_off_profile") ->
      is_Some (df_columns df !! "biomass_profile") ->
      is_Some (df_columns df !! "hydro_profile") ->
      is_Some (df_columns df !! "load_profile") ->
      exists m, r = inr m /\ snapshots (Model.network m) = [] /\
                LP.horizon (Model.network m) = 0%nat /\
                Model.opt_state m = None)).
Proof.
  intros Hempty r. split_and!.
  - intros e He. apply init_inl in He as [(_ & _ & ->) | (c & _ & ->)];
      discriminate.
  - intros ->. subst r. unfold Model.__init__, Model.setup_network,
      set_snapshots. cbn [Model.df_profiles]. rewrite Hempty. reflexivity.
  - intros ->. split.
    + intros e He. apply init_inl in He as [(? & _) | (c & _ & ->)];
        [discriminate | reflexivity].
    + intros [pvp E1] [wonp E2] [woffp E3] [biop E4] [hydp E5] [loadp E6].
      eexists. split.
      * subst r. apply init_inr. split; [reflexivity|].
        exists pvp, wonp, woffp, biop, hydp, loadp.
        repeat (split; [done|]). reflexivity.
      * cbn [Model.network Model.opt_state built_network snapshots
             LP.horizon]. rewrite Hempty. done.
Qed.

(** ** What [optimize] returns, and when it raises *)


(** ** The objective of the constructed network *)

(** The sum of a per-snapshot quantity over a horizon of [T] snapshots. *)
Definition total (T : nat) (f : nat -> Q) : Q := LP.sumQ (f <$> seq 0 T).

Lemma objective_built (index : list Z)
    (pvp wonp woffp biop hydp loadp : Series)
    (load pv won woff bio hyd bat dur ce de mc cc mincap : Q) (x : Solution) :
  LP.objective
    (built_network index pvp wonp woffp biop hydp loadp
       load pv won woff bio hyd bat dur ce de mc cc mincap) x ==
  (1 # 10) * (total (length index) (sol_p x "pv")
              + total (length index) (sol_p x "wind_on")
              + total (length index) (sol_p x "wind_off")
              + total (length index) (sol_p x "biomass")
              + total (length index) (sol_p x "hydro"))
  + mc * total (length index) (sol_p x "residual_load")
  + cc * sol_p_nom_opt x "residual_load".
Proof.
  unfold LP.objective, LP.horizon, built_network, total.
  cbn [generators fmap list_fmap LP.sumQ fold_right Model.renewable
       g_marginal_cost g_capital_cost g_p_nom_extendable LP.horizon
       snapshots].
  ring.
Qed.

(** ** Least cost and the minimum residual capacity *)

(** Sums over the first [n] snapshots. *)
Fixpoint sumn (f : nat -> Q) (n : nat) : Q :=
  match n with
  | O => 0
  | S k => sumn f k + f k
  end.

Lemma sumQ_app (l1 l2 : list Q) :
  LP.sumQ (l1 ++ l2) == LP.sumQ l1 + LP.sumQ l2.
Proof.
  induction l1 as [|a l1 IH]; simpl.
  - ring.
  - rewrite IH. ring.
Qed.

Lemma total_sumn (T : nat) (f : nat -> Q) : total T f == sumn f T.
Proof.
  unfold total. induction T as [|T IH].
  - reflexivity.
  - rewrite seq_S, fmap_app, sumQ_app, IH. simpl. ring.
Qed.

Lemma sumn_ext (f g : nat -> Q) (n : nat) :
  (forall t, (t < n)%nat -> f t == g t) -> sumn f n == sumn g n.
Proof.
  induction n as [|n IH]; intros H; simpl.
  - reflexivity.
  - rewrite IH, (H n) by (intros; try apply H; lia). reflexivity.
Qed.

Lemma sumn_nonneg (f : nat -> Q) (n : nat) :
  (forall t, (t < n)%nat -> 0 <= f t) -> 0 <= sumn f n.
Proof.
  induction n as [|n IH]; intros H; simpl.
  - lra.
  - pose proof (H n ltac:(lia)). assert (0 <= sumn f n) by (apply IH; intros; apply H; lia). lra.
Qed.

Lemma sumn_plus (f g : nat -> Q) (n : nat) :
  sumn (fun t => f t + g t) n == sumn f n + sumn g n.
Proof. induction n as [|n IH]; simpl; [ring | rewrite IH; ring]. Qed.

Lemma sumn_scale (k : Q) (f : nat -> Q) (n : nat) :
  sumn (fun t => k * f t) n == k * sumn f n.
Proof. induction n as [|n IH]; simpl; [ring | rewrite IH; ring]. Qed.

Lemma sumn_minus (f g : nat -> Q) (n : nat) :
  sumn (fun t => f t - g t) n == sumn f n - sumn g n.
Proof. induction n as [|n IH]; simpl; [ring | rewrite IH; ring]. Qed.

(** A step small enough for finitely many constraints [eps * den <= num]. *)
Lemma small_step (P : list (Q * Q)) :
  (forall num den, In (num, den) P ->
     0 <= den /\ 0 <= num /\ (0 < den -> 0 < num)) ->
  exists eps, 0 < eps /\ forall num den, In (num, den) P -> eps * den <= num.
Proof.
  induction P as [|[n d] P IH]; intros H.
  - exists 1. split; [lra|]. intros ? ? [].
  - destruct IH as (e & He & IH).
    { intros num den Hin. apply H. right. exact Hin. }
    destruct (H n d (or_introl eq_refl)) as (Hd & Hn & Hpos).
    destruct (Qlt_le_dec 0 d) as [Hd0|Hd0].
    + specialize (Hpos Hd0).
      exists (Qmin e (n / d)). split.
      * apply Q.min_glb_lt; [exact He|]. apply Qlt_shift_div_l; lra.
      * intros num den [[= <- <-]|Hin].
        -- assert (Qmin e (n / d) * d <= (n / d) * d).
           { apply Qmult_le_compat_r; [apply Q.le_min_r | lra]. }
           assert ((n / d) * d == n) by (field; lra). lra.
        -- destruct (H num den (or_intror Hin)) as (Hden & _ & _).
           specialize (IH num den Hin).
           assert (Qmin e (n / d) * den <= e * den).
           { apply Qmult_le_compat_r; [apply Q.le_min_l | exact Hden]. }
           lra.
    + assert (d == 0) by lra.
      exists e. split; [exact He|].
      intros num den [[= <- <-]|Hin]; [|apply IH; exact Hin].
      rewrite H0. lra.
Qed.

(** *** Lowering the residual capacity of a feasible assignment

    The data of one feasible assignment, abstractly: [r], [s], [d] and [c]
    are the residual dispatch, the battery's store and dispatch and its
    state of charge, [ren] the renewable dispatch, [L] the load, [R] the
    residual capacity and [M] a bound above every load. *)

Module Exchange.

Section Perturbation.

Variable T : nat.
Variables q ce de R M : Q.
Variables ren r s d c L : nat -> Q.

Hypothesis Hq : 0 < q /\ q < 1.
Hypothesis Hce : 0 < ce /\ ce <= 1.
Hypothesis Hde : 0 < de /\ de <= 1.
Hypothesis HRM : M < R.

(** The snapshot before [t] on the cycle. *)
Definition prev (t : nat) : nat :=
  match t with O => (T - 1)%nat | S t' => t' end.

Hypothesis Hx : forall t, (t < T)%nat ->
  0 <= L t /\ L t < M /\ 0 <= ren t /\ 0 <= r t /\ r t <= R /\ 0 <= s t /\
  0 <= d t /\ 0 <= c t /\
  c t == q * c (prev t) + ce * s t - d t / de /\
  ren t + r t + (d t - s t) == L t.

(** The snapshots at which the residual plant runs at capacity, and those
    at which the battery is empty. *)
Definition top (t : nat) : bool := Qeq_bool (r t) R.
Definition zero (t : nat) : bool := Qeq_bool (c t) 0.

(** What a unit passed through the battery within one snapshot loses. *)
Definition gamma : Q := / de - ce.

(** Lowering the residual dispatch by one unit at every snapshot of [top]
    is paid by storing one unit less there.  [F t y] is the amount by which
    the state of charge then falls short at the end of [t], when it fell
    short by [y] before: the shortfall decays with the standing loss, grows
    by [ce] at a snapshot of [top], and is cleared by dispatching less
    where the battery is empty. *)
Definition F (t : nat) (y : Q) : Q :=
  if zero t then 0 else q * y + (if top t then ce else 0).

(** The shortfall at the end of [t] when the cycle starts from [y0], and
    the factor by which [y0] enters it. *)

Fixpoint E (y0 : Q) (t : nat) : Q :=
  match t with
  | O => F 0 y0
  | S t' => F (S t') (E y0 t')
  end.

Fixpoint K (t : nat) : Q :=
  match t with
  | O => if zero 0 then 0 else q
  | S t' => if zero (S t') then 0 else q * K t'
  end.

Lemma F_affine t y : F t y == F t 0 + (if zero t then 0 else q) * y.
Proof. unfold F. destruct (zero t); ring. Qed.

Lemma F_compat t y y' : y == y' -> F t y == F t y'.
Proof. intros H. unfold F. destruct (zero t); [reflexivity|]. rewrite H. reflexivity. Qed.

Lemma E_affine y t : E y t == E 0 t + K t * y.
Proof.
  induction t as [|t IH]; simpl.
  - apply F_affine.
  - rewrite (F_compat _ _ _ IH). unfold F. destruct (zero (S t)); ring.
Qed.

Lemma K_bounds t : 0 <= K t /\ K t <= q.
Proof.
  induction t as [|t [IH1 IH2]]; simpl.
  - destruct (zero 0); lra.
  - destruct (zero (S t)); [lra|]. split; nra.
Qed.

Lemma F_nonneg t y : 0 <= y -> 0 <= F t y.
Proof.
  intros Hy. unfold F. destruct (zero t); [lra|]. destruct (top t); nra.
Qed.

Lemma E_nonneg y t : 0 <= y -> 0 <= E y t.
Proof. intros Hy. induction t; simpl; apply F_nonneg; assumption. Qed.

(** The starting shortfall that the cycle reproduces. *)
Definition ystar : Q := E 0 (T - 1) / (1 - K (T - 1)).

Lemma ystar_nonneg : 0 <= ystar.
Proof.
  unfold ystar. destruct (K_bounds (T - 1)).
  apply Qle_shift_div_l; [lra|].
  pose proof (E_nonneg 0 (T - 1) ltac:(lra)). lra.
Qed.

Lemma ystar_fix : E ystar (T - 1) == ystar.
Proof.
  rewrite E_affine. unfold ystar. destruct (K_bounds (T - 1)). field. lra.
Qed.

(** The shortfall at the end of [t] and before [t]. *)
Definition D (t : nat) : Q := E ystar t.
Definition Dp (t : nat) : Q := match t with O => ystar | S t' => D t' end.

Lemma D_step t : D t = F t (Dp t).
Proof. destruct t; reflexivity. Qed.

Lemma Dp_prev t : Dp t == D (prev t).
Proof. destruct t; simpl; [symmetry; apply ystar_fix | reflexivity]. Qed.

Lemma D_nonneg t : 0 <= D t.
Proof. apply E_nonneg, ystar_nonneg. Qed.

Lemma Dp_nonneg t : 0 <= Dp t.
Proof. destruct t; [apply ystar_nonneg | apply D_nonneg]. Qed.

(** At a snapshot of [top] where the battery is empty, the shortfall is
    cleared by passing [nn t] less through the battery. *)
Definition nn (t : nat) : Q := (q * Dp t + ce) / gamma.

(** By how much less is stored, and by how much less is dispatched from
    the battery, per unit of step. *)
Definition a (t : nat) : Q :=
  if top t then (if zero t then 1 + nn t else 1) else 0.

Definition b (t : nat) : Q :=
  if zero t then (if top t then nn t else de * (q * Dp t)) else 0.

Lemma prev_lt t : (t < T)%nat -> (prev t < T)%nat.
Proof. destruct t; simpl; lia. Qed.

Lemma top_true t : top t = true -> r t == R.
Proof. apply Qeq_bool_iff. Qed.

Lemma zero_true t : zero t = true -> c t == 0.
Proof. apply Qeq_bool_iff. Qed.

Lemma top_store t : (t < T)%nat -> top t = true -> d t < s t.
Proof.
  intros Ht Htop. apply top_true in Htop.
  destruct (Hx t Ht) as (? & ? & ? & ? & ? & ? & ? & ? & _ & Hbal).
  lra.
Qed.

Lemma top_zero t :
  (t < T)%nat -> top t = true -> zero t = true -> 0 < gamma /\ 0 < d t.
Proof.
  intros Ht Htop Hz. pose proof (top_store t Ht Htop) as Hds.
  apply zero_true in Hz.
  destruct (Hx t Ht) as (_ & _ & _ & _ & _ & Hs0 & Hd0 & _ & Hsoc & _).
  destruct (Hx (prev t) (prev_lt t Ht))
    as (_ & _ & _ & _ & _ & _ & _ & Hcp & _).
  unfold gamma. unfold Qdiv in Hsoc.
  assert (E1 : d t * / de == q * c (prev t) + ce * s t) by lra.
  assert (E2 : 0 <= q * c (prev t)) by nra.
  assert (E3 : ce * d t < ce * s t) by nra.
  assert (E4 : 0 < d t * (/ de - ce)) by lra.
  assert (E5 : 0 < d t).
  { destruct (Qlt_le_dec 0 (d t)) as [|Hle]; [assumption|].
    assert (E6 : d t == 0) by lra. rewrite E6 in E4. lra. }
  split; [|assumption].
  destruct (Qlt_le_dec 0 (/ de - ce)) as [|Hle]; [assumption|]. nra.
Qed.

Lemma gamma_pos : 0 < gamma -> 0 < 1 - ce * de.
Proof.
  unfold gamma. intros Hg.
  assert (E1 : de * / de == 1) by (apply Qmult_inv_r; lra).
  assert (E2 : 0 < de * (/ de - ce)) by (apply Qmult_lt_0_compat; lra).
  lra.
Qed.

Lemma nn_nonneg t : 0 < gamma -> 0 <= nn t.
Proof.
  intros Hg. unfold nn. apply Qle_shift_div_l; [assumption|].
  pose proof (Dp_nonneg t). nra.
Qed.

Lemma a_nonneg t : (t < T)%nat -> 0 <= a t.
Proof.
  intros Ht. unfold a. destruct (top t) eqn:Htop; [|lra].
  destruct (zero t) eqn:Hz; [|lra].
  destruct (top_zero t Ht Htop Hz) as [Hg _].
  pose proof (nn_nonneg t Hg). lra.
Qed.

Lemma b_nonneg t : (t < T)%nat -> 0 <= b t.
Proof.
  intros Ht. unfold b. destruct (zero t) eqn:Hz; [|lra].
  destruct (top t) eqn:Htop.
  - destruct (top_zero t Ht Htop Hz) as [Hg _]. apply nn_nonneg, Hg.
  - pose proof (Dp_nonneg t).
    apply Qmult_le_0_compat; [lra|]. apply Qmult_le_0_compat; [lra|assumption].
Qed.

(** The deficit obeys the storage equation, with [a] less stored and [b]
    less dispatched. *)
Lemma D_rec t :
  (t < T)%nat -> D t == q * Dp t + ce * a t - b t / de.
Proof.
  intros Ht. rewrite D_step. unfold F, a, b.
  destruct (zero t) eqn:Hz, (top t) eqn:Htop.
  - destruct (top_zero t Ht Htop Hz) as [Hg _].
    pose proof (gamma_pos Hg). unfold nn, gamma in *.
    field. split; lra.
  - field. lra.
  - unfold Qdiv. ring.
  - unfold Qdiv. ring.
Qed.

Lemma a_minus_b t :
  (t < T)%nat -> a t - b t == if top t then 1 else - b t.
Proof.
  intros Ht. unfold a, b. destruct (top t), (zero t); ring.
Qed.

Lemma sumn_Dp n : sumn Dp (S n) == ystar + sumn D n.
Proof.
  induction n as [|n IH].
  - simpl. ring.
  - change (sumn Dp (S (S n))) with (sumn Dp (S n) + Dp (S n)).
    rewrite IH. simpl. ring.
Qed.

Lemma sumn_Dp_D : sumn Dp T == sumn D T.
Proof.
  destruct T as [|n] eqn:ET; [reflexivity|].
  rewrite sumn_Dp. simpl.
  assert (H : D n == ystar).
  { pose proof ystar_fix as H. rewrite ET in H. simpl in H.
    rewrite Nat.sub_0_r in H. exact H. }
  rewrite H. ring.
Qed.

Lemma sumn_storage (f g h : nat -> Q) n :
  sumn (fun t => q * f t + ce * g t - h t / de) n
  == q * sumn f n + ce * sumn g n - sumn h n / de.
Proof.
  induction n as [|n IH]; simpl.
  - unfold Qdiv. ring.
  - rewrite IH. unfold Qdiv. ring.
Qed.

(** Over the cycle, less is taken from the dispatch than from the store:
    what was not stored could at best have been given back. *)
Lemma sum_a_minus_b : 0 <= sumn (fun t => a t - b t) T.
Proof.
  rewrite sumn_minus.
  assert (HD : sumn D T == q * sumn Dp T + ce * sumn a T - sumn b T / de).
  { rewrite <- sumn_storage. apply sumn_ext. intros t Ht. apply D_rec, Ht. }
  rewrite sumn_Dp_D in HD.
  assert (HDn : 0 <= sumn D T) by (apply sumn_nonneg; intros; apply D_nonneg).
  assert (Han : 0 <= sumn a T) by (apply sumn_nonneg; intros; apply a_nonneg; assumption).
  assert (Hbn : 0 <= sumn b T) by (apply sumn_nonneg; intros; apply b_nonneg; assumption).
  assert (E1 : sumn b T == de * (ce * sumn a T - (1 - q) * sumn D T)).
  { assert (E0 : sumn b T / de == ce * sumn a T - (1 - q) * sumn D T) by lra.
    rewrite <- E0. field. lra. }
  assert (E2 : 0 <= (1 - q) * sumn D T) by (apply Qmult_le_0_compat; lra).
  assert (E3 : 0 <= ce * sumn a T) by (apply Qmult_le_0_compat; lra).
  assert (E4 : de * (ce * sumn a T) <= 1 * (ce * sumn a T))
    by (apply Qmult_le_compat_r; lra).
  assert (E5 : ce * sumn a T <= 1 * sumn a T)
    by (apply Qmult_le_compat_r; lra).
  assert (E6 : 0 <= de * ((1 - q) * sumn D T)) by (apply Qmult_le_0_compat; lra).
  lra.
Qed.

Lemma zero_false t : (t < T)%nat -> zero t = false -> 0 < c t.
Proof.
  intros Ht Hz. destruct (Hx t Ht) as (_ & _ & _ & _ & _ & _ & _ & Hc & _).
  destruct (Qlt_le_dec 0 (c t)) as [|Hle]; [assumption|].
  assert (E : c t == 0) by lra. apply Qeq_bool_iff in E.
  unfold zero in Hz. congruence.
Qed.

Lemma D_pos_soc t : (t < T)%nat -> 0 < D t -> 0 < c t.
Proof.
  intros Ht HD. apply zero_false; [assumption|].
  rewrite D_step in HD. unfold F in HD.
  destruct (zero t); [lra | reflexivity].
Qed.

Lemma b_pos_dispatch t : (t < T)%nat -> 0 < b t -> 0 < d t.
Proof.
  intros Ht Hb. unfold b in Hb.
  destruct (zero t) eqn:Hz; [|lra].
  destruct (top t) eqn:Htop.
  - apply (top_zero t Ht Htop Hz).
  - assert (HDp : 0 < Dp t).
    { pose proof (Dp_nonneg t) as H0.
      destruct (Qlt_le_dec 0 (Dp t)) as [|Hle]; [assumption|].
      assert (E : Dp t == 0) by lra. rewrite E in Hb. lra. }
    rewrite Dp_prev in HDp.
    pose proof (D_pos_soc (prev t) (prev_lt t Ht) HDp) as Hcp.
    apply zero_true in Hz.
    destruct (Hx t Ht) as (_ & _ & _ & _ & _ & Hs0 & Hd0 & _ & Hsoc & _).
    unfold Qdiv in Hsoc.
    assert (E1 : 0 < q * c (prev t)) by (apply Qmult_lt_0_compat; lra).
    assert (E2 : 0 <= ce * s t) by (apply Qmult_le_0_compat; lra).
    assert (E3 : 0 < d t * / de) by lra.
    destruct (Qlt_le_dec 0 (d t)) as [|Hle]; [assumption|].
    assert (E : d t == 0) by lra. rewrite E in E3. lra.
Qed.

Lemma top_false t : (t < T)%nat -> top t = false -> r t < R.
Proof.
  intros Ht Htop. destruct (Hx t Ht) as (_ & _ & _ & _ & Hr & _).
  destruct (Qlt_le_dec (r t) R) as [|Hle]; [assumption|].
  assert (E : r t == R) by lra. apply Qeq_bool_iff in E.
  unfold top in Htop. congruence.
Qed.

(** The constraints that bound the step. *)
Definition bounds : list (Q * Q) :=
  (R - M, 1) ::
  flat_map (fun t => [(c t, D t); (s t, a t); (d t, b t);
                      (R - r t, if top t then 0 else b t + 1)]) (seq 0 T).

Lemma bounds_ok num den :
  In (num, den) bounds ->
  0 <= den /\ 0 <= num /\ (0 < den -> 0 < num).
Proof.
  intros [[= <- <-]|Hin]; [lra|].
  apply in_flat_map in Hin as (t & Ht & Hin). apply in_seq in Ht.
  assert (Ht' : (t < T)%nat) by lia. clear Ht.
  destruct (Hx t Ht') as (_ & _ & _ & _ & Hr & Hs0 & Hd0 & Hc0 & _).
  destruct Hin as [[= <- <-]|[[= <- <-]|[[= <- <-]|[[= <- <-]|[]]]]].
  - split; [apply D_nonneg|]. split; [assumption|]. apply D_pos_soc, Ht'.
  - split; [apply a_nonneg, Ht'|]. split; [assumption|].
    intros Ha. unfold a in Ha. destruct (top t) eqn:Htop; [|lra].
    pose proof (top_store t Ht' Htop). lra.
  - split; [apply b_nonneg, Ht'|]. split; [assumption|].
    apply b_pos_dispatch, Ht'.
  - destruct (top t) eqn:Htop.
    + split; [lra|]. split; [lra|]. lra.
    + pose proof (b_nonneg t Ht'). pose proof (top_false t Ht' Htop).
      split; [lra|]. split; lra.
Qed.

Lemma step_exists :
  exists eps, 0 < eps /\ eps <= R - M /\
    forall t, (t < T)%nat ->
      eps * D t <= c t /\ eps * a t <= s t /\ eps * b t <= d t /\
      eps * (if top t then 0 else b t + 1) <= R - r t.
Proof.
  destruct (small_step bounds bounds_ok) as (eps & Heps & H).
  exists eps. split; [assumption|]. split.
  - pose proof (H (R - M) 1 (or_introl eq_refl)). lra.
  - intros t Ht.
    assert (Hin : forall p, In p [(c t, D t); (s t, a t); (d t, b t);
                      (R - r t, if top t then 0 else b t + 1)] -> In p bounds).
    { intros p Hp. right. apply in_flat_map. exists t. split; [|exact Hp].
      apply in_seq. lia. }
    split_and!; apply H, Hin; simpl; tauto.
Qed.

(** The exchange: a cheaper assignment next to any one whose capacity
    exceeds the required minimum. *)
Lemma exchange :
  exists (eps : Q) (a' b' D' : nat -> Q),
    0 < eps /\ eps <= R - M /\
    0 <= sumn (fun t => a' t - b' t) T /\
    forall t, (t < T)%nat ->
      0 <= a' t /\ 0 <= b' t /\ 0 <= D' t /\
      eps * a' t <= s t /\ eps * b' t <= d t /\ eps * D' t <= c t /\
      0 <= r t - eps * (a' t - b' t) /\
      r t - eps * (a' t - b' t) <= R - eps /\
      c t - eps * D' t ==
        q * (c (prev t) - eps * D' (prev t))
        + ce * (s t - eps * a' t) - (d t - eps * b' t) / de /\
      ren t + (r t - eps * (a' t - b' t))
        + ((d t - eps * b' t) - (s t - eps * a' t)) == L t.
Proof.
  destruct step_exists as (eps & Heps & HepsM & H).
  exists eps, a, b, D. split; [assumption|]. split; [assumption|].
  split; [apply sum_a_minus_b|].
  intros t Ht. destruct (H t Ht) as (K1 & K2 & K3 & K4).
  destruct (Hx t Ht) as (HL0 & HLM & _ & Hr0 & HrR & _ & _ & _ & Hsoc & Hbal).
  pose proof (a_nonneg t Ht) as Ha. pose proof (b_nonneg t Ht) as Hb.
  pose proof (a_minus_b t Ht) as Hab.
  split_and!; try assumption; try apply D_nonneg.
  - rewrite Hab. destruct (top t) eqn:Htop.
    + apply top_true in Htop. lra.
    + assert (0 <= eps * b t) by (apply Qmult_le_0_compat; lra). lra.
  - rewrite Hab. destruct (top t) eqn:Htop.
    + apply top_true in Htop. lra.
    + lra.
  - rewrite Hsoc, (D_rec t Ht), <- Dp_prev. unfold Qdiv. ring.
  - rewrite <- Hbal. ring.
Qed.

End Perturbation.

End Exchange.

(** The assignment [x] with the residual dispatch lowered by
    [eps * (a t - b t)], the battery's store, dispatch and state of charge
    by [eps * a t], [eps * b t] and [eps * D t], and the residual capacity
    by [eps]. *)
Definition lowered (x : Solution) (eps : Q) (a b D : nat -> Q) : Solution :=
  {| sol_p := fun g t =>
       if String.eqb g "residual_load"
       then sol_p x g t - eps * (a t - b t) else sol_p x g t;
     sol_p_nom_opt := fun g =>
       if String.eqb g "residual_load"
       then sol_p_nom_opt x g - eps else sol_p_nom_opt x g;
     sol_p_dispatch := fun g t => sol_p_dispatch x g t - eps * b t;
     sol_p_store := fun g t => sol_p_store x g t - eps * a t;
     sol_state_of_charge := fun g t => sol_state_of_charge x g t - eps * D t |}.

Section Cheaper.

Variable index : list Z.
Variables pvp wonp woffp biop hydp loadp : Series.
Variables load pv won woff bio hyd bat dur ce de mc cc mincap : Q.

Let n : Network :=
  built_network index pvp wonp woffp biop hydp loadp
    load pv won woff bio hyd bat dur ce de mc cc mincap.

Hypothesis Hce : 0 < ce /\ ce <= 1.
Hypothesis Hde : 0 < de /\ de <= 1.
Hypothesis Hmc : 0 <= mc.
Hypothesis Hcc : 0 < cc.
Hypothesis Hload : forall t f, (t < length index)%nat ->
  at_ loadp t = Some f -> 0 <= f * load /\ f * load < mincap.

Lemma cheaper_assignment (x : Solution) :
  LP.feasible n x -> mincap < sol_p_nom_opt x "residual_load" ->
  exists y, LP.feasible n y /\ LP.objective n y < LP.objective n x.
Proof.
  intros Hx Hcap. apply feasible_built in Hx as [Hmin Hstep].
  set (T := length index) in *.
  set (ren := fun t => sol_p x "pv" t + sol_p x "wind_on" t
                       + sol_p x "wind_off" t + sol_p x "biomass" t
                       + sol_p x "hydro" t).
  set (L := fun t => match at_ loadp t with Some f => f * load | None => 0 end).
  destruct (Exchange.exchange T (1 - (1 # 10000)) ce de
              (sol_p_nom_opt x "residual_load") mincap ren
              (sol_p x "residual_load") (sol_p_store x "batteries")
              (sol_p_dispatch x "batteries")
              (sol_state_of_charge x "batteries") L)
    as (eps & a & b & D & Heps & HepsM & Hsum & H); try assumption; try lra.
  { intros t Ht. destruct (Hstep t Ht) as
      (f1 & f2 & f3 & f4 & f5 & fl & A1 & A2 & A3 & A4 & A5 & Al
       & [? ?] & [? ?] & [? ?] & [? ?] & [? ?] & [? ?] & [? ?] & [? ?]
       & [? ?] & Hsoc & Hbal).
    destruct (Hload t fl Ht Al) as [HL0 HLM].
    unfold L, ren. rewrite Al.
    split_and!; try assumption; try lra.
    - rewrite Hsoc. unfold soc_prev, Exchange.prev. fold T.
      destruct t; reflexivity. }
  exists (lowered x eps a b D). split.
  - apply feasible_built. split.
    + cbn. lra.
    + intros t Ht. fold T in Ht.
      destruct (Hstep t Ht) as
        (f1 & f2 & f3 & f4 & f5 & fl & A1 & A2 & A3 & A4 & A5 & Al
         & [? ?] & [? ?] & [? ?] & [? ?] & [? ?] & [? ?] & [? ?] & [? ?]
         & [? ?] & Hsoc & Hbal).
      destruct (H t Ht) as (Ha & Hb & HD & Ka & Kb & KD & Kr0 & KrR & Ksoc & Kbal).
      assert (0 <= eps * a t) by (apply Qmult_le_0_compat; lra).
      assert (0 <= eps * b t) by (apply Qmult_le_0_compat; lra).
      assert (0 <= eps * D t) by (apply Qmult_le_0_compat; lra).
      exists f1, f2, f3, f4, f5, fl.
      do 6 (split; [assumption|]).
      cbn [lowered sol_p sol_p_nom_opt sol_p_dispatch sol_p_store
           sol_state_of_charge String.eqb Ascii.eqb Bool.eqb].
      split_and!; try assumption; try lra.
      rewrite Ksoc. unfold soc_prev, Exchange.prev. fold T.
      cbn [lowered sol_state_of_charge]. destruct t; reflexivity.
  - unfold n. rewrite !objective_built. fold T.
    assert (E : forall g, String.eqb g "residual_load" = false ->
                total T (sol_p (lowered x eps a b D) g) == total T (sol_p x g)).
    { intros g Hg. rewrite !total_sumn. apply sumn_ext. intros t _.
      cbn [lowered sol_p]. rewrite Hg. reflexivity. }
    rewrite !E by reflexivity.
    assert (Er : total T (sol_p (lowered x eps a b D) "residual_load")
                 == total T (sol_p x "residual_load")
                    - eps * sumn (fun t => a t - b t) T).
    { rewrite !total_sumn, <- sumn_scale, <- sumn_minus. apply sumn_ext.
      intros t _. reflexivity. }
    rewrite Er. cbn [lowered sol_p_nom_opt String.eqb Ascii.eqb Bool.eqb].
    assert (0 <= eps * sumn (fun t => a t - b t) T)
      by (apply Qmult_le_0_compat; lra).
    assert (0 <= mc * (eps * sumn (fun t => a t - b t) T))
      by (apply Qmult_le_0_compat; lra).
    assert (0 < cc * eps) by (apply Qmult_lt_0_compat; lra).
    lra.
Qed.

End Cheaper.

(** The assignment that leaves renewables and battery idle and meets the
    load from the residual plant alone, at capacity [cap]. *)
Definition backup_only (df : DataFrame) (load cap : Q) : Solution :=
  {| sol_p := fun g t =>
       if String.eqb g "residual_load"
       then match load_at df load t with Some L => L | None => 0 end
       else 0;
     sol_p_nom_opt := fun _ => cap;
     sol_p_dispatch := fun _ _ => 0;
     sol_p_store := fun _ _ => 0;
     sol_state_of_charge := fun _ _ => 0 |}.

Lemma available_Some (df : DataFrame) (c : string) (s : Series) (p : Q)
    (t : nat) (A : Q) :
  df_columns df !! c = Some s -> available df c p t = Some A ->
  exists f, at_ s t = Some f /\ A = f * p.
Proof.
  unfold available, column. intros -> H.
  destruct (at_ s t) as [f|]; [|discriminate].
  exists f. split; [reflexivity|]. cbn in H. congruence.
Qed.

Lemma total_nonneg (T : nat) (f : nat -> Q) :
  (forall t, (t < T)%nat -> 0 <= f t) -> 0 <= total T f.
Proof. intros H. rewrite total_sumn. apply sumn_nonneg, H. Qed.

(** With a positive capital cost and a minimum capacity above every load,
    the minimum is what every least-cost assignment installs. *)
Lemma capacity_at_minimum_costly (strict : bool) (df : DataFrame)
    (load pv won woff bio hyd bat dur ce de mc cc mincap : Q) (m : Model.t) :
  Model.__init__ strict df load pv won woff bio hyd bat dur ce de mc cc mincap
    = inr m ->
  0 < ce /\ ce <= 1 -> 0 < de /\ de <= 1 -> 0 <= mc -> 0 < cc ->
  0 <= bat -> 0 <= dur ->
  (forall t, (t < length (df_index df))%nat ->
     exists a_pv a_won a_woff a_bio a_hyd L : Q,
       available df "pv_profile" pv t = Some a_pv /\ 0 <= a_pv /\
       available df "wind_on_profile" won t = Some a_won /\ 0 <= a_won /\
       available df "wind_off_profile" woff t = Some a_woff /\ 0 <= a_woff /\
       available df "biomass_profile" bio t = Some a_bio /\ 0 <= a_bio /\
       available df "hydro_profile" hyd t = Some a_hyd /\ 0 <= a_hyd /\
       load_at df load t = Some L /\ 0 <= L /\ L < mincap) ->
  (forall x, LP.feasible (Model.network m) x ->
     mincap <= residual_capacity x) /\
  (exists x, LP.feasible (Model.network m) x /\
     residual_capacity x == mincap) /\
  (forall x, LP.feasible (Model.network m) x ->
     cc * mincap <= LP.objective (Model.network m) x) /\
  (forall x, LP.optimal (Model.network m) x ->
     residual_capacity x == mincap).
Proof.
  intros Hinit Hce Hde Hmc Hcc Hbat Hdur Hin.
  assert (Hlow : forall x, LP.feasible (Model.network m) x ->
                   mincap <= residual_capacity x).
  { intros x Hx.
    exact (solved_min_capacity strict df load pv won woff bio hyd bat dur ce de
             mc cc mincap m x Hinit Hx). }
  apply init_inr in Hinit as (_ & pvp & wonp & woffp & biop & hydp & loadp
                              & E1 & E2 & E3 & E4 & E5 & E6 & ->).
  cbn [Model.network] in *.
  split; [exact Hlow|]. split; [|split].
  - exists (backup_only df load mincap). split; [|reflexivity].
    apply feasible_built. split; [cbn; lra|].
    intros t Ht.
    destruct (Hin t Ht) as (a1 & a2 & a3 & a4 & a5 & L & A1 & ? & A2 & ?
                            & A3 & ? & A4 & ? & A5 & ? & AL & ? & ?).
    destruct (available_Some _ _ _ _ _ _ E1 A1) as (f1 & F1 & ->).
    destruct (available_Some _ _ _ _ _ _ E2 A2) as (f2 & F2 & ->).
    destruct (available_Some _ _ _ _ _ _ E3 A3) as (f3 & F3 & ->).
    destruct (available_Some _ _ _ _ _ _ E4 A4) as (f4 & F4 & ->).
    destruct (available_Some _ _ _ _ _ _ E5 A5) as (f5 & F5 & ->).
    destruct (available_Some _ _ _ _ _ _ E6 AL) as (fl & FL & ->).
    exists f1, f2, f3, f4, f5, fl. do 6 (split; [assumption|]).
    assert (0 <= bat * dur) by (apply Qmult_le_0_compat; assumption).
    cbn [backup_only sol_p sol_p_nom_opt sol_p_dispatch sol_p_store
         sol_state_of_charge String.eqb Ascii.eqb Bool.eqb soc_prev].
    rewrite AL.
    split_and!; try assumption; try lra.
    destruct t; cbn [soc_prev backup_only sol_state_of_charge]; unfold Qdiv; ring.
  - intros x Hx. pose proof (Hlow x Hx) as Hcap.
    apply feasible_built in Hx as [_ Hstep].
    rewrite objective_built.
    assert (N : forall g, In g ["pv"; "wind_on"; "wind_off"; "biomass";
                                "hydro"; "residual_load"] ->
                0 <= total (length (df_index df)) (sol_p x g)).
    { intros g Hg. apply total_nonneg. intros t Ht.
      destruct (Hstep t Ht) as
        (f1 & f2 & f3 & f4 & f5 & fl & _ & _ & _ & _ & _ & _
         & [? ?] & [? ?] & [? ?] & [? ?] & [? ?] & [? ?] & _).
      simpl in Hg.
      destruct Hg as [<-|[<-|[<-|[<-|[<-|[<-|[]]]]]]]; assumption. }
    pose proof (N "pv" ltac:(simpl; tauto)).
    pose proof (N "wind_on" ltac:(simpl; tauto)).
    pose proof (N "wind_off" ltac:(simpl; tauto)).
    pose proof (N "biomass" ltac:(simpl; tauto)).
    pose proof (N "hydro" ltac:(simpl; tauto)).
    pose proof (N "residual_load" ltac:(simpl; tauto)) as Nr.
    assert (0 <= mc * total (length (df_index df)) (sol_p x "residual_load"))
      by (apply Qmult_le_0_compat; assumption).
    unfold residual_capacity in Hcap.
    assert (cc * mincap <= cc * sol_p_nom_opt x "residual_load")
      by (apply Qmult_le_l; lra).
    lra.
  - intros x [Hx Hopt]. pose proof (Hlow x Hx) as Hcap.
    destruct (Qlt_le_dec mincap (residual_capacity x)) as [Hlt|Hle]; [|lra].
    exfalso.
    destruct (cheaper_assignment (df_index df) pvp wonp woffp biop hydp loadp
                load pv won woff bio hyd bat dur ce de mc cc mincap
                Hce Hde Hmc Hcc) with (x := x) as (y & Hy & Hlty);
      [| exact Hx | exact Hlt |].
    + intros t f Ht Hf.
      destruct (Hin t Ht) as (a1 & a2 & a3 & a4 & a5 & L & _ & _ & _ & _
                              & _ & _ & _ & _ & _ & _ & AL & ? & ?).
      destruct (available_Some _ _ _ _ _ _ E6 AL) as (fl & FL & ->).
      assert (f = fl) by congruence. subst fl. split; assumption.
    + specialize (Hopt y Hy). lra.
Qed.

(** The assignment [x] with [k] more residual capacity. *)
Definition raised (x : Solution) (k : Q) : Solution :=
  {| sol_p := sol_p x;
     sol_p_nom_opt := fun g => sol_p_nom_opt x g + k;
     sol_p_dispatch := sol_p_dispatch x;
     sol_p_store := sol_p_store x;
     sol_state_of_charge := sol_state_of_charge x |}.

Lemma raised_feasible (index : list Z)
    (pvp wonp woffp biop hydp loadp : Series)
    (load pv won woff bio hyd bat dur ce de mc cc mincap : Q)
    (x : Solution) (k : Q) :
  0 <= k ->
  LP.feasible
    (built_network index pvp wonp woffp biop hydp loadp
       load pv won woff bio hyd bat dur ce de mc cc mincap) x ->
  LP.feasible
    (built_network index pvp wonp woffp biop hydp loadp
       load pv won woff bio hyd bat dur ce de mc cc mincap) (raised x k).
Proof.
  intros Hk Hx. apply feasible_built in Hx as [Hmin Hstep].
  apply feasible_built. split; [cbn; lra|].
  intros t Ht.
  destruct (Hstep t Ht) as
    (f1 & f2 & f3 & f4 & f5 & fl & A1 & A2 & A3 & A4 & A5 & Al
     & ? & ? & ? & ? & ? & [? ?] & ? & ? & ? & Hsoc & Hbal).
  exists f1, f2, f3, f4, f5, fl. do 6 (split; [assumption|]).
  cbn [raised sol_p sol_p_nom_opt sol_p_dispatch sol_p_store
       sol_state_of_charge].
  split_and!; try assumption; try lra.
Qed.

Lemma raised_objective (index : list Z)
    (pvp wonp woffp biop hydp loadp : Series)
    (load pv won woff bio hyd bat dur ce de mc cc mincap : Q)
    (x : Solution) (k : Q) :
  LP.objective
    (built_network index pvp wonp woffp biop hydp loadp
       load pv won woff bio hyd bat dur ce de mc cc mincap) (raised x k)
  == LP.objective
       (built_network index pvp wonp woffp biop hydp loadp
          load pv won woff bio hyd bat dur ce de mc cc mincap) x
     + cc * k.
Proof.
  rewrite !objective_built. cbn [raised sol_p sol_p_nom_opt]. ring.
Qed.

(** With a negative capital cost every feasible assignment has a cheaper
    one, with more capacity: none is a least-cost one. *)
Lemma negative_capital_cost (index : list Z)
    (pvp wonp woffp biop hydp loadp : Series)
    (load pv won woff bio hyd bat dur ce de mc cc mincap : Q) :
  cc < 0 ->
  let n := built_network index pvp wonp woffp biop hydp loadp
             load pv won woff bio hyd bat dur ce de mc cc mincap in
  (forall x, LP.feasible n x ->
     exists y, LP.feasible n y /\ LP.objective n y < LP.objective n x /\
       residual_capacity x < residual_capacity y) /\
  forall x, ~ LP.optimal n x.
Proof.
  intros Hcc n.
  assert (H : forall x, LP.feasible n x ->
     exists y, LP.feasible n y /\ LP.objective n y < LP.objective n x /\
       residual_capacity x < residual_capacity y).
  { intros x Hx. exists (raised x 1).
    split; [apply raised_feasible; [lra | exact Hx]|].
    split.
    - unfold n. rewrite raised_objective. lra.
    - unfold residual_capacity, raised. cbn [sol_p_nom_opt]. lra. }
  split; [exact H|].
  intros x [Hx Hopt]. destruct (H x Hx) as (y & Hy & Hlt & _).
  specialize (Hopt y Hy). lra.
Qed.

(** With a capital cost of zero a least-cost assignment stays one with any
    more capacity: the least cost does not determine the capacity. *)
Lemma zero_capital_cost (index : list Z)
    (pvp wonp woffp biop hydp loadp : Series)
    (load pv won woff bio hyd bat dur ce de mc cc mincap : Q)
    (x : Solution) (k : Q) :
  cc == 0 -> 0 <= k ->
  let n := built_network index pvp wonp woffp biop hydp loadp
             load pv won woff bio hyd bat dur ce de mc cc mincap in
  LP.optimal n x ->
  LP.optimal n (raised x k) /\
  residual_capacity (raised x k) == residual_capacity x + k.
Proof.
  intros Hcc Hk n [Hx Hopt]. split; [|reflexivity].
  split; [apply raised_feasible; assumption|].
  intros y Hy. specialize (Hopt y Hy).
  pose proof (raised_objective index pvp wonp woffp biop hydp loadp load pv
                won woff bio hyd bat dur ce de mc cc mincap x k) as E.
  assert (E0 : cc * k == 0) by (rewrite Hcc; ring).
  unfold n in *. lra.
Qed.

(** C8 (as amended).  Every feasible assignment, hence every solution the
    optimizer returns, has a residual capacity of at least
    [min_installed_cap_residual], whatever the scenario.  In a scenario
    with efficiencies in (0,1], non-negative capacities, availabilities and
    loads, a non-negative marginal cost and a positive capital cost, in
    which the minimum exceeds the load of every timestep, the program is
    solvable (an assignment with exactly the minimum capacity is feasible
    and the cost is bounded below), and every least-cost assignment has a
    residual capacity equal to the minimum.  With a negative capital cost
    every feasible assignment has a cheaper one with more capacity, so that
    there is no least-cost assignment; with a capital cost of zero a
    least-cost assignment stays one with any more capacity, so that the
    capacity is not determined. *)
Theorem residual_capacity_at_minimum (strict : bool) (df : DataFrame)
    (load pv won woff bio hyd bat dur ce de mc cc mincap : Q) (m : Model.t) :
  Model.__init__ strict df load pv won woff bio hyd bat dur ce de mc cc mincap
    = inr m ->
  (forall x, LP.feasible (Model.network m) x ->
     mincap <= residual_capacity x) /\
  (0 < ce /\ ce <= 1 -> 0 < de /\ de <= 1 -> 0 <= mc -> 0 < cc ->
   0 <= bat -> 0 <= dur ->
   (forall t, (t < length (df_index df))%nat ->
      exists a_pv a_won a_woff a_bio a_hyd L : Q,
        available df "pv_profile" pv t = Some a_pv /\ 0 <= a_pv /\
        available df "wind_on_profile" won t = Some a_won /\ 0 <= a_won /\
        available df "wind_off_profile" woff t = Some a_woff /\
        0 <= a_woff /\
        available df "biomass_profile" bio t = Some a_bio /\ 0 <= a_bio /\
        available df "hydro_profile" hyd t = Some a_hyd /\ 0 <= a_hyd /\
        load_at df load t = Some L /\ 0 <= L /\ L < mincap) ->
   (exists x, LP.feasible (Model.network m) x /\
      residual_capacity x == mincap) /\
   (forall x, LP.feasible (Model.network m) x ->
      cc * mincap <= LP.objective (Model.network m) x) /\
   (forall x, LP.optimal (Model.network m) x ->
      residual_capacity x == mincap)) /\
  (cc < 0 ->
   (forall x, LP.feasible (Model.network m) x ->
      exists y, LP.feasible (Model.network m) y /\
        LP.objective (Model.network m) y < LP.objective (Model.network m) x /\
        residual_capacity x < residual_capacity y) /\
   forall x, ~ LP.optimal (Model.network m) x) /\
  (cc == 0 ->
   forall x k, LP.optimal (Model.network m) x -> 0 <= k ->
     LP.optimal (Model.network m) (raised x k) /\
     residual_capacity (raised x k) == residual_capacity x + k).
Proof.
  intros Hinit. split; [|split; [|split]].
  - intros x Hx.
    exact (solved_min_capacity strict df load pv won woff bio hyd bat dur ce de
             mc cc mincap m x Hinit Hx).
  - intros Hce Hde Hmc Hcc Hbat Hdur Hin.
    exact (proj2 (capacity_at_minimum_costly strict df load pv won woff bio
                    hyd bat dur ce de mc cc mincap m Hinit Hce Hde Hmc Hcc
                    Hbat Hdur Hin)).
  - intros Hcc.
    apply init_inr in Hinit as (_ & pvp & wonp & woffp & biop & hydp & loadp
                                & _ & _ & _ & _ & _ & _ & ->).
    cbn [Model.network].
    exact (negative_capital_cost (df_index df) pvp wonp woffp biop hydp loadp
             load pv won woff bio hyd bat dur ce de mc cc mincap Hcc).
  - intros Hcc x k Hx Hk.
    apply init_inr in Hinit as (_ & pvp & wonp & woffp & biop & hydp & loadp
                                & _ & _ & _ & _ & _ & _ & ->).
    cbn [Model.network] in *.
    exact (zero_capital_cost (df_index df) pvp wonp woffp biop hydp loadp
             load pv won woff bio hyd bat dur ce de mc cc mincap x k Hcc Hk
             Hx).
Qed.

(** ** A worked scenario *)

Module Example.

(** Two snapshots.  Photovoltaics is fully available in the first and half
    available in the second; the other technologies have no capacity; the
    load is the same in both. *)
Definition profiles : DataFrame :=
  {| df_index := [0; 1]%Z; df_index_name := None;
     df_columns :=
       <["load_profile" := [Some (1 # 2); Some (1 # 2)]]>
       (<["hydro_profile" := [Some 0; Some 0]]>
       (<["biomass_profile" := [Some 0; Some 0]]>
       (<["wind_off_profile" := [Some 0; Some 0]]>
       (<["wind_on_profile" := [Some 0; Some 0]]>
       (<["pv_profile" := [Some 1; Some (1 # 2)]]> ∅))))) |}.

(** The same columns over no snapshot at all. *)
Definition empty_profiles : DataFrame :=
  {| df_index := []; df_index_name := None;
     df_columns :=
       <["load_profile" := []]>
       (<["hydro_profile" := []]>
       (<["biomass_profile" := []]>
       (<["wind_off_profile" := []]>
       (<["wind_on_profile" := []]>
       (<["pv_profile" := []]> ∅))))) |}.

(** Annual load 4 (so 2 per snapshot), 3 of photovoltaics, a battery of
    power [bat] and four hours, residual plant at 100 per unit of energy
    and [cc] per unit of capacity, at least [mincap] of it. *)
Definition model (bat cc mincap : Q) : Model.t :=
  {| Model.df_profiles := profiles;
     Model.installed_capacities := capacities 3 0 0 0 0 bat 4;
     Model.charge_efficiency := 9 # 10; Model.discharge_efficiency := 1;
     Model.marginal_cost_residual := 100;
     Model.capital_cost_residual := cc;
     Model.min_installed_cap_residual := mincap;
     Model.network :=
       built_network [0; 1]%Z [Some 1; Some (1 # 2)] [Some 0; Some 0]
         [Some 0; Some 0] [Some 0; Some 0] [Some 0; Some 0]
         [Some (1 # 2); Some (1 # 2)]
         4 3 0 0 0 0 bat 4 (9 # 10) 1 100 cc mincap;
     Model.opt_state := None |}.

(** Without a battery: photovoltaics covers the first snapshot, curtailing
    1, and the residual plant supplies 1/2 in the second. *)
Definition dispatch (cap : Q) : Solution :=
  {| sol_p := fun g t =>
       if String.eqb g "pv" then match t with O => 2 | _ => 3 # 2 end
       else if String.eqb g "residual_load"
            then match t with O => 0 | _ => 1 # 2 end
       else 0;
     sol_p_nom_opt := fun g => if String.eqb g "residual_load" then cap else 0;
     sol_p_dispatch := fun _ _ => 0;
     sol_p_store := fun _ _ => 0;
     sol_state_of_charge := fun _ _ => 0 |}.

(** With a battery of power 1: it stores 1 in the first snapshot and gives
    back what is left of it in the second. *)
Definition dispatch_with_battery : Solution :=
  {| sol_p := fun g t =>
       if String.eqb g "pv"
       then match t with O => 3 | _ => 2 - (89991 # 100000) end
       else 0;
     sol_p_nom_opt := fun _ => 0;
     sol_p_dispatch := fun g t =>
       if String.eqb g "batteries"
       then match t with O => 0 | _ => 89991 # 100000 end else 0;
     sol_p_store := fun g t =>
       if String.eqb g "batteries"
       then match t with O => 1 | _ => 0 end else 0;
     sol_state_of_charge := fun g t =>
       if String.eqb g "batteries"
       then match t with O => 9 # 10 | _ => 0 end else 0 |}.

Definition solved_by (x : Solution) : SolverOutcome :=
  {| status := "ok"; condition := "optimal"; solution := x |}.

Definition failed : SolverOutcome :=
  {| status := "warning"; condition := "infeasible";
     solution := dispatch 0 |}.

End Example.

(** ** The worked scenario, constructed, solved and extracted *)

Lemma example_init (strict : bool) (bat cc mincap : Q) :
  Model.__init__ strict Example.profiles 4 3 0 0 0 0 bat 4 (9 # 10) 1 100 cc
    mincap = inr (Example.model bat cc mincap).
Proof.
  apply init_inr. split; [by rewrite andb_false_r|].
  eexists _, _, _, _, _, _.
  split_and!;
    try (unfold Example.profiles; cbn [df_columns]; lookup_lit; reflexivity).
Qed.

Lemma example_feasible_battery :
  LP.feasible (Model.network (Example.model 1 1000 0))
    Example.dispatch_with_battery.
Proof. vm_compute. reflexivity. Qed.

(** The constraints of the scenario on an arbitrary assignment, with the
    profile values read off. *)
Ltac example_bounds H :=
  let f1 := fresh "f" in let f2 := fresh "f" in let f3 := fresh "f" in
  let f4 := fresh "f" in let f5 := fresh "f" in let fl := fresh "f" in
  let E1 := fresh "E" in let E2 := fresh "E" in let E3 := fresh "E" in
  let E4 := fresh "E" in let E5 := fresh "E" in let El := fresh "E" in
  destruct H as (f1 & f2 & f3 & f4 & f5 & fl & E1 & E2 & E3 & E4 & E5 & El
                 & [? ?] & [? ?] & [? ?] & [? ?] & [? ?] & [? ?] & [? ?]
                 & [? ?] & [? ?] & ? & ?);
  injection E1 as <-; injection E2 as <-; injection E3 as <-;
  injection E4 as <-; injection E5 as <-; injection El as <-.

(** Without a battery and with capital cost 1000, the dispatch of the
    example is a least-cost one, the capacity being the larger of the
    second snapshot's shortfall and the required minimum. *)
Lemma example_optimal (mincap cap : Q) :
  1 # 2 <= cap -> mincap <= cap ->
  (cap == 1 # 2 \/ cap == mincap) ->
  LP.optimal (Model.network (Example.model 0 1000 mincap))
    (Example.dispatch cap).
Proof.
  intros Hcap Hmin Hor. split.
  - apply feasible_built. split; [exact Hmin|].
    intros t Ht. unfold step_ok.
    destruct t as [|[|t]]; [| |simpl in Ht; lia];
      eexists _, _, _, _, _, _; (do 6 (split; [reflexivity|]));
      split_and!; cbn; first [lra | vm_compute; reflexivity].
  - intros y Hy. cbn [Model.network Example.model] in *.
    apply feasible_built in Hy as [Hymin Hstep].
    pose proof (Hstep 0%nat ltac:(simpl; lia)) as H0.
    pose proof (Hstep 1%nat ltac:(simpl; lia)) as H1.
    example_bounds H0. example_bounds H1.
    rewrite !objective_built. unfold total. cbn. cbn in *. lra.
Qed.

(** ** The claims on the worked scenario *)

(** C1, counterexample.  In the scenario without battery the solved model
    dispatches 2 of the 3 available in the first snapshot: load minus
    dispatched renewables minus battery power is 0, and so is the residual
    dispatch, but the [residual_load] column holds -1. *)
Lemma residual_load_column_counterexample :
  exists solved st tbl m' col,
    Model.__init__ false Example.profiles 4 3 0 0 0 0 0 4 (9 # 10) 1 100 1000 0
      = inr (Example.model 0 1000 0) /\
    LP.optimal (Model.network (Example.model 0 1000 0))
      (Example.dispatch (1 # 2)) /\
    Model.optimize (answers (Example.solved_by (Example.dispatch (1 # 2))))
      (Example.model 0 1000 0) = inr (solved, st) /\
    Model.get_results solved = inr (tbl, m') /\
    df_columns tbl !! "residual_load" = Some col /\
    cell_is (at_ col 0) (-1) /\
    cell_is (load_at Example.profiles 4 0) 2 /\
    dispatched_re (Example.dispatch (1 # 2)) 0 == 2 /\
    battery_net_power (Example.dispatch (1 # 2)) 0 == 0 /\
    residual_dispatch (Example.dispatch (1 # 2)) 0 == 0 /\
    ~ -1 == 2 - 2 - 0.
Proof.
  eexists _, _, _, _, _. split; [apply example_init|].
  split; [apply example_optimal; [lra | lra | left; reflexivity]|].
  split; [vm_compute; reflexivity|].
  split; [vm_compute; reflexivity|].
  split; [vm_compute; reflexivity|].
  split_and!; try (vm_compute; reflexivity).
  intros H. vm_compute in H. discriminate.
Qed.

Lemma residual_load_column_witness :
  Model.__init__ false Example.profiles 4 3 0 0 0 0 1 4 (9 # 10) 1 100 1000 0
    = inr (Example.model 1 1000 0) /\
  status (Example.solved_by Example.dispatch_with_battery) = "ok" /\
  LP.feasible (Model.network (Example.model 1 1000 0))
    Example.dispatch_with_battery /\
  exists solved st tbl m' col,
    Model.optimize (answers (Example.solved_by Example.dispatch_with_battery))
      (Example.model 1 1000 0) = inr (solved, st) /\
    Model.get_results solved = inr (tbl, m') /\
    df_columns tbl !! "residual_load" = Some col /\
    forall t, (t < 2)%nat ->
      exists L A : Q,
        load_at Example.profiles 4 t = Some L /\
        available_re Example.profiles 3 0 0 0 0 t = Some A /\
        cell_is (at_ col t)
          (L - A - battery_net_power Example.dispatch_with_battery t) /\
        L - A - battery_net_power Example.dispatch_with_battery t
          == residual_dispatch Example.dispatch_with_battery t
             - (A - dispatched_re Example.dispatch_with_battery t).
Proof.
  split; [apply example_init|]. split; [reflexivity|].
  split; [apply example_feasible_battery|].
  exact (residual_load_column false Example.profiles 4 3 0 0 0 0 1 4 (9 # 10)
           1 100 1000 0 (Example.model 1 1000 0)
           (Example.solved_by Example.dispatch_with_battery)
           (example_init false 1 1000 0) eq_refl example_feasible_battery).
Defined.

Lemma curtailed_re_column_witness :
  Model.__init__ false Example.profiles 4 3 0 0 0 0 1 4 (9 # 10) 1 100 1000 0
    = inr (Example.model 1 1000 0) /\
  status (Example.solved_by Example.dispatch_with_battery) = "ok" /\
  LP.feasible (Model.network (Example.model 1 1000 0))
    Example.dispatch_with_battery /\
  exists solved st tbl m' col,
    Model.optimize (answers (Example.solved_by Example.dispatch_with_battery))
      (Example.model 1 1000 0) = inr (solved, st) /\
    Model.get_results solved = inr (tbl, m') /\
    df_columns tbl !! "curtailed_re" = Some col /\
    forall t, (t < 2)%nat ->
      exists A : Q,
        available_re Example.profiles 3 0 0 0 0 t = Some A /\
        cell_is (at_ col t) (A - dispatched_re Example.dispatch_with_battery t)
        /\ 0 <= A - dispatched_re Example.dispatch_with_battery t.
Proof.
  split; [apply example_init|]. split; [reflexivity|].
  split; [apply example_feasible_battery|].
  exact (curtailed_re_column false Example.profiles 4 3 0 0 0 0 1 4 (9 # 10)
           1 100 1000 0 (Example.model 1 1000 0)
           (Example.solved_by Example.dispatch_with_battery)
           (example_init false 1 1000 0) eq_refl example_feasible_battery).
Defined.

Lemma energy_balance_witness :
  Model.__init__ false Example.profiles 4 3 0 0 0 0 1 4 (9 # 10) 1 100 1000 0
    = inr (Example.model 1 1000 0) /\
  LP.feasible (Model.network (Example.model 1 1000 0))
    Example.dispatch_with_battery /\
  (1 < 2)%nat /\
  exists L : Q,
    load_at Example.profiles 4 1 = Some L /\
    dispatched_re Example.dispatch_with_battery 1
    + residual_dispatch Example.dispatch_with_battery 1
    + battery_net_power Example.dispatch_with_battery 1 == L.
Proof.
  split; [apply example_init|]. split; [apply example_feasible_battery|].
  split; [lia|].
  apply (energy_balance false Example.profiles 4 3 0 0 0 0 1 4 (9 # 10) 1 100
           1000 0 (Example.model 1 1000 0) (example_init false 1 1000 0)
           Example.dispatch_with_battery example_feasible_battery 1%nat).
  simpl. lia.
Defined.

Lemma state_of_charge_witness :
  Model.__init__ false Example.profiles 4 3 0 0 0 0 1 4 (9 # 10) 1 100 1000 0
    = inr (Example.model 1 1000 0) /\
  LP.feasible (Model.network (Example.model 1 1000 0))
    Example.dispatch_with_battery /\
  (forall t, (t < 2)%nat ->
     0 <= soc Example.dispatch_with_battery t /\
     soc Example.dispatch_with_battery t <= 1 * 4 /\
     soc Example.dispatch_with_battery t
     == (1 - (1 # 10000)) * soc_prev 2 Example.dispatch_with_battery t
        + (9 # 10) * sol_p_store Example.dispatch_with_battery "batteries" t
        - sol_p_dispatch Example.dispatch_with_battery "batteries" t / 1) /\
  ((0 < 2)%nat ->
     soc Example.dispatch_with_battery 0
     == (1 - (1 # 10000)) * soc Example.dispatch_with_battery (2 - 1)
        + (9 # 10) * sol_p_store Example.dispatch_with_battery "batteries" 0
        - sol_p_dispatch Example.dispatch_with_battery "batteries" 0 / 1).
Proof.
  split; [apply example_init|]. split; [apply example_feasible_battery|].
  exact (state_of_charge_cyclic_and_bounded false Example.profiles 4 3 0 0 0 0
           1 4 (9 # 10) 1 100 1000 0 (Example.model 1 1000 0)
           (example_init false 1 1000 0) Example.dispatch_with_battery
           example_feasible_battery).
Defined.

Lemma standing_loss_fixed_witness :
  Model.__init__ false Example.profiles 4 3 0 0 0 0 1 4 (9 # 10) 1 100 1000 0
    = inr (Example.model 1 1000 0) /\
  exists su : StorageUnit,
    storage_units (Model.network (Example.model 1 1000 0))
      = [("batteries", su)] /\
    su_standing_loss su = 1 # 10000 /\
    forall x : Solution,
      LP.feasible (Model.network (Example.model 1 1000 0)) x ->
      forall t, (t < 2)%nat ->
        sol_state_of_charge x "batteries" t ==
          (1 - su_standing_loss su)
            * LP.soc_before (Model.network (Example.model 1 1000 0)) x
                "batteries" su t
          + su_efficiency_store su * sol_p_store x "batteries" t
          - sol_p_dispatch x "batteries" t / su_efficiency_dispatch su.
Proof.
  split; [apply example_init|].
  exact (standing_loss_fixed false Example.profiles 4 3 0 0 0 0 1 4 (9 # 10)
           1 100 1000 0 (Example.model 1 1000 0)
           (example_init false 1 1000 0)).
Defined.

Lemma get_results_needs_solution_witness :
  Model.__init__ false Example.profiles 4 3 0 0 0 0 1 4 (9 # 10) 1 100 1000 0
    = inr (Example.model 1 1000 0) /\
  Model.get_results (Example.model 1 1000 0) = inl (KeyError "pv") /\
  exists m' st,
    Model.optimize (answers Example.failed) (Example.model 1 1000 0)
      = inr (m', st) /\
    Model.get_results m' = inl (KeyError "pv").
Proof.
  split; [apply example_init|].
  destruct (get_results_needs_solution false Example.profiles 4 3 0 0 0 0 1 4
              (9 # 10) 1 100 1000 0 (Example.model 1 1000 0)
              (example_init false 1 1000 0)) as [H1 H2].
  split; [exact H1|]. apply H2. discriminate.
Defined.

(** C2, counterexample.  An empty profile table with the six columns:
    where the library accepts an empty snapshot index the constructor
    returns a model, and where it does not the failure is the library's
    [ValueError]; neither is a [ConfigurationError]. *)
Lemma empty_profiles_counterexample :
  (exists m,
     Model.__init__ false Example.empty_profiles 4 3 0 0 0 0 1 4 (9 # 10) 1
       100 1000 0 = inr m /\ snapshots (Model.network m) = []) /\
  Model.__init__ true Example.empty_profiles 4 3 0 0 0 0 1 4 (9 # 10) 1 100
    1000 0 = inl (ValueError "Snapshots must not be empty.") /\
  exn_class (ValueError "Snapshots must not be empty.")
    <> "ConfigurationError".
Proof.
  split_and!.
  - eexists. split; [vm_compute; reflexivity | reflexivity].
  - reflexivity.
  - discriminate.
Qed.

Lemma empty_profiles_not_rejected_witness :
  df_index Example.empty_profiles = [] /\
  (forall e,
     Model.__init__ true Example.empty_profiles 4 3 0 0 0 0 1 4 (9 # 10) 1 100
       1000 0 = inl e -> exn_class e <> "ConfigurationError") /\
  exists m,
    Model.__init__ false Example.empty_profiles 4 3 0 0 0 0 1 4 (9 # 10) 1
      100 1000 0 = inr m /\
    snapshots (Model.network m) = [] /\
    LP.horizon (Model.network m) = 0%nat /\
    Model.opt_state m = None.
Proof.
  split; [reflexivity|]. split.
  - exact (proj1 (empty_profiles_not_rejected true Example.empty_profiles 4 3
                    0 0 0 0 1 4 (9 # 10) 1 100 1000 0 eq_refl)).
  - destruct (empty_profiles_not_rejected false Example.empty_profiles 4 3
                0 0 0 0 1 4 (9 # 10) 1 100 1000 0 eq_refl) as (_ & _ & H).
    destruct (H eq_refl) as [_ H']. clear H.
    apply H'; unfold Example.empty_profiles; cbn [df_columns]; lookup_lit;
      eexists; reflexivity.
Defined.

(** The model that the driver constructs on the profile table of the
    scenario, with the capacities and costs that [main] passes. *)
Definition example_germany_model : Model.t :=
  {| Model.df_profiles := Example.profiles;
     Model.installed_capacities :=
       capacities 215000 115000 30000 5200 2100 25000 4;
     Model.charge_efficiency := 9 # 10; Model.discharge_efficiency := 1;
     Model.marginal_cost_residual := 100;
     Model.capital_cost_residual := 1000;
     Model.min_installed_cap_residual := 0;
     Model.network :=
       built_network [0; 1]%Z [Some 1; Some (1 # 2)] [Some 0; Some 0]
         [Some 0; Some 0] [Some 0; Some 0] [Some 0; Some 0]
         [Some (1 # 2); Some (1 # 2)]
         750000000 215000 115000 30000 5200 2100 25000 4 (9 # 10) 1 100
         1000 0;
     Model.opt_state := None |}.

Lemma example_main_init :
  Model.__init__ false Example.profiles 750000000 215000 115000 30000 5200
    2100 25000 4 (9 # 10) 1 100 1000 0 = inr example_germany_model.
Proof.
  apply init_inr. split; [reflexivity|].
  eexists _, _, _, _, _, _.
  split_and!;
    try (unfold Example.profiles; cbn [df_columns]; lookup_lit; reflexivity).
Qed.



(** With a capital cost of zero, the dispatch of the example is a least-cost
    one at any capacity that is feasible. *)
Lemma example_optimal_free (mincap cap : Q) :
  1 # 2 <= cap -> mincap <= cap ->
  LP.optimal (Model.network (Example.model 0 0 mincap)) (Example.dispatch cap).
Proof.
  intros Hcap Hmin. split.
  - apply feasible_built. split; [exact Hmin|].
    intros t Ht. unfold step_ok.
    destruct t as [|[|t]]; [| |simpl in Ht; lia];
      eexists _, _, _, _, _, _; (do 6 (split; [reflexivity|]));
      split_and!; cbn; first [lra | vm_compute; reflexivity].
  - intros y Hy. cbn [Model.network Example.model] in *.
    apply feasible_built in Hy as [Hymin Hstep].
    pose proof (Hstep 0%nat ltac:(simpl; lia)) as H0.
    pose proof (Hstep 1%nat ltac:(simpl; lia)) as H1.
    example_bounds H0. example_bounds H1.
    rewrite !objective_built. unfold total. cbn. cbn in *. lra.
Qed.

(** C8, counterexample.  The minimum capacity of 5 is above the load of 2
    of both snapshots.  With a capital cost of -1 the program is feasible,
    but next to every feasible assignment there is a cheaper feasible one
    with one more unit of capacity: no assignment is a least-cost one, and
    the solve cannot succeed.  With a capital cost of 0 the assignment
    with capacity 6 is a least-cost one: a solve can succeed with a
    capacity other than the minimum. *)
Lemma residual_capacity_counterexample :
  Model.__init__ false Example.profiles 4 3 0 0 0 0 0 4 (9 # 10) 1 100 (-1) 5
    = inr (Example.model 0 (-1) 5) /\
  (forall t, (t < 2)%nat ->
     exists L, load_at Example.profiles 4 t = Some L /\ L < 5) /\
  LP.feasible (Model.network (Example.model 0 (-1) 5)) (Example.dispatch 5) /\
  (forall x, LP.feasible (Model.network (Example.model 0 (-1) 5)) x ->
     exists y, LP.feasible (Model.network (Example.model 0 (-1) 5)) y /\
       LP.objective (Model.network (Example.model 0 (-1) 5)) y
       < LP.objective (Model.network (Example.model 0 (-1) 5)) x) /\
  (forall x, ~ LP.optimal (Model.network (Example.model 0 (-1) 5)) x) /\
  Model.__init__ false Example.profiles 4 3 0 0 0 0 0 4 (9 # 10) 1 100 0 5
    = inr (Example.model 0 0 5) /\
  LP.optimal (Model.network (Example.model 0 0 5)) (Example.dispatch 6) /\
  ~ residual_capacity (Example.dispatch 6) == 5.
Proof.
  assert (Hstep : forall x,
            LP.feasible (Model.network (Example.model 0 (-1) 5)) x ->
     exists y, LP.feasible (Model.network (Example.model 0 (-1) 5)) y /\
       LP.objective (Model.network (Example.model 0 (-1) 5)) y
       < LP.objective (Model.network (Example.model 0 (-1) 5)) x).
  { intros x Hx. exists (raised x 1). cbn [Model.network Example.model] in *.
    split; [apply raised_feasible; [lra | exact Hx]|].
    rewrite raised_objective. lra. }
  split; [apply example_init|]. split.
  { intros t Ht. destruct t as [|[|t]]; [| |lia];
      (eexists; split; [vm_compute; reflexivity | lra]). }
  split; [vm_compute; reflexivity|]. split; [exact Hstep|].
  split.
  { intros x [Hx Hopt]. destruct (Hstep x Hx) as (y & Hy & Hlt).
    specialize (Hopt y Hy). lra. }
  split; [apply example_init|].
  split; [apply example_optimal_free; lra|].
  intros H. vm_compute in H. discriminate.
Qed.

Lemma residual_capacity_at_minimum_witness :
  Model.__init__ false Example.profiles 4 3 0 0 0 0 0 4 (9 # 10) 1 100 1000 5
    = inr (Example.model 0 1000 5) /\
  LP.optimal (Model.network (Example.model 0 1000 5)) (Example.dispatch 5) /\
  residual_capacity (Example.dispatch 5) == 5.
Proof.
  split; [apply example_init|].
  assert (Hopt : LP.optimal (Model.network (Example.model 0 1000 5))
                   (Example.dispatch 5)).
  { apply example_optimal; [lra | lra | right; reflexivity]. }
  split; [exact Hopt|].
  destruct (residual_capacity_at_minimum false Example.profiles 4 3 0 0 0 0 0
              4 (9 # 10) 1 100 1000 5 (Example.model 0 1000 5)
              (example_init false 0 1000 5)) as (_ & H & _).
  apply H; try lra; [| exact Hopt].
  intros t Ht.
  destruct t as [|[|t]]; [| |simpl in Ht; lia];
    eexists _, _, _, _, _, _; split_and!;
    first [vm_compute; reflexivity | lra].
Defined.

(** What [get_results] changes in the model: the network's
    [generators_t.p] gains the column "actual_re_generation", which it did
    not have; every other field of the network and of the model is as
    before. *)
Lemma get_results_adds_column (strict : bool) (df : DataFrame)
    (load pv won woff bio hyd bat dur ce de mc cc mincap : Q) (m : Model.t)
    (out : SolverOutcome) :
  Model.__init__ strict df load pv won woff bio hyd bat dur ce de mc cc mincap
    = inr m ->
  status out = "ok" ->
  exists solved st tbl m',
    Model.optimize (answers out) m = inr (solved, st) /\
    Model.get_results solved = inr (tbl, m') /\
    generators_t_p (Model.network solved) !! "actual_re_generation" = None /\
    m' = Model.set_network
           (set_generators_t_p
              (<["actual_re_generation" :=
                   actual_re_generation (df_index df) (solution out)]>
                 (generators_t_p (Model.network solved)))
              (Model.network solved)) solved.
Proof.
  intros Hinit Hok.
  destruct (solved_results strict df load pv won woff bio hyd bat dur ce de mc
              cc mincap m out Hinit Hok)
    as (pvp & wonp & woffp & biop & hydp & loadp & _ & _ & _ & _ & _ & _
        & H).
  cbn zeta in H. destruct H as (Hn & Hopt & Hres).
  assert (Hs : Model.network (solved_model out m) =
               assign_solution (solution out) (Model.network m))
    by reflexivity.
  eexists _, _, _, _. split; [exact Hopt|]. split; [exact Hres|].
  rewrite Hs, Hn. split.
  - apply (assigned_columns (df_index df) pvp wonp woffp biop hydp loadp load
             pv won woff bio hyd bat dur ce de mc cc mincap (solution out)).
  - reflexivity.
Qed.

(** C3, on the scenario.  After a successful solve, [get_results] returns
    the table and also changes the network: the stored dispatch frame
    [generators_t.p], which had no column "actual_re_generation" before the
    call, has one afterwards. *)
Theorem get_results_changes_network :
  exists solved st tbl m' col,
    Model.optimize (answers (Example.solved_by Example.dispatch_with_battery))
      (Example.model 1 1000 0) = inr (solved, st) /\
    Model.get_results solved = inr (tbl, m') /\
    generators_t_p (Model.network solved) !! "actual_re_generation" = None /\
    generators_t_p (Model.network m') !! "actual_re_generation" = Some col /\
    cell_is (at_ col 0) 3.
Proof.
  eexists _, _, _, _, _. split; [vm_compute; reflexivity|].
  split; [vm_compute; reflexivity|].
  split; [vm_compute; reflexivity|].
  split; [vm_compute; reflexivity|].
  vm_compute. reflexivity.
Qed.

(** ** Properties of the plot *)

Lemma at_fmap (g : cell -> cell) (s : Series) (t : nat) :
  g None = None -> at_ (g <$> s) t = g (at_ s t).
Proof.
  intros Hg. unfold at_. rewrite list_lookup_fmap.
  destruct (s !! t) as [c|]; [reflexivity | symmetry; exact Hg].
Qed.

Lemma at_series_round (round_ : Rounding) (d : nat) (s : Series) (t : nat) :
  at_ (series_round round_ d s) t = round_ d <$> at_ s t.
Proof. unfold series_round. by rewrite at_fmap. Qed.

Lemma getitem_frame_round (round_ : Rounding) (d : nat)
    (cols : gmap string Series) (c : string) :
  getitem (frame_round round_ d cols) c =
  match cols !! c with
  | Some s => ret (series_round round_ d s)
  | None => raise (KeyError c)
  end.
Proof.
  unfold getitem, frame_round. rewrite lookup_fmap.
  destruct (cols !! c); reflexivity.
Qed.

(** *** What [plot_results] computes *)

(** The frame after the two assignments of [plot_results]. *)
Definition with_charge_discharge (df : DataFrame) (batteries : Series)
  : DataFrame :=
  {| df_index := df_index df; df_index_name := df_index_name df;
     df_columns :=
       <["discharge" := select_rows (fun v => negb (Qle_bool v 0)) batteries]>
       (<["charge" := select_rows (fun v => Qle_bool v 0) batteries]>
          (df_columns df)) |}.

(** The traces of the figure, in the order they are added. *)
Definition traces (round_ : Rounding) (x : list Z)
    (hydro biomass wind_off wind_on pv residual_load batteries load_ : Series)
  : list trace :=
  [ mkTrace "hydro" x (series_round round_ 2%nat hydro) (Some "ee");
    mkTrace "biomass" x (series_round round_ 2%nat biomass) (Some "ee");
    mkTrace "wind offshore" x (series_round round_ 2%nat wind_off) (Some "ee");
    mkTrace "wind onshore" x (series_round round_ 2%nat wind_on) (Some "ee");
    mkTrace "pv" x (series_round round_ 2%nat pv) (Some "ee");
    mkTrace "residual load" x (series_round round_ 2 (clamp_negative residual_load))
      (Some "ee");
    mkTrace "batteries (charge)" x
      (series_round round_ 2 (select_rows (fun v => Qle_bool v 0) batteries))
      (Some "ee");
    mkTrace "batteries (discharge)" x
      (series_round round_ 2 (select_rows (fun v => negb (Qle_bool v 0)) batteries))
      (Some "ee");
    mkTrace "load" x (series_round round_ 2%nat load_) None ].

(** [plot_results], read by cases on the columns that it looks up, in the
    order in which it does. *)
Lemma plot_results_cases (round_ : Rounding) (df : DataFrame) :
  plot_results round_ df =
  let cols := df_columns df in
  match cols !! "hydro" with
  | None => (df, raise (KeyError "hydro"))
  | Some hydro =>
  match cols !! "biomass" with
  | None => (df, raise (KeyError "biomass"))
  | Some biomass =>
  match cols !! "wind_off" with
  | None => (df, raise (KeyError "wind_off"))
  | Some wind_off =>
  match cols !! "wind_on" with
  | None => (df, raise (KeyError "wind_on"))
  | Some wind_on =>
  match cols !! "pv" with
  | None => (df, raise (KeyError "pv"))
  | Some pv =>
  match cols !! "residual_load" with
  | None => (df, raise (KeyError "residual_load"))
  | Some residual_load =>
  match cols !! "batteries" with
  | None => (df, raise (KeyError "batteries"))
  | Some batteries =>
  match cols !! "load" with
  | None => (with_charge_discharge df batteries, raise (KeyError "load"))
  | Some load_ =>
    (with_charge_discharge df batteries,
     ret (traces round_ (df_index df) hydro biomass wind_off wind_on pv
            residual_load batteries load_))
  end end end end end end end end.
Proof.
  cbn zeta. unfold plot_results, Plot.bind, Plot.index, Plot.rounded,
    Plot.column, Plot.assign, Plot.pure.
  cbn [ret raise].
  rewrite !getitem_frame_round.
  destruct (df_columns df !! "hydro") as [hydro|] eqn:E1; [|reflexivity].
  destruct (df_columns df !! "biomass") as [biomass|] eqn:E2; [|reflexivity].
  destruct (df_columns df !! "wind_off") as [wind_off|] eqn:E3; [|reflexivity].
  destruct (df_columns df !! "wind_on") as [wind_on|] eqn:E4; [|reflexivity].
  destruct (df_columns df !! "pv") as [pv|] eqn:E5; [|reflexivity].
  cbn [ret raise]. unfold getitem at 1.
  destruct (df_columns df !! "residual_load") as [residual_load|] eqn:E6;
    [|reflexivity].
  cbn [ret raise]. unfold getitem at 1.
  destruct (df_columns df !! "batteries") as [batteries|] eqn:E7;
    [|reflexivity].
  cbn [ret raise df_columns df_index]. unfold getitem at 1.
  rewrite lookup_insert_ne, E7 by done.
  cbn [ret raise df_columns df_index].
  rewrite !getitem_frame_round. lookup_lit.
  cbn [ret raise].
  destruct (df_columns df !! "load") as [load_|] eqn:E8; reflexivity.
Qed.

(** The columns that [plot_results] reads, in the order of its first read
    of each. *)
Definition plot_columns : list string :=
  ["hydro"; "biomass"; "wind_off"; "wind_on"; "pv"; "residual_load";
   "batteries"; "load"].

(** The legend names of the figure. *)
Definition trace_names : list string :=
  ["hydro"; "biomass"; "wind offshore"; "wind onshore"; "pv";
   "residual load"; "batteries (charge)"; "batteries (discharge)"; "load"].

Lemma at_clamp_negative (s : Series) (t : nat) :
  at_ (clamp_negative s) t =
  match at_ s t with
  | Some x => if Qle_bool 0 x then Some x else Some 0
  | None => None
  end.
Proof. unfold clamp_negative. by rewrite at_fmap. Qed.

Lemma at_select_rows (keep : Q -> bool) (s : Series) (t : nat) :
  at_ (select_rows keep s) t =
  match at_ s t with
  | Some x => if keep x then Some x else None
  | None => None
  end.
Proof. unfold select_rows. by rewrite at_fmap. Qed.

(** A successful call, inverted: every column was there, and the figure
    and the frame are the ones of [traces] and [with_charge_discharge]. *)
Lemma plot_results_inr (round_ : Rounding) (df : DataFrame)
    (fig : list trace) :
  snd (plot_results round_ df) = inr fig ->
  exists hydro biomass wind_off wind_on pv residual_load batteries load_,
    df_columns df !! "hydro" = Some hydro /\
    df_columns df !! "biomass" = Some biomass /\
    df_columns df !! "wind_off" = Some wind_off /\
    df_columns df !! "wind_on" = Some wind_on /\
    df_columns df !! "pv" = Some pv /\
    df_columns df !! "residual_load" = Some residual_load /\
    df_columns df !! "batteries" = Some batteries /\
    df_columns df !! "load" = Some load_ /\
    fst (plot_results round_ df) = with_charge_discharge df batteries /\
    fig = traces round_ (df_index df) hydro biomass wind_off wind_on pv
            residual_load batteries load_.
Proof.
  rewrite plot_results_cases. cbn zeta.
  destruct (df_columns df !! "hydro") as [hydro|]; [|discriminate].
  destruct (df_columns df !! "biomass") as [biomass|]; [|discriminate].
  destruct (df_columns df !! "wind_off") as [wind_off|]; [|discriminate].
  destruct (df_columns df !! "wind_on") as [wind_on|]; [|discriminate].
  destruct (df_columns df !! "pv") as [pv|]; [|discriminate].
  destruct (df_columns df !! "residual_load") as [residual_load|];
    [|discriminate].
  destruct (df_columns df !! "batteries") as [batteries|]; [|discriminate].
  destruct (df_columns df !! "load") as [load_|]; [|discriminate].
  cbn [fst snd]. intros [= <-].
  exists hydro, biomass, wind_off, wind_on, pv, residual_load, batteries, load_.
  split_and!; reflexivity.
Qed.

(** [plot_results] fails exactly when the frame lacks one of the eight
    columns it reads, with the [KeyError] of the first one missing in the
    order of [plot_columns]; otherwise it returns a figure of nine traces,
    named as in [trace_names], all over the frame's index. *)
Theorem plot_results_missing_column (round_ : Rounding) (df : DataFrame) :
  match find (fun c => bool_decide (df_columns df !! c = None)) plot_columns
  with
  | Some c => snd (plot_results round_ df) = raise (KeyError c)
  | None =>
    exists fig, snd (plot_results round_ df) = ret fig /\
      tr_name <$> fig = trace_names /\
      Forall (fun tr => tr_x tr = df_index df) fig
  end.
Proof.
  rewrite plot_results_cases. cbn zeta. unfold plot_columns.
  cbn [find].
  destruct (df_columns df !! "hydro") as [hydro|];
    [rewrite bool_decide_eq_false_2 by done
    | rewrite bool_decide_eq_true_2 by done; reflexivity].
  destruct (df_columns df !! "biomass") as [biomass|];
    [rewrite bool_decide_eq_false_2 by done
    | rewrite bool_decide_eq_true_2 by done; reflexivity].
  destruct (df_columns df !! "wind_off") as [wind_off|];
    [rewrite bool_decide_eq_false_2 by done
    | rewrite bool_decide_eq_true_2 by done; reflexivity].
  destruct (df_columns df !! "wind_on") as [wind_on|];
    [rewrite bool_decide_eq_false_2 by done
    | rewrite bool_decide_eq_true_2 by done; reflexivity].
  destruct (df_columns df !! "pv") as [pv|];
    [rewrite bool_decide_eq_false_2 by done
    | rewrite bool_decide_eq_true_2 by done; reflexivity].
  destruct (df_columns df !! "residual_load") as [residual_load|];
    [rewrite bool_decide_eq_false_2 by done
    | rewrite bool_decide_eq_true_2 by done; reflexivity].
  destruct (df_columns df !! "batteries") as [batteries|];
    [rewrite bool_decide_eq_false_2 by done
    | rewrite bool_decide_eq_true_2 by done; reflexivity].
  destruct (df_columns df !! "load") as [load_|];
    [rewrite bool_decide_eq_false_2 by done
    | rewrite bool_decide_eq_true_2 by done; reflexivity].
  eexists. split; [reflexivity|]. split; [reflexivity|].
  unfold traces. repeat constructor.
Qed.

(** The residual-load trace never shows a negative value: a negative cell
    of the column is plotted as 0, any other as its rounding, NaN as NaN.
    The clamping is done on a copy: the frame's own column is as before.
    Of the rounding this takes that it keeps 0 and rounds no value that is
    at least 0 to one below 0. *)
Theorem plotted_residual_load_nonnegative (round_ : Rounding)
    (df : DataFrame) (fig : list trace) (tr : trace) :
  (forall x, 0 <= x -> 0 <= round_ 2%nat x) -> round_ 2%nat 0 == 0 ->
  snd (plot_results round_ df) = inr fig ->
  In tr fig -> tr_name tr = "residual load" ->
  exists col,
    df_columns df !! "residual_load" = Some col /\
    df_columns (fst (plot_results round_ df)) !! "residual_load"
      = Some col /\
    forall t,
      match at_ col t with
      | Some x =>
        exists v, at_ (tr_y tr) t = Some v /\ 0 <= v /\
          (0 <= x -> v = round_ 2%nat x) /\ (x < 0 -> v == 0)
      | None => at_ (tr_y tr) t = None
      end.
Proof.
  intros Hround Hzero Hfig Hin Hname.
  apply plot_results_inr in Hfig
    as (hydro & biomass & wind_off & wind_on & pv & residual_load & batteries
        & load_ & _ & _ & _ & _ & _ & E6 & _ & _ & Hdf & ->).
  exists residual_load. split; [exact E6|]. split.
  { rewrite Hdf. unfold with_charge_discharge. cbn [df_columns].
    lookup_lit. exact E6. }
  unfold traces in Hin. cbn [In] in Hin.
  destruct Hin as [<-|[<-|[<-|[<-|[<-|[<-|[<-|[<-|[<-|[]]]]]]]]]];
    try discriminate Hname.
  intros t. cbn [tr_y]. rewrite at_series_round, at_clamp_negative.
  destruct (at_ residual_load t) as [x|]; [|reflexivity].
  destruct (Qle_bool 0 x) eqn:Hx.
  - apply Qle_bool_iff in Hx. eexists. split; [reflexivity|].
    split; [apply Hround, Hx|]. split; [reflexivity|]. lra.
  - eexists. split; [reflexivity|]. split; [rewrite Hzero; lra|].
    split; [|intros _; exact Hzero].
    intros H0. apply Qle_bool_iff in H0. congruence.
Qed.

(** The battery column is split by sign between two traces: at every row
    one of them holds the rounded value, the other NaN; charging and idle
    rows (value at most 0) go to "batteries (charge)", discharging rows to
    "batteries (discharge)". *)
Theorem charge_discharge_split (round_ : Rounding) (df : DataFrame)
    (fig : list trace) :
  snd (plot_results round_ df) = inr fig ->
  exists col chg dis,
    df_columns df !! "batteries" = Some col /\
    In (mkTrace "batteries (charge)" (df_index df) chg (Some "ee")) fig /\
    In (mkTrace "batteries (discharge)" (df_index df) dis (Some "ee")) fig /\
    forall t,
      match at_ col t with
      | Some v =>
        if Qle_bool v 0
        then at_ chg t = Some (round_ 2%nat v) /\ at_ dis t = None
        else at_ chg t = None /\ at_ dis t = Some (round_ 2%nat v)
      | None => at_ chg t = None /\ at_ dis t = None
      end.
Proof.
  intros Hfig.
  apply plot_results_inr in Hfig
    as (hydro & biomass & wind_off & wind_on & pv & residual_load & batteries
        & load_ & _ & _ & _ & _ & _ & _ & E7 & _ & _ & ->).
  eexists batteries, _, _. split; [exact E7|].
  split; [unfold traces; cbn [In]; do 6 right; left; reflexivity|].
  split; [unfold traces; cbn [In]; do 7 right; left; reflexivity|].
  intros t. rewrite !at_series_round, !at_select_rows.
  destruct (at_ batteries t) as [v|]; [|done].
  destruct (Qle_bool v 0); done.
Qed.

(** What the call does to the frame it is given, whether it returns or
    raises: index and existing columns are kept, and nothing but the
    columns "charge" and "discharge" is written; after a successful call
    both are there, holding the two parts of the battery column. *)
Theorem plot_results_changes_argument (round_ : Rounding) (df : DataFrame) :
  df_index (fst (plot_results round_ df)) = df_index df /\
  df_index_name (fst (plot_results round_ df)) = df_index_name df /\
  (forall c, c <> "charge" -> c <> "discharge" ->
     df_columns (fst (plot_results round_ df)) !! c = df_columns df !! c) /\
  (forall fig, snd (plot_results round_ df) = inr fig ->
     exists col,
       df_columns df !! "batteries" = Some col /\
       df_columns (fst (plot_results round_ df)) !! "charge"
         = Some (select_rows (fun v => Qle_bool v 0) col) /\
       df_columns (fst (plot_results round_ df)) !! "discharge"
         = Some (select_rows (fun v => negb (Qle_bool v 0)) col)).
Proof.
  split_and!.
  - rewrite plot_results_cases. cbn zeta.
    repeat (match goal with
            | |- context [match df_columns df !! ?c with _ => _ end] =>
              destruct (df_columns df !! c)
            end); reflexivity.
  - rewrite plot_results_cases. cbn zeta.
    repeat (match goal with
            | |- context [match df_columns df !! ?c with _ => _ end] =>
              destruct (df_columns df !! c)
            end); reflexivity.
  - intros c Hc Hd. rewrite plot_results_cases. cbn zeta.
    repeat (match goal with
            | |- context [match df_columns df !! ?k with _ => _ end] =>
              destruct (df_columns df !! k)
            end); try reflexivity;
      cbn [fst with_charge_discharge df_columns];
      rewrite !lookup_insert_ne by done; reflexivity.
  - intros fig Hfig.
    apply plot_results_inr in Hfig
      as (hydro & biomass & wind_off & wind_on & pv & residual_load
          & batteries & load_ & _ & _ & _ & _ & _ & _ & E7 & _ & Hdf & _).
    exists batteries. split; [exact E7|]. rewrite Hdf.
    unfold with_charge_discharge. cbn [df_columns].
    split; lookup_lit; reflexivity.
Qed.

(** ** The figures that the driver reports *)

Lemma fold_max_in (l : list Q) (x : Q) : In (fold_left Qmax l x) (x :: l).
Proof.
  revert x. induction l as [|y l IH]; intros x; cbn [fold_left].
  - left. reflexivity.
  - destruct (IH (Qmax x y)) as [E|Hin].
    + rewrite <- E. unfold Qmax, GenericMinMax.gmax.
      destruct (Qcompare x y); [left|right; left|left]; reflexivity.
    + right. right. exact Hin.
Qed.

Lemma fold_max_ge (l : list Q) (x : Q) :
  x <= fold_left Qmax l x /\ forall y, In y l -> y <= fold_left Qmax l x.
Proof.
  revert x. induction l as [|z l IH]; intros x; cbn [fold_left].
  - split; [lra | intros ? []].
  - destruct (IH (Qmax x z)) as [H1 H2].
    pose proof (Q.le_max_l x z). pose proof (Q.le_max_r x z).
    split; [lra|]. intros y [<-|Hy]; [lra | apply H2, Hy].
Qed.

Lemma positive_part_spec (s : Series) (x : Q) :
  In x (positive_part s) <-> (exists t, at_ s t = Some x) /\ ~ x <= 0.
Proof.
  unfold positive_part. rewrite <- list_elem_of_In, list_elem_of_omap.
  split.
  - intros (c & Hc & Hx). apply list_elem_of_lookup in Hc as [t Ht].
    destruct c as [y|]; [|discriminate].
    destruct (Qle_bool y 0) eqn:E; [discriminate|]. injection Hx as <-.
    split.
    + exists t. unfold at_. rewrite Ht. reflexivity.
    + intros H. apply Qle_bool_iff in H. congruence.
  - intros [[t Ht] Hx]. exists (Some x). split.
    + apply list_elem_of_lookup. exists t. unfold at_ in Ht.
      destruct (s !! t) as [c|]; [|discriminate]. cbn in Ht. congruence.
    + destruct (Qle_bool x 0) eqn:E; [|reflexivity].
      apply Qle_bool_iff in E. contradiction.
Qed.

Lemma series_sum_nonneg (l : list Q) :
  (forall x, In x l -> 0 <= x) -> 0 <= series_sum (Some <$> l).
Proof.
  induction l as [|x l IH]; intros H; cbn.
  - lra.
  - pose proof (H x (or_introl eq_refl)).
    assert (0 <= series_sum (Some <$> l)) by (apply IH; intros; apply H; by right).
    unfold series_sum in *. lra.
Qed.

(** The backup capacity that [main] reports is the largest positive value
    of the [residual_load] column, and NaN when no value is positive (the
    energy reported next to it is then 0); the reported energy is never
    negative. *)
Theorem backup_report (residual_load : Series) :
  match series_max (positive_part residual_load) with
  | Some g =>
    0 < g /\ (exists t, at_ residual_load t = Some g) /\
    forall t x, at_ residual_load t = Some x -> x <= g
  | None =>
    (forall t x, at_ residual_load t = Some x -> x <= 0) /\
    series_sum (Some <$> positive_part residual_load) == 0
  end /\
  0 <= series_sum (Some <$> positive_part residual_load).
Proof.
  split.
  - unfold series_max.
    destruct (positive_part residual_load) as [|y l] eqn:E.
    + split; [|reflexivity]. intros t x Hx.
      destruct (Qlt_le_dec 0 x) as [Hlt|Hle]; [|exact Hle].
      assert (Hin : In x (positive_part residual_load)).
      { apply positive_part_spec. split; [eauto | lra]. }
      rewrite E in Hin. destruct Hin.
    + pose proof (fold_max_in l y) as Hin. rewrite <- E in Hin.
      apply positive_part_spec in Hin as [Ht Hpos].
      destruct (fold_max_ge l y) as [G1 G2].
      split; [lra|]. split; [exact Ht|].
      intros t x Hx.
      destruct (Qlt_le_dec 0 x) as [Hlt|Hle]; [|lra].
      assert (Hx' : In x (positive_part residual_load)).
      { apply positive_part_spec. split; [eauto | lra]. }
      rewrite E in Hx'. destruct Hx' as [<-|Hx']; [exact G1 | apply G2, Hx'].
  - apply series_sum_nonneg. intros x Hx.
    apply positive_part_spec in Hx as [_ Hx]. lra.
Qed.

(** ** The constructor and the driver on incomplete profile tables *)

(** The profile columns that the constructor reads, in the order in which
    it reads them. *)
Definition profile_columns : list string :=
  ["pv_profile"; "wind_on_profile"; "wind_off_profile"; "biomass_profile";
   "hydro_profile"; "load_profile"].

(** Where the snapshot index is accepted, the constructor fails exactly
    when the profile table lacks one of the six profile columns, with the
    [KeyError] of the first one missing in the order of [profile_columns];
    otherwise it returns a model over the table's index. *)
Theorem constructor_missing_column (strict : bool) (df : DataFrame)
    (load pv won woff bio hyd bat dur ce de mc cc mincap : Q) :
  strict && bool_decide (df_index df = []) = false ->
  match find (fun c => bool_decide (df_columns df !! c = None)) profile_columns
  with
  | Some c =>
    Model.__init__ strict df load pv won woff bio hyd bat dur ce de mc cc
      mincap = raise (KeyError c)
  | None =>
    exists m,
      Model.__init__ strict df load pv won woff bio hyd bat dur ce de mc cc
        mincap = ret m /\
      snapshots (Model.network m) = df_index df /\
      Model.df_profiles m = df
  end.
Proof.
  intros E. unfold profile_columns. cbn [find].
  unfold Model.__init__, Model.setup_network, set_snapshots.
  cbn [Model.df_profiles]. rewrite E. cbn [bind ret raise].
  unfold Model.add_generators.
  cbn [Model.installed_capacities Model.df_profiles Model.network
       Model.set_network bind ret].
  getitem_lit. cbn [bind ret]. unfold getitem.
  destruct (df_columns df !! "pv_profile") as [pvp|] eqn:E1;
    cbn [bind ret raise];
    [rewrite bool_decide_eq_false_2 by done
    | rewrite bool_decide_eq_true_2 by done; reflexivity].
  destruct (df_columns df !! "wind_on_profile") as [wonp|] eqn:E2;
    cbn [bind ret raise];
    [rewrite bool_decide_eq_false_2 by done
    | rewrite bool_decide_eq_true_2 by done; reflexivity].
  destruct (df_columns df !! "wind_off_profile") as [woffp|] eqn:E3;
    cbn [bind ret raise];
    [rewrite bool_decide_eq_false_2 by done
    | rewrite bool_decide_eq_true_2 by done; reflexivity].
  destruct (df_columns df !! "biomass_profile") as [biop|] eqn:E4;
    cbn [bind ret raise];
    [rewrite bool_decide_eq_false_2 by done
    | rewrite bool_decide_eq_true_2 by done; reflexivity].
  destruct (df_columns df !! "hydro_profile") as [hydp|] eqn:E5;
    cbn [bind ret raise];
    [rewrite bool_decide_eq_false_2 by done
    | rewrite bool_decide_eq_true_2 by done; reflexivity].
  cbn [Model.installed_capacities Model.df_profiles Model.network
       Model.set_network bind ret Model.min_installed_cap_residual
       Model.marginal_cost_residual Model.capital_cost_residual
       Model.charge_efficiency Model.discharge_efficiency].
  destruct (df_columns df !! "load_profile") as [loadp|] eqn:E6;
    cbn [bind ret raise];
    [rewrite bool_decide_eq_false_2 by done
    | rewrite bool_decide_eq_true_2 by done; reflexivity].
  lookup_lit. cbn [bind ret].
  eexists. split; [reflexivity|]. split; reflexivity.
Qed.

(** When the constructor raises, the driver ends with that exception after
    its first log line, whatever the libraries would answer.  This is what
    [main] does as it stands: its placeholder profile table
    [pd.DataFrame()] has no column and no row, so it never reaches the
    optimization. *)
Theorem main_needs_profiles (strict : bool) (round_ : Rounding)
    (lib : Library) :
  (forall df e,
     Model.__init__ strict df 750000000 215000 115000 30000 5200 2100 25000 4
       (9 # 10) 1 100 1000 0 = inl e ->
     main_body strict round_ lib df
       = ([log_info "Initialize model"], raise e)) /\
  main strict round_ lib =
  ([log_info "Initialize model"],
   raise (if strict then ValueError "Snapshots must not be empty."
          else KeyError "pv_profile")).
Proof.
  split.
  - intros df e He. unfold main_body. rewrite He. reflexivity.
  - destruct strict; reflexivity.
Qed.

(** ** The result table, column by column *)

Lemma length_series_scale (s : Series) (k : Q) :
  length (series_scale s k) = length s.
Proof. unfold series_scale. apply length_fmap. Qed.

Lemma length_sum5 (a b c d e : Series) (T : nat) :
  length a = T -> length b = T -> length c = T -> length d = T ->
  length e = T -> length (sum5 a b c d e) = T.
Proof.
  intros. unfold sum5, series_add. rewrite !length_zip_with. lia.
Qed.

(** The column labels of the result table. *)
Definition result_labels : gset string :=
  list_to_set ["pv"; "wind_on"; "wind_off"; "biomass"; "hydro"; "batteries";
               "load"; "curtailed_re"; "residual_load"].

(** The table that [get_results] returns for a solved model is indexed by
    the snapshots under the index name "time" and has exactly nine
    columns, each with one cell per snapshot.  The five technology columns
    hold the AVAILABLE power (availability fraction times installed
    capacity), not the dispatched power, which the table does not show;
    "batteries" holds the battery's net power and "load" the load, with 0
    where the load profile has no value (NaN).  The two derived columns are
    computed from these cell by cell, NaN where the available power is
    NaN. *)
Theorem result_table_contents (strict : bool) (df : DataFrame)
    (load pv won woff bio hyd bat dur ce de mc cc mincap : Q) (m : Model.t)
    (out : SolverOutcome) :
  Model.__init__ strict df load pv won woff bio hyd bat dur ce de mc cc mincap
    = inr m ->
  status out = "ok" ->
  exists solved st tbl m',
    Model.optimize (answers out) m = inr (solved, st) /\
    Model.get_results solved = inr (tbl, m') /\
    df_index tbl = df_index df /\ df_index_name tbl = Some "time" /\
    dom (df_columns tbl) = result_labels /\
    (forall c col, df_columns tbl !! c = Some col ->
       length col = length (df_index df)) /\
    forall t, (t < length (df_index df))%nat ->
      column tbl "pv" t = available df "pv_profile" pv t /\
      column tbl "wind_on" t = available df "wind_on_profile" won t /\
      column tbl "wind_off" t = available df "wind_off_profile" woff t /\
      column tbl "biomass" t = available df "biomass_profile" bio t /\
      column tbl "hydro" t = available df "hydro_profile" hyd t /\
      column tbl "load" t = Some (default 0 (load_at df load t)) /\
      column tbl "batteries" t = Some (battery_net_power (solution out) t) /\
      column tbl "curtailed_re" t
        = csub (available_re df pv won woff bio hyd t)
            (Some (dispatched_re (solution out) t)) /\
      column tbl "residual_load" t
        = csub (csub (column tbl "load" t)
                  (available_re df pv won woff bio hyd t))
            (column tbl "batteries" t).
Proof.
  intros Hinit Hok.
  destruct (solved_results strict df load pv won woff bio hyd bat dur ce de mc
              cc mincap m out Hinit Hok)
    as (pvp & wonp & woffp & biop & hydp & loadp & E1 & E2 & E3 & E4 & E5
        & E6 & H).
  cbn zeta in H. destruct H as (_ & Hopt & Hres).
  eexists _, _, _, _. split; [exact Hopt|]. split; [exact Hres|].
  cbn [df_index df_index_name df_columns].
  split; [reflexivity|]. split; [reflexivity|].
  set (T := length (df_index df)).
  assert (L1 : forall (p : Series) (k : Q),
            length (series_scale (reindex T p) k) = T).
  { intros. by rewrite length_series_scale, length_reindex. }
  assert (L2 : forall f, length (tabulate T f) = T)
    by (intros; apply length_tabulate).
  split; [|split].
  - unfold result_columns, table_columns, result_labels.
    rewrite !dom_insert_L, dom_empty_L. cbn [list_to_set foldr].
    set_solver.
  - intros c col. unfold result_columns, table_columns.
    rewrite !lookup_insert_Some, lookup_empty.
    unfold re_power_availability, actual_re_generation, batteries_p, load_p,
      series_sub.
    intros H; decompose [and or] H; subst; try discriminate;
      rewrite ?length_zip_with, ?length_fmap, ?L1, ?L2, ?length_reindex;
      rewrite ?(length_sum5 _ _ _ _ _ T) by (first [apply L1 | apply L2]);
      fold T; lia.
  - intros t Ht. unfold available_re, available, load_at, column.
    cbn [df_columns]. unfold result_columns, table_columns.
    lookup_lit. rewrite E1, E2, E3, E4, E5, E6.
    unfold re_power_availability, actual_re_generation, batteries_p, load_p,
      sum5.
    rewrite !at_series_sub, !at_series_add.
    rewrite at_fillna by exact Ht.
    rewrite !at_series_scale, !at_reindex, !at_tabulate by exact Ht.
    unfold dispatched_re. split_and!; reflexivity.
Qed.

(** ** Extraction, repeated *)

Lemma set_generators_t_p_twice (c1 c2 : gmap string Series) (n : Network) :
  set_generators_t_p c1 (set_generators_t_p c2 n) = set_generators_t_p c1 n.
Proof. reflexivity. Qed.

Lemma set_network_twice (n1 n2 : Network) (self : Model.t) :
  Model.set_network n1 (Model.set_network n2 self) = Model.set_network n1 self.
Proof. reflexivity. Qed.

(** A second [get_results] on the model that the first one left returns
    the same table and changes nothing more: the column that the first
    call added to the network is computed again from the same dispatch
    columns and overwritten with the same values. *)
Theorem get_results_twice (strict : bool) (df : DataFrame)
    (load pv won woff bio hyd bat dur ce de mc cc mincap : Q) (m : Model.t)
    (out : SolverOutcome) :
  Model.__init__ strict df load pv won woff bio hyd bat dur ce de mc cc mincap
    = inr m ->
  status out = "ok" ->
  exists solved st tbl m',
    Model.optimize (answers out) m = inr (solved, st) /\
    Model.get_results solved = inr (tbl, m') /\
    Model.get_results m' = inr (tbl, m').
Proof.
  intros Hinit Hok.
  destruct (solved_results strict df load pv won woff bio hyd bat dur ce de mc
              cc mincap m out Hinit Hok)
    as (pvp & wonp & woffp & biop & hydp & loadp & E1 & E2 & E3 & E4 & E5
        & E6 & H).
  cbn zeta in H. destruct H as (Hn & Hopt & Hres).
  eexists _, _, _, _. split; [exact Hopt|]. split; [exact Hres|].
  set (n := built_network (df_index df) pvp wonp woffp biop hydp loadp
              load pv won woff bio hyd bat dur ce de mc cc mincap) in *.
  set (x := solution out) in *.
  set (n1 := assign_solution x n) in *.
  set (solved := solved_model out m) in *.
  set (act := actual_re_generation (df_index df) x).
  set (n2 := set_generators_t_p
               (<["actual_re_generation" := act]> (generators_t_p n1)) n1).
  destruct (built_p_max_pu (df_index df) pvp wonp woffp biop hydp loadp load
              pv won woff bio hyd bat dur ce de mc cc mincap)
    as (M1 & M2 & M3 & M4 & M5).
  destruct (built_p_nom (df_index df) pvp wonp woffp biop hydp loadp load
              pv won woff bio hyd bat dur ce de mc cc mincap)
    as (N1 & N2 & N3 & N4 & N5).
  destruct (assigned_columns (df_index df) pvp wonp woffp biop hydp loadp load
              pv won woff bio hyd bat dur ce de mc cc mincap x)
    as (G1 & G2 & G3 & G4 & G5 & B & L & _).
  cbn zeta in G1, G2, G3, G4, G5, B, L. fold n n1 in G1, G2, G3, G4, G5, B, L.
  fold n in M1, M2, M3, M4, M5, N1, N2, N3, N4, N5.
  assert (P : generators_t_p_max_pu n2 = generators_t_p_max_pu n)
    by reflexivity.
  assert (Q' : generators n2 = generators n) by reflexivity.
  pose proof (fun c p k =>
                built_available (df_index df) pvp wonp woffp biop hydp loadp
                  load pv won woff bio hyd bat dur ce de mc cc mincap n2 c p k
                  P Q') as BA.
  fold n in BA.
  rewrite (get_results_ok (Model.set_network n2 solved) _ _ _ _ _
             (BA _ _ _ M1 N1)
             (BA _ _ _ M2 N2)
             (BA _ _ _ M3 N3)
             (BA _ _ _ M4 N4)
             (BA _ _ _ M5 N5)
             (tabulate (length (df_index df)) (sol_p x "pv"))
             (tabulate (length (df_index df)) (sol_p x "wind_on"))
             (tabulate (length (df_index df)) (sol_p x "wind_off"))
             (tabulate (length (df_index df)) (sol_p x "biomass"))
             (tabulate (length (df_index df)) (sol_p x "hydro"))
             (batteries_p (df_index df) x) (load_p (df_index df) loadp load)).
  - cbn [Model.network Model.set_network].
    change (generators_t_p n2)
      with (<["actual_re_generation" := act]> (generators_t_p n1)).
    fold act. rewrite insert_insert_eq.
    change (snapshots n2) with (df_index df).
    unfold n2 at 1. rewrite set_generators_t_p_twice, set_network_twice.
    reflexivity.
  - cbn [Model.network Model.set_network].
    change (generators_t_p n2)
      with (<["actual_re_generation" := act]> (generators_t_p n1)).
    rewrite lookup_insert_ne by done. exact G1.
  - cbn [Model.network Model.set_network].
    change (generators_t_p n2)
      with (<["actual_re_generation" := act]> (generators_t_p n1)).
    rewrite lookup_insert_ne by done. exact G2.
  - cbn [Model.network Model.set_network].
    change (generators_t_p n2)
      with (<["actual_re_generation" := act]> (generators_t_p n1)).
    rewrite lookup_insert_ne by done. exact G3.
  - cbn [Model.network Model.set_network].
    change (generators_t_p n2)
      with (<["actual_re_generation" := act]> (generators_t_p n1)).
    rewrite lookup_insert_ne by done. exact G4.
  - cbn [Model.network Model.set_network].
    change (generators_t_p n2)
      with (<["actual_re_generation" := act]> (generators_t_p n1)).
    rewrite lookup_insert_ne by done. exact G5.
  - exact B.
  - exact L.
Qed.

(** ** The driver after the constructor *)

(** With its eight columns present, [plot_results] returns the figure. *)
Lemma plot_results_complete (round_ : Rounding) (df : DataFrame) :
  Forall (fun c => is_Some (df_columns df !! c)) plot_columns ->
  exists fig, snd (plot_results round_ df) = inr fig /\
    tr_name <$> fig = trace_names /\
    Forall (fun tr => tr_x tr = df_index df) fig.
Proof.
  unfold plot_columns. rewrite !Forall_cons.
  intros ([hydro E1] & [biomass E2] & [wind_off E3] & [wind_on E4] & [pv E5]
          & [residual_load E6] & [batteries E7] & [load_ E8] & _).
  rewrite plot_results_cases. cbn zeta.
  rewrite E1, E2, E3, E4, E5, E6, E7, E8. cbn [snd].
  eexists. split; [reflexivity|]. split; [reflexivity|].
  unfold traces. repeat constructor.
Qed.

Lemma frame_div_columns (df : DataFrame) (k : Q) (c : string) :
  is_Some (df_columns df !! c) -> is_Some (df_columns (frame_div df k) !! c).
Proof.
  intros [s Hs]. unfold frame_div. cbn [df_columns].
  rewrite lookup_fmap, Hs. eexists. reflexivity.
Qed.

Section Driver.

Variable strict : bool.
Variable round_ : Rounding.
Variable df : DataFrame.
Variable m : Model.t.

Hypothesis Hinit :
  Model.__init__ strict df 750000000 215000 115000 30000 5200 2100 25000 4
    (9 # 10) 1 100 1000 0 = inr m.

(** The events of the driver after a successful solve, the figures of its
    report being computed from the table that [get_results] returns and
    the figure being the one that [plot_results] returns. *)
Lemma main_success (out : SolverOutcome) :
  status out = "ok" ->
  exists solved st tbl m' residual_load curtailed_re fig,
    Model.optimize (answers out) m = inr (solved, st) /\
    Model.get_results solved = inr (tbl, m') /\
    df_columns tbl !! "residual_load" = Some residual_load /\
    df_columns tbl !! "curtailed_re" = Some curtailed_re /\
    snd (plot_results round_ (frame_div tbl 1000)) = inr fig /\
    tr_name <$> fig = trace_names /\
    Forall (fun tr => tr_x tr = df_index df) fig /\
    main_body strict round_ (answers out) df =
    ([log_info "Initialize model"; log_info "Run optimization";
      log_info "Optimization successful";
      log_backup_capacity
        (cmul (series_max (positive_part residual_load)) (Some (/ 1000)));
      log_backup_energy
        (Some (series_sum (Some <$> positive_part residual_load) / 1000000));
      log_curtailed (Some (series_sum curtailed_re / 1000000));
      write_html fig "result_plot.html"], ret tt).
Proof.
  intros Hok.
  destruct (solved_results strict df _ _ _ _ _ _ _ _ _ _ _ _ _ m out Hinit Hok)
    as (pvp & wonp & woffp & biop & hydp & loadp & _ & _ & _ & _ & _ & _ & H).
  cbn zeta in H. destruct H as (_ & Hopt & Hres).
  set (tbl := {| df_index := df_index df; df_index_name := Some "time";
                 df_columns := result_columns (df_index df) pvp wonp woffp
                                 biop hydp loadp 750000000 215000 115000
                                 30000 5200 2100 (solution out) |}) in *.
  destruct (plot_results_complete round_ (frame_div tbl 1000))
    as (fig & Hfig & Hnames & Hx).
  { unfold plot_columns, tbl.
    repeat constructor; apply frame_div_columns; cbn [df_columns];
      unfold result_columns, table_columns; lookup_lit; eexists;
      reflexivity. }
  eexists _, _, tbl, _, _, _, fig.
  split; [exact Hopt|]. split; [exact Hres|].
  split; [unfold tbl, result_columns, table_columns; cbn [df_columns];
          lookup_lit; reflexivity|].
  split; [unfold tbl, result_columns, table_columns; cbn [df_columns];
          lookup_lit; reflexivity|].
  split; [exact Hfig|]. split; [exact Hnames|]. split; [exact Hx|].
  unfold main_body. rewrite Hinit, Hopt. cbn [fst]. rewrite Hres.
  replace (getitem (df_columns tbl) "residual_load")
    with (@inr exn _ (series_sub
             (series_sub (load_p (df_index df) loadp 750000000)
                (re_power_availability (df_index df) pvp wonp woffp biop
                   hydp 215000 115000 30000 5200 2100))
             (batteries_p (df_index df) (solution out))))
    by (unfold tbl, result_columns, table_columns; cbn [df_columns];
        getitem_lit; reflexivity).
  replace (getitem (df_columns tbl) "curtailed_re")
    with (@inr exn _ (series_sub
             (re_power_availability (df_index df) pvp wonp woffp biop hydp
                215000 115000 30000 5200 2100)
             (actual_re_generation (df_index df) (solution out))))
    by (unfold tbl, result_columns, table_columns; cbn [df_columns];
        getitem_lit; reflexivity).
  rewrite Hfig. reflexivity.
Qed.

(** After a successful solve the driver logs, in this order, the three
    progress lines and the three figures of its report (the capacity and
    energy of the backup plants, read off the positive values of the
    [residual_load] column, and the curtailed energy, the sum of the
    [curtailed_re] column), then plots the table divided by 1000 and writes
    the figure; [plot_results] finds every column it reads, so that nothing
    is raised, and returns nine traces over the snapshots. *)
Theorem main_reports_results (out : SolverOutcome) :
  status out = "ok" ->
  exists solved st tbl m' residual_load curtailed_re fig,
    Model.optimize (answers out) m = inr (solved, st) /\
    Model.get_results solved = inr (tbl, m') /\
    df_columns tbl !! "residual_load" = Some residual_load /\
    df_columns tbl !! "curtailed_re" = Some curtailed_re /\
    main_body strict round_ (answers out) df =
    ([log_info "Initialize model"; log_info "Run optimization";
      log_info "Optimization successful";
      log_backup_capacity
        (cmul (series_max (positive_part residual_load)) (Some (/ 1000)));
      log_backup_energy
        (Some (series_sum (Some <$> positive_part residual_load) / 1000000));
      log_curtailed (Some (series_sum curtailed_re / 1000000));
      write_html fig "result_plot.html"], ret tt) /\
    snd (plot_results round_ (frame_div tbl 1000)) = inr fig /\
    tr_name <$> fig = trace_names /\
    Forall (fun tr => tr_x tr = df_index df) fig.
Proof.
  intros Hok.
  destruct (main_success out Hok)
    as (solved & st & tbl & m' & residual_load & curtailed_re & fig & Hopt
        & Hres & Hr & Hc & Hfig & Hnames & Hx & Hmain).
  exists solved, st, tbl, m', residual_load, curtailed_re, fig.
  split_and!; assumption.
Qed.

(** Once the model is constructed, how the driver ends is decided by the
    libraries alone.  When [optimize] raises, the driver ends with that
    exception after its second log line.  When the library calls return,
    the driver returns normally whatever the status: neither [get_results]
    nor [plot_results] raises on a solved model; it writes the plot file
    exactly when the status is "ok" and logs the failure exactly when it
    is not. *)
Theorem main_returns_after_construction :
  (forall lib e, Model.optimize lib m = inl e ->
     main_body strict round_ lib df =
     ([log_info "Initialize model"; log_info "Run optimization"], raise e)) /\
  (forall out,
     snd (main_body strict round_ (answers out) df) = ret tt /\
     ((exists fig, In (write_html fig "result_plot.html")
                     (fst (main_body strict round_ (answers out) df)))
      <-> status out = "ok") /\
     (In (log_error "Optimization not successful")
         (fst (main_body strict round_ (answers out) df))
      <-> status out <> "ok")).
Proof.
  split.
  { intros lib e He. unfold main_body. rewrite Hinit, He. reflexivity. }
  intros out.
  destruct (String.eqb_spec (status out) "ok") as [Hok|Hno].
  - destruct (main_success out Hok)
      as (solved & st & tbl & m' & residual_load & curtailed_re & fig & _
          & _ & _ & _ & _ & _ & _ & ->).
    cbn [fst snd In]. split; [reflexivity|]. split.
    + split; [done|]. intros _. exists fig. do 6 right. left. reflexivity.
    + split; [|done]. intros H.
      decompose [or] H; try discriminate; contradiction.
  - assert (Hmain : main_body strict round_ (answers out) df =
             ([log_info "Initialize model"; log_info "Run optimization";
               log_error "Optimization not successful"], ret tt)).
    { unfold main_body. rewrite Hinit. rewrite optimize_not_ok by done.
      cbn [fst].
      destruct (String.eqb_spec (status out) "ok") as [E|_]; [done|].
      reflexivity. }
    rewrite Hmain. cbn [fst snd In]. split; [reflexivity|]. split.
    + split; [|done]. intros [fig H].
      decompose [or] H; try discriminate; contradiction.
    + split; [done|]. intros _. do 2 right. left. reflexivity.
Qed.

End Driver.

(** ** The reported backup capacity and the optimised one *)

(** For a feasible solution, every value of the [residual_load] column is
    at most the residual dispatch of its timestep, so the "installed backup
    power plant capacity" that [main] reports, the largest positive value
    of that column, is at most the optimised capacity of the residual
    generator; it is not read from that capacity. *)
Theorem reported_capacity_bound (strict : bool) (df : DataFrame)
    (load pv won woff bio hyd bat dur ce de mc cc mincap : Q) (m : Model.t)
    (out : SolverOutcome) :
  Model.__init__ strict df load pv won woff bio hyd bat dur ce de mc cc mincap
    = inr m ->
  status out = "ok" ->
  LP.feasible (Model.network m) (solution out) ->
  exists solved st tbl m' col,
    Model.optimize (answers out) m = inr (solved, st) /\
    Model.get_results solved = inr (tbl, m') /\
    df_columns tbl !! "residual_load" = Some col /\
    (forall t x, at_ col t = Some x ->
       x <= residual_dispatch (solution out) t) /\
    forall g, series_max (positive_part col) = Some g ->
      g <= residual_capacity (solution out).
Proof.
  intros Hinit Hok Hfeasible.
  destruct (solved_results strict df load pv won woff bio hyd bat dur ce de mc
              cc mincap m out Hinit Hok)
    as (pvp & wonp & woffp & biop & hydp & loadp & E1 & E2 & E3 & E4 & E5
        & E6 & H).
  cbn zeta in H. destruct H as (_ & Hopt & Hres).
  eexists _, _, _, _, _. split; [exact Hopt|]. split; [exact Hres|].
  cbn [df_columns].
  split; [unfold result_columns, table_columns; lookup_lit; reflexivity|].
  set (x := solution out) in *.
  set (T := length (df_index df)).
  set (col := series_sub _ _).
  assert (Hlen : length col = T).
  { unfold col, series_sub, re_power_availability, batteries_p, load_p.
    rewrite !length_zip_with, length_fmap, length_reindex, length_tabulate.
    rewrite (length_sum5 _ _ _ _ _ T);
      [lia | | | | |]; by rewrite length_series_scale, length_reindex. }
  assert (Hcol : forall t v, at_ col t = Some v ->
            (t < T)%nat /\ v <= residual_dispatch x t).
  { intros t v Hv.
    assert (Ht : (t < T)%nat).
    { rewrite <- Hlen. apply lookup_lt_is_Some. unfold at_ in Hv.
      destruct (col !! t); [eauto | discriminate]. }
    split; [exact Ht|].
    destruct (solved_step strict df load pv won woff bio hyd bat dur ce de mc
                cc mincap m x Hinit Hfeasible t Ht)
      as (f1 & f2 & f3 & f4 & f5 & fl & C1 & C2 & C3 & C4 & C5 & Cl
          & _ & _ & B1 & B2 & B3 & B4 & B5 & _ & _ & _ & _ & _ & Hbal).
    unfold column in C1, C2, C3, C4, C5, Cl.
    rewrite E1 in C1. rewrite E2 in C2. rewrite E3 in C3. rewrite E4 in C4.
    rewrite E5 in C5. rewrite E6 in Cl.
    unfold col, re_power_availability, batteries_p, load_p, sum5 in Hv.
    rewrite !at_series_sub, !at_series_add in Hv.
    rewrite (at_available _ _ _ _ _ Ht C1), (at_available _ _ _ _ _ Ht C2),
      (at_available _ _ _ _ _ Ht C3), (at_available _ _ _ _ _ Ht C4),
      (at_available _ _ _ _ _ Ht C5) in Hv.
    rewrite at_fillna, at_series_scale, Cl, at_tabulate in Hv by done.
    cbn in Hv. injection Hv as <-.
    unfold dispatched_re, residual_dispatch, battery_net_power in *. lra. }
  split; [intros t v Hv; apply (Hcol t v Hv)|].
  intros g Hg. unfold series_max in Hg.
  destruct (positive_part col) as [|y l] eqn:E; [discriminate|].
  injection Hg as <-.
  pose proof (fold_max_in l y) as Hin. rewrite <- E in Hin.
  apply positive_part_spec in Hin as [[t Ht] _].
  destruct (Hcol _ _ Ht) as [HtT Hle].
  destruct (solved_step strict df load pv won woff bio hyd bat dur ce de mc
              cc mincap m x Hinit Hfeasible t HtT)
    as (f1 & f2 & f3 & f4 & f5 & fl & _ & _ & _ & _ & _ & _
        & _ & _ & _ & _ & _ & _ & _ & [_ Hcap] & _).
  lra.
Qed.

(** ** The constructed network *)

(** The constructor builds a single-bus network over the index of the
    profile table: six generators in a fixed order, one load and one
    storage unit, all on bus "DE".  Only "residual_load" has an optimised
    capacity, bounded below by [min_installed_cap_residual] and priced by
    the two cost arguments; the five renewables cost 0.1 per unit of energy
    and nothing per unit of capacity, and only they have an availability
    series.  No dispatch is stored and no status is recorded yet. *)
Theorem constructed_network (strict : bool) (df : DataFrame)
    (load pv won woff bio hyd bat dur ce de mc cc mincap : Q) (m : Model.t) :
  Model.__init__ strict df load pv won woff bio hyd bat dur ce de mc cc mincap
    = inr m ->
  snapshots (Model.network m) = df_index df /\
  buses (Model.network m) = ["DE"] /\
  fst <$> generators (Model.network m)
    = ["pv"; "wind_on"; "wind_off"; "biomass"; "hydro"; "residual_load"] /\
  fst <$> loads (Model.network m) = ["load"] /\
  fst <$> storage_units (Model.network m) = ["batteries"] /\
  Forall (fun e => g_bus (snd e) = "DE") (generators (Model.network m)) /\
  Forall (fun e => l_bus (snd e) = "DE") (loads (Model.network m)) /\
  Forall (fun e => su_bus (snd e) = "DE") (storage_units (Model.network m)) /\
  (forall name g, In (name, g) (generators (Model.network m)) ->
     (g_p_nom_extendable g = true <-> name = "residual_load") /\
     (name = "residual_load" ->
      g_p_nom_min g = mincap /\ g_marginal_cost g = mc /\
      g_capital_cost g = cc) /\
     (name <> "residual_load" ->
      g_marginal_cost g = 1 # 10 /\ g_capital_cost g = 0 /\
      Model.installed_capacities m !! name = Some (g_p_nom g))) /\
  dom (generators_t_p_max_pu (Model.network m))
    = list_to_set ["pv"; "wind_on"; "wind_off"; "biomass"; "hydro"] /\
  generators_t_p (Model.network m) = ∅ /\
  Model.opt_state m = None.
Proof.
  intros Hinit.
  apply init_inr in Hinit as (_ & pvp & wonp & woffp & biop & hydp & loadp
                              & _ & _ & _ & _ & _ & _ & ->).
  cbn [Model.network Model.opt_state Model.installed_capacities built_network
       snapshots buses generators loads storage_units generators_t_p_max_pu
       generators_t_p fmap list_fmap fst].
  split_and!; try reflexivity.
  - repeat constructor.
  - repeat constructor.
  - repeat constructor.
  - intros name g Hin. cbn [In] in Hin.
    destruct Hin as [[= <- <-]|[[= <- <-]|[[= <- <-]|[[= <- <-]|[[= <- <-]
                    |[[= <- <-]|[]]]]]]];
      cbn [Model.renewable g_p_nom_extendable g_p_nom_min g_marginal_cost
           g_capital_cost g_p_nom];
      (split; [split; [discriminate || reflexivity | discriminate || reflexivity]|]);
      (split; [intros E; try discriminate E; split_and!; reflexivity|]);
      intros E; try (by destruct E);
      split_and!; try reflexivity; unfold capacities; lookup_lit; reflexivity.
Qed.

Lemma constructed_network_witness :
  Model.__init__ false Example.profiles 4 3 0 0 0 0 1 4 (9 # 10) 1 100 1000 0
    = inr (Example.model 1 1000 0) /\
  fst <$> generators (Model.network (Example.model 1 1000 0))
    = ["pv"; "wind_on"; "wind_off"; "biomass"; "hydro"; "residual_load"] /\
  buses (Model.network (Example.model 1 1000 0)) = ["DE"].
Proof.
  split; [apply example_init|].
  pose proof (constructed_network false Example.profiles 4 3 0 0 0 0 1 4
                (9 # 10) 1 100 1000 0 (Example.model 1 1000 0)
                (example_init false 1 1000 0)) as H.
  split; [apply H|apply H].
Defined.

(** ** The extraction and the plot on the worked scenario *)

(** The result table of the scenario with a battery of power 1. *)
Definition example_table : DataFrame :=
  {| df_index := [0; 1]%Z; df_index_name := Some "time";
     df_columns :=
       result_columns [0; 1]%Z [Some 1; Some (1 # 2)] [Some 0; Some 0]
         [Some 0; Some 0] [Some 0; Some 0] [Some 0; Some 0]
         [Some (1 # 2); Some (1 # 2)] 4 3 0 0 0 0
         Example.dispatch_with_battery |}.

(** A rounding at which the plot of the scenario is evaluated: that of the
    exact rational to the nearest multiple of the last digit, ties to the
    even one.  It is one instance of the parameter [round_], not the
    rounding of floats. *)
Definition nearest (x : Q) : Z :=
  let f := Qfloor x in
  match Qcompare (x - inject_Z f) (1 # 2) with
  | Lt => f
  | Gt => (f + 1)%Z
  | Eq => if Z.even f then f else (f + 1)%Z
  end.

Definition round_exact : Rounding := fun digits x =>
  inject_Z (nearest (x * inject_Z (10 ^ Z.of_nat digits)))
  / inject_Z (10 ^ Z.of_nat digits).

Lemma nearest_nonneg (x : Q) : 0 <= x -> (0 <= nearest x)%Z.
Proof.
  intros Hx. unfold nearest.
  assert (H : (0 <= Qfloor x)%Z).
  { change 0%Z with (Qfloor 0). apply Qfloor_resp_le, Hx. }
  destruct (Qcompare _ _); [destruct (Z.even _)| |]; lia.
Qed.

Lemma round_exact_nonneg (d : nat) (x : Q) : 0 <= x -> 0 <= round_exact d x.
Proof.
  intros Hx. unfold round_exact.
  assert (Hs : 0 < inject_Z (10 ^ Z.of_nat d)).
  { change 0 with (inject_Z 0). rewrite <- Zlt_Qlt.
    apply Z.pow_pos_nonneg; lia. }
  apply Qle_shift_div_l; [exact Hs|]. rewrite Qmult_0_l.
  change 0 with (inject_Z 0). rewrite <- Zle_Qle. apply nearest_nonneg.
  apply Qmult_le_0_compat; lra.
Qed.

Lemma plotted_residual_load_nonnegative_witness :
  (forall x, 0 <= x -> 0 <= round_exact 2 x) /\
  round_exact 2 0 == 0 /\
  exists fig tr,
    snd (plot_results round_exact example_table) = inr fig /\
    In tr fig /\ tr_name tr = "residual load" /\
    exists col,
      df_columns example_table !! "residual_load" = Some col /\
      df_columns (fst (plot_results round_exact example_table))
        !! "residual_load" = Some col /\
      forall t,
        match at_ col t with
        | Some x =>
          exists v, at_ (tr_y tr) t = Some v /\ 0 <= v /\
            (0 <= x -> v = round_exact 2 x) /\ (x < 0 -> v == 0)
        | None => at_ (tr_y tr) t = None
        end.
Proof.
  split; [apply round_exact_nonneg|]. split; [reflexivity|].
  eexists _, _.
  split; [vm_compute; reflexivity|].
  split; [do 5 right; left; reflexivity|].
  split; [reflexivity|].
  eapply (plotted_residual_load_nonnegative round_exact).
  - apply round_exact_nonneg.
  - reflexivity.
  - vm_compute. reflexivity.
  - do 5 right. left. reflexivity.
  - reflexivity.
Defined.

Lemma charge_discharge_split_witness :
  exists fig,
    snd (plot_results round_exact example_table) = inr fig /\
    exists col chg dis,
      df_columns example_table !! "batteries" = Some col /\
      In (mkTrace "batteries (charge)" (df_index example_table) chg
            (Some "ee")) fig /\
      In (mkTrace "batteries (discharge)" (df_index example_table) dis
            (Some "ee")) fig /\
      forall t,
        match at_ col t with
        | Some v =>
          if Qle_bool v 0
          then at_ chg t = Some (round_exact 2 v) /\ at_ dis t = None
          else at_ chg t = None /\ at_ dis t = Some (round_exact 2 v)
        | None => at_ chg t = None /\ at_ dis t = None
        end.
Proof.
  eexists. split; [vm_compute; reflexivity|].
  apply (charge_discharge_split round_exact). vm_compute. reflexivity.
Defined.

Lemma constructor_missing_column_witness :
  false && bool_decide (df_index
     {| df_index := [0]%Z; df_index_name := None;
        df_columns := <["wind_on_profile" := [Some 1]]>
                      (<["pv_profile" := [Some 1]]> ∅) |} = []) = false /\
  Model.__init__ false
    {| df_index := [0]%Z; df_index_name := None;
       df_columns := <["wind_on_profile" := [Some 1]]>
                     (<["pv_profile" := [Some 1]]> ∅) |}
    4 3 0 0 0 0 1 4 (9 # 10) 1 100 1000 0
  = raise (KeyError "wind_off_profile").
Proof.
  split; [reflexivity|].
  exact (constructor_missing_column false
           {| df_index := [0]%Z; df_index_name := None;
              df_columns := <["wind_on_profile" := [Some 1]]>
                            (<["pv_profile" := [Some 1]]> ∅) |}
           4 3 0 0 0 0 1 4 (9 # 10) 1 100 1000 0 eq_refl).
Defined.

(** The profile table of the scenario with no value for the load of the
    second snapshot. *)
Definition profiles_without_load : DataFrame :=
  {| df_index := [0; 1]%Z; df_index_name := None;
     df_columns :=
       <["load_profile" := [Some (1 # 2); None]]>
         (df_columns Example.profiles) |}.

Lemma result_table_contents_witness :
  exists m solved st tbl m',
    Model.__init__ false profiles_without_load 4 3 0 0 0 0 1 4 (9 # 10) 1 100
      1000 0 = inr m /\
    status (Example.solved_by Example.dispatch_with_battery) = "ok" /\
    Model.optimize (answers (Example.solved_by Example.dispatch_with_battery))
      m = inr (solved, st) /\
    Model.get_results solved = inr (tbl, m') /\
    dom (df_columns tbl) = result_labels /\
    load_at profiles_without_load 4 1 = None /\
    column tbl "load" 1 = Some 0 /\
    column tbl "pv" 1 = available profiles_without_load "pv_profile" 3 1 /\
    column tbl "residual_load" 1
      = csub (csub (Some 0)
                (available_re profiles_without_load 3 0 0 0 0 1))
          (column tbl "batteries" 1).
Proof.
  assert (Hm : exists m,
            Model.__init__ false profiles_without_load 4 3 0 0 0 0 1 4
              (9 # 10) 1 100 1000 0 = inr m).
  { eexists. vm_compute. reflexivity. }
  destruct Hm as [m Hm].
  destruct (result_table_contents false profiles_without_load 4 3 0 0 0 0 1 4
              (9 # 10) 1 100 1000 0 m
              (Example.solved_by Example.dispatch_with_battery) Hm eq_refl)
    as (solved & st & tbl & m' & Hopt & Hres & _ & _ & Hdom & _ & H).
  destruct (H 1%nat ltac:(simpl; lia))
    as (Hpv & _ & _ & _ & _ & Hload & _ & _ & Hresidual).
  exists m, solved, st, tbl, m'.
  split; [exact Hm|]. split; [reflexivity|]. split; [exact Hopt|].
  split; [exact Hres|]. split; [exact Hdom|]. split; [reflexivity|].
  split; [exact Hload|]. split; [exact Hpv|].
  rewrite Hresidual, Hload. reflexivity.
Defined.

Lemma get_results_twice_witness :
  Model.__init__ false Example.profiles 4 3 0 0 0 0 1 4 (9 # 10) 1 100 1000 0
    = inr (Example.model 1 1000 0) /\
  status (Example.solved_by Example.dispatch_with_battery) = "ok" /\
  exists solved st tbl m',
    Model.optimize (answers (Example.solved_by Example.dispatch_with_battery))
      (Example.model 1 1000 0) = inr (solved, st) /\
    Model.get_results solved = inr (tbl, m') /\
    Model.get_results m' = inr (tbl, m').
Proof.
  split; [apply example_init|]. split; [reflexivity|].
  exact (get_results_twice false Example.profiles 4 3 0 0 0 0 1 4 (9 # 10)
           1 100 1000 0 (Example.model 1 1000 0)
           (Example.solved_by Example.dispatch_with_battery)
           (example_init false 1 1000 0) eq_refl).
Defined.

Lemma get_results_adds_column_witness :
  Model.__init__ false Example.profiles 4 3 0 0 0 0 1 4 (9 # 10) 1 100 1000 0
    = inr (Example.model 1 1000 0) /\
  status (Example.solved_by Example.dispatch_with_battery) = "ok" /\
  exists solved st tbl m',
    Model.optimize (answers (Example.solved_by Example.dispatch_with_battery))
      (Example.model 1 1000 0) = inr (solved, st) /\
    Model.get_results solved = inr (tbl, m') /\
    generators_t_p (Model.network solved) !! "actual_re_generation" = None /\
    m' = Model.set_network
           (set_generators_t_p
              (<["actual_re_generation" :=
                   actual_re_generation (df_index Example.profiles)
                     (solution
                        (Example.solved_by Example.dispatch_with_battery))]>
                 (generators_t_p (Model.network solved)))
              (Model.network solved))
           solved.
Proof.
  split; [apply example_init|]. split; [reflexivity|].
  exact (get_results_adds_column false Example.profiles 4 3 0 0 0 0 1 4
           (9 # 10) 1 100 1000 0 (Example.model 1 1000 0)
           (Example.solved_by Example.dispatch_with_battery)
           (example_init false 1 1000 0) eq_refl).
Defined.

Lemma main_reports_results_witness :
  Model.__init__ false Example.profiles 750000000 215000 115000 30000 5200
    2100 25000 4 (9 # 10) 1 100 1000 0 = inr example_germany_model /\
  status (Example.solved_by Example.dispatch_with_battery) = "ok" /\
  exists solved st tbl m' residual_load curtailed_re fig,
    Model.optimize (answers (Example.solved_by Example.dispatch_with_battery))
      example_germany_model = inr (solved, st) /\
    Model.get_results solved = inr (tbl, m') /\
    df_columns tbl !! "residual_load" = Some residual_load /\
    df_columns tbl !! "curtailed_re" = Some curtailed_re /\
    main_body false round_exact
      (answers (Example.solved_by Example.dispatch_with_battery))
      Example.profiles =
    ([log_info "Initialize model"; log_info "Run optimization";
      log_info "Optimization successful";
      log_backup_capacity
        (cmul (series_max (positive_part residual_load)) (Some (/ 1000)));
      log_backup_energy
        (Some (series_sum (Some <$> positive_part residual_load)
               / 1000000));
      log_curtailed (Some (series_sum curtailed_re / 1000000));
      write_html fig "result_plot.html"], ret tt) /\
    snd (plot_results round_exact (frame_div tbl 1000)) = inr fig /\
    tr_name <$> fig = trace_names /\
    Forall (fun tr => tr_x tr = df_index Example.profiles) fig.
Proof.
  split; [exact example_main_init|]. split; [reflexivity|].
  exact (main_reports_results false round_exact Example.profiles
           example_germany_model example_main_init
           (Example.solved_by Example.dispatch_with_battery) eq_refl).
Defined.

Lemma main_returns_after_construction_witness :
  Model.__init__ false Example.profiles 750000000 215000 115000 30000 5200
    2100 25000 4 (9 # 10) 1 100 1000 0 = inr example_germany_model /\
  snd (main_body false round_exact (answers Example.failed) Example.profiles)
    = ret tt /\
  (In (log_error "Optimization not successful")
      (fst (main_body false round_exact (answers Example.failed)
              Example.profiles))
   <-> status Example.failed <> "ok").
Proof.
  split; [exact example_main_init|].
  destruct (proj2 (main_returns_after_construction false round_exact
                     Example.profiles example_germany_model
                     example_main_init) Example.failed) as (H1 & _ & H2).
  split; [exact H1 | exact H2].
Defined.

Lemma reported_capacity_bound_witness :
  Model.__init__ false Example.profiles 4 3 0 0 0 0 0 4 (9 # 10) 1 100 1000 5
    = inr (Example.model 0 1000 5) /\
  status (Example.solved_by (Example.dispatch 5)) = "ok" /\
  LP.feasible (Model.network (Example.model 0 1000 5))
    (solution (Example.solved_by (Example.dispatch 5))) /\
  exists solved st tbl m' col,
    Model.optimize (answers (Example.solved_by (Example.dispatch 5)))
      (Example.model 0 1000 5) = inr (solved, st) /\
    Model.get_results solved = inr (tbl, m') /\
    df_columns tbl !! "residual_load" = Some col /\
    (forall t x, at_ col t = Some x ->
       x <= residual_dispatch
              (solution (Example.solved_by (Example.dispatch 5))) t) /\
    forall g, series_max (positive_part col) = Some g ->
      g <= residual_capacity
             (solution (Example.solved_by (Example.dispatch 5))).
Proof.
  split; [apply example_init|]. split; [reflexivity|].
  assert (Hf : LP.feasible (Model.network (Example.model 0 1000 5))
                 (solution (Example.solved_by (Example.dispatch 5))))
    by (vm_compute; reflexivity).
  split; [exact Hf|].
  exact (reported_capacity_bound false Example.profiles 4 3 0 0 0 0 0 4
           (9 # 10) 1 100 1000 5 (Example.model 0 1000 5)
           (Example.solved_by (Example.dispatch 5))
           (example_init false 0 1000 5) eq_refl Hf).
Defined.
